(** * Contract oversight system: scoring, alerting and benchmarking engines

    A shallow embedding of [src/scoring_engine.py] and of the scoring part of
    [src/benchmarking.py], followed by the properties stated about them.

    Conventions of the embedding.
    - Numbers come in two readings.  In the engines of the first part
      Python numbers ([int] and [float] alike) are exact rationals [Q] and
      [round(x, n)] rounds half to even on the exact value: the reading of
      the statements that do not turn on the last bit (ranges, orders,
      frames, what is written where).  The two functions whose computed
      value is itself stated, the cost variance score and the vendor
      score, are embedded again with Python's own numbers: integers of any
      size and binary64 doubles, every operation rounded as IEEE 754
      rounds it ([Binary64]).
    - A record ([Dict]) is a finite map from field names to Python values.
    - A computation that can raise returns a [result]; a computation that
      also reads the clock, writes the log or mutates an object of the heap
      is a function of the interpreter state ([Py]).
    - Library functions whose behaviour the engines do not fix (string
      conversion, ISO date parsing, number formatting, the clock) are the
      fields of the class [PyRuntime]. *)

From Stdlib Require Import ZArith QArith Qminmax Qround Qabs Qpower.
From Stdlib Require Import Sorted Permutation Lia Lqa.
From stdpp Require Import base option list gmap strings.

Local Open Scope string_scope.
Local Open Scope Q_scope.

(** ** Python values, exceptions and the interpreter state *)

Module Py.

(** The values a record field can hold (a database row: NULL, flag,
    number, text). *)
Inductive value : Type :=
| VNone
| VBool (b : bool)
| VNum (q : Q)
| VStr (s : string).

Inductive exn : Type :=
| TypeError
| ZeroDivisionError
| KeyError (key : string)
| IndexError
| OverflowError
| ValueError (msg : string).

Inductive result (A : Type) : Type :=
| Ok (a : A)
| Raise (e : exn).
Arguments Ok {A} a.
Arguments Raise {A} e.

#[global] Instance result_ret : MRet result := λ A a, Ok a.
#[global] Instance result_bind : MBind result :=
  λ A B f m, match m with Ok a => f a | Raise e => Raise e end.
#[global] Instance result_fmap : FMap result :=
  λ A B f m, match m with Ok a => Ok (f a) | Raise e => Raise e end.

Abbreviation dict := (gmap string value).
Abbreviation loc := positive.

(** Truth value testing: [None], [False], zero and the empty string are
    false. *)
Definition truthy (v : value) : bool :=
  match v with
  | VNone => false
  | VBool b => b
  | VNum q => negb (Qeq_bool q 0)
  | VStr s => negb (String.eqb s "")
  end.

(** [a or b] *)
Definition py_or (a b : value) : value := if truthy a then a else b.

(** [d.get(k, dflt)] and [d.get(k)] *)
Definition get (d : dict) (k : string) (dflt : value) : value :=
  default dflt (d !! k).
Definition get_ (d : dict) (k : string) : value := get d k VNone.

(** [d[k]] *)
Definition getitem (d : dict) (k : string) : result value :=
  match d !! k with
  | Some v => Ok v
  | None => Raise (KeyError k)
  end.

(** The number a value stands for in arithmetic and ordering; [bool] is a
    subclass of [int], text and [None] raise [TypeError]. *)
Definition as_num (v : value) : result Q :=
  match v with
  | VNum q => Ok q
  | VBool b => Ok (if b then 1 else 0)
  | VNone | VStr _ => Raise TypeError
  end.

(** [v == 'text'] never raises: values of other types are unequal. *)
Definition eq_str (v : value) (s : string) : bool :=
  match v with
  | VStr s' => String.eqb s' s
  | _ => false
  end.

Definition Qlt_bool (x y : Q) : bool := negb (Qle_bool y x).

(** [x / y] on numbers. *)
Definition truediv (x y : Q) : result Q :=
  if Qeq_bool y 0 then Raise ZeroDivisionError else Ok (x / y).

(** [max(a, b)] and [min(a, b)]: the first argument wins a tie. *)
Definition py_max (a b : Q) : Q := if Qlt_bool a b then b else a.
Definition py_min (a b : Q) : Q := if Qlt_bool b a then b else a.

(** Rounding half to even, to an integer and to [n] decimals. *)
Definition round_half_even (x : Q) : Z :=
  let f := Qfloor x in
  let r := x - inject_Z f in
  if Qlt_bool r (1 # 2) then f
  else if Qlt_bool (1 # 2) r then (f + 1)%Z
  else if Z.even f then f else (f + 1)%Z.

Definition py_round (x : Q) (ndigits : nat) : Q :=
  let scale := Pos.pow 10 (Pos.of_nat ndigits) in
  match ndigits with
  | O => inject_Z (round_half_even x)
  | S _ => Qmake (round_half_even (x * inject_Z (Zpos scale))) scale
  end.

(** [sum(xs)] *)
Definition py_sum (xs : list Q) : Q := foldl Qplus 0 xs.

(** [list.sort] and [sorted] are stable: [sort_by before] puts [x] in
    front of [y] when [before x y], and keeps the order of the input
    between elements that neither relation separates. *)
Section Sort.
Context {A : Type} (before : A → A → bool).

Fixpoint insert_by (x : A) (l : list A) : list A :=
  match l with
  | [] => [x]
  | y :: l' => if before y x then y :: insert_by x l' else x :: y :: l'
  end.

Definition sort_by (l : list A) : list A := foldr insert_by [] l.
End Sort.

(** [s[:n]], [s.lower()] (ASCII), [s.replace(a, b)] on characters and
    [sub in s]. *)
Definition prefix_of (n : nat) (s : string) : string := String.substring 0 n s.

Definition lower_ascii (c : Ascii.ascii) : Ascii.ascii :=
  let n := Ascii.nat_of_ascii c in
  if ((65 <=? n) && (n <=? 90))%nat then Ascii.ascii_of_nat (n + 32) else c.

Fixpoint lower (s : string) : string :=
  match s with
  | EmptyString => EmptyString
  | String c s' => String (lower_ascii c) (lower s')
  end.

Definition underscore : Ascii.ascii := Ascii.ascii_of_nat 95.
Definition space : Ascii.ascii := Ascii.ascii_of_nat 32.

Fixpoint replace_char (a b : Ascii.ascii) (s : string) : string :=
  match s with
  | EmptyString => EmptyString
  | String c s' =>
      String (if Ascii.eqb c a then b else c) (replace_char a b s')
  end.

Fixpoint contains (sub s : string) : bool :=
  String.prefix sub s ||
  match s with
  | EmptyString => false
  | String _ s' => contains sub s'
  end.

(** The library functions the engines call and do not define.  A date or
    time is a number of microseconds; [fromisoformat] is [None] where
    Python raises [ValueError]. *)
Class PyRuntime : Type := {
  py_str : value → string;
  fromisoformat : string → option Z;
  isoformat : Z → string;
  format_fixed : nat → Q → string;
  clock : nat → Z
}.

(** [(a - b).days] *)
Definition days_between (a b : Z) : Z := ((a - b) / 86400000000)%Z.

(** The interpreter state: the mutable records and lists, the number of
    clock readings made so far, and the error log. *)
Record world : Type := World {
  dicts : gmap loc dict;
  lists : gmap loc (list Q);
  ticks : nat;
  log : list (string * exn)
}.

Definition Py (A : Type) : Type := world → result A * world.

#[global] Instance Py_ret : MRet Py := λ A a w, (Ok a, w).
#[global] Instance Py_bind : MBind Py :=
  λ A B f m w,
    match m w with
    | (Ok a, w') => f a w'
    | (Raise e, w') => (Raise e, w')
    end.

Definition lift {A} (r : result A) : Py A := λ w, (r, w).

(** [try: body except Exception as e: handler(e)] *)
Definition try_except {A} (body : Py A) (handler : exn → Py A) : Py A :=
  λ w, match body w with
       | (Ok a, w') => (Ok a, w')
       | (Raise e, w') => handler e w'
       end.

(** A [for] loop that threads the local variables [acc]. *)
Fixpoint for_each {A B} (xs : list A) (body : B → A → Py B) (acc : B) : Py B :=
  match xs with
  | [] => mret acc
  | x :: xs' => acc' ← body acc x; for_each xs' body acc'
  end.

(** The record behind a reference; a reference always points at one. *)
Definition deref (c : loc) : Py dict := λ w, (Ok (dicts w !!! c), w).

(** [c[k] = v] *)
Definition setitem (c : loc) (k : string) (v : value) : Py unit :=
  λ w, (Ok tt, World (<[c := <[k := v]> (dicts w !!! c)]> (dicts w))
                     (lists w) (ticks w) (log w)).

Definition deref_list (l : loc) : Py (list Q) :=
  λ w, (Ok (lists w !!! l), w).

Definition assign_list (l : loc) (xs : list Q) : Py unit :=
  λ w, (Ok tt, World (dicts w) (<[l := xs]> (lists w)) (ticks w) (log w)).

(** [datetime.now()] *)
Definition now `{PyRuntime} : Py Z :=
  λ w, (Ok (clock (ticks w)), World (dicts w) (lists w) (S (ticks w)) (log w)).

(** [logger.error(...)] *)
Definition log_error (what : string) (e : exn) : Py unit :=
  λ w, (Ok tt, World (dicts w) (lists w) (ticks w) (log w ++ [(what, e)])%list).

End Py.

Import Py.

(** ** Contract scoring engine ([class ContractScoringEngine]) *)

Module ContractScoringEngine.

(** [self.health_weights] and [self.risk_thresholds] *)
Definition health_weights (component : string) : Q :=
  if String.eqb component "cost_variance" then 0.30
  else if String.eqb component "schedule_variance" then 0.25
  else if String.eqb component "performance" then 0.25
  else 0.20.

Definition risk_thresholds (tier : string) : Q :=
  if String.eqb tier "critical" then 30
  else if String.eqb tier "high" then 50
  else if String.eqb tier "medium" then 70
  else 100.

Definition calculate_cost_variance_score (contract : dict) : result Q :=
  let original := py_or (get contract "original_amount" (VNum 0)) (VNum 0) in
  let current := py_or (get contract "current_amount" (VNum 0)) (VNum 0) in
  original ← as_num original;
  if Qle_bool original 0 then Ok 50
  else
    current ← as_num current;
    ratio ← truediv (current - original) original;
    let variance_pct := ratio * 100 in
    if Qle_bool variance_pct 0 then Ok 100
    else if Qle_bool variance_pct 5 then Ok 95
    else if Qle_bool variance_pct 10 then Ok 85
    else if Qle_bool variance_pct 15 then Ok 70
    else if Qle_bool variance_pct 20 then Ok 55
    else if Qle_bool variance_pct 30 then Ok 40
    else Ok (py_max 20 (40 - (variance_pct - 30))).

Section Dates.
Context `{PyRuntime}.

(** [datetime.fromisoformat(str(v)[:n])] *)
Definition parse_iso (n : nat) (v : value) : result Z :=
  match fromisoformat (prefix_of n (py_str v)) with
  | Some t => Ok t
  | None => Raise (ValueError "Invalid isoformat string")
  end.

Definition schedule_variance_body (original_end current_end start_date : value)
  : result Q :=
  original_end_dt ← parse_iso 10 original_end;
  current_end_dt ← parse_iso 10 (py_or current_end original_end);
  start_dt ← parse_iso 10 start_date;
  let original_duration := days_between original_end_dt start_dt in
  if (original_duration <=? 0)%Z then Ok 50
  else
    let extension_days := days_between current_end_dt original_end_dt in
    ratio ← truediv (inject_Z extension_days) (inject_Z original_duration);
    let extension_pct := ratio * 100 in
    if Qle_bool extension_pct 0 then Ok 100
    else if Qle_bool extension_pct 5 then Ok 90
    else if Qle_bool extension_pct 10 then Ok 80
    else if Qle_bool extension_pct 20 then Ok 65
    else if Qle_bool extension_pct 30 then Ok 50
    else Ok (py_max 20 (50 - (extension_pct - 30))).

Definition calculate_schedule_variance_score (contract : dict) : result Q :=
  let original_end := get_ contract "original_end_date" in
  let current_end := get_ contract "current_end_date" in
  let start_date := get_ contract "start_date" in
  if negb (truthy original_end) || negb (truthy start_date) then Ok 50
  else
    match schedule_variance_body original_end current_end start_date with
    | Ok score => Ok score
    | Raise (ValueError _) | Raise TypeError => Ok 50
    | Raise e => Raise e
    end.

(** The three counters of the milestone loop. *)
Record tally : Type := Tally {
  completed_on_time : nat;
  completed_late : nat;
  overdue : nat
}.

Definition count_milestone (t : tally) (m : dict) : tally :=
  let status := get m "status" (VStr "") in
  let due_date := get_ m "due_date" in
  let completed_date := get_ m "completed_date" in
  if eq_str status "Completed" then
    if truthy due_date && truthy completed_date then
      match
        due ← parse_iso 10 due_date;
        completed ← parse_iso 10 completed_date;
        mret (completed <=? due)%Z
      with
      | Ok true => Tally (S (completed_on_time t)) (completed_late t) (overdue t)
      | Ok false => Tally (completed_on_time t) (S (completed_late t)) (overdue t)
      | Raise _ => Tally (S (completed_on_time t)) (completed_late t) (overdue t)
      end
    else Tally (S (completed_on_time t)) (completed_late t) (overdue t)
  else if eq_str status "Overdue" then
    Tally (completed_on_time t) (completed_late t) (S (overdue t))
  else t.

Definition milestone_base_score (milestones : list dict) : result Q :=
  let total := inject_Z (Z.of_nat (length milestones)) in
  if Qlt_bool 0 total then
    let t := foldl count_milestone (Tally 0 0 0) milestones in
    on_time ← truediv (inject_Z (Z.of_nat (completed_on_time t))) total;
    late ← truediv (inject_Z (Z.of_nat (completed_late t))) total;
    over ← truediv (inject_Z (Z.of_nat (overdue t))) total;
    let on_time_pct := on_time * 100 in
    let late_pct := late * 100 in
    let overdue_pct := over * 100 in
    let base_score := on_time_pct - (late_pct * 0.3) - (overdue_pct * 0.5) in
    Ok (py_max 0 (py_min 100 base_score))
  else Ok 50.

Definition calculate_performance_score
    (contract : dict) (milestones : option (list dict)) : result Q :=
  base_score ←
    match milestones with
    | Some (m :: ms) => milestone_base_score (m :: ms)
    | Some [] | None => Ok 50
    end;
  percent_complete ←
    as_num (py_or (get contract "percent_complete" (VNum 0)) (VNum 0));
  Ok ((base_score * 0.7) + (percent_complete * 0.3)).

Definition calculate_compliance_score (contract : dict) : result Q :=
  let score := 100 in
  let score :=
    if truthy (get_ contract "requires_insurance")
       && negb (truthy (get_ contract "insurance_verified"))
    then score - 20 else score in
  let score :=
    if truthy (get_ contract "requires_bond")
       && negb (truthy (get_ contract "bond_verified"))
    then score - 15 else score in
  let board_date := get_ contract "board_approval_date" in
  let award_date := get_ contract "award_date" in
  score ←
    (if truthy award_date && negb (truthy board_date) then
       amount ← as_num (py_or (get contract "current_amount" (VNum 0)) (VNum 0));
       if Qlt_bool 50000 amount then Ok (score - 25) else Ok score
     else Ok score);
  let score :=
    if truthy (get_ contract "is_sole_source")
       && negb (truthy (get_ contract "justification"))
    then score - 15 else score in
  Ok (py_max 0 score).

Definition calculate_overall_health
    (contract : dict) (milestones : option (list dict)) : result Q :=
  cost_score ← calculate_cost_variance_score contract;
  schedule_score ← calculate_schedule_variance_score contract;
  performance_score ← calculate_performance_score contract milestones;
  compliance_score ← calculate_compliance_score contract;
  let health :=
    cost_score * health_weights "cost_variance" +
    schedule_score * health_weights "schedule_variance" +
    performance_score * health_weights "performance" +
    compliance_score * health_weights "compliance" in
  Ok (py_round health 1).

Definition determine_risk_level (health_score : Q) : string :=
  if Qlt_bool health_score (risk_thresholds "critical") then "Critical"
  else if Qlt_bool health_score (risk_thresholds "high") then "High"
  else if Qlt_bool health_score (risk_thresholds "medium") then "Medium"
  else "Low".

(** [score_contract] receives a reference to the record, writes the six
    derived fields into it and returns the reference. *)
Definition score_contract (contract : loc) (milestones : option (list dict))
  : Py loc :=
  c ← deref contract;
  v ← lift (calculate_cost_variance_score c);
  setitem contract "cost_variance_score" (VNum v);;
  c ← deref contract;
  v ← lift (calculate_schedule_variance_score c);
  setitem contract "schedule_variance_score" (VNum v);;
  c ← deref contract;
  v ← lift (calculate_performance_score c milestones);
  setitem contract "performance_score" (VNum v);;
  c ← deref contract;
  v ← lift (calculate_compliance_score c);
  setitem contract "compliance_score" (VNum v);;
  c ← deref contract;
  v ← lift (calculate_overall_health c milestones);
  setitem contract "overall_health_score" (VNum v);;
  c ← deref contract;
  h ← lift (getitem c "overall_health_score" ≫= as_num);
  setitem contract "risk_level" (VStr (determine_risk_level h));;
  mret contract.

End Dates.

End ContractScoringEngine.

(** ** Vendor scoring engine ([class VendorScoringEngine]) *)

Module VendorScoringEngine.

(** One turn of the loop over the vendor's contracts; the local variables
    are [(total_weight, weighted_score)]. *)
Definition vendor_step (acc : Q * Q) (contract : dict) : result (Q * Q) :=
  let amount := py_or (get contract "current_amount" (VNum 0)) (VNum 1) in
  let health := get contract "overall_health_score" (VNum 50) in
  health ← as_num health;
  amount ← as_num amount;
  Ok (acc.1 + amount, acc.2 + health * amount).

Fixpoint vendor_loop (contracts : list dict) (acc : Q * Q) : result (Q * Q) :=
  match contracts with
  | [] => Ok acc
  | contract :: rest => acc' ← vendor_step acc contract; vendor_loop rest acc'
  end.

Definition calculate_vendor_score (vendor : dict) (contracts : list dict)
  : result Q :=
  match contracts with
  | [] => Ok 50
  | _ :: _ =>
      acc ← vendor_loop contracts (0, 0);
      let total_weight := acc.1 in
      let weighted_score := acc.2 in
      if Qlt_bool 0 total_weight then
        mean ← truediv weighted_score total_weight;
        Ok (py_round mean 1)
      else Ok 50
  end.

(** The bundle [get_vendor_metrics] returns. *)
Record vendor_metrics : Type := VendorMetrics {
  total_contracts : nat;
  total_value : Q;
  avg_health_score : Q;
  on_time_rate : Q;
  budget_adherence_rate : Q;
  active_contracts : nat;
  completed_contracts : nat
}.

(** [[f(c) for c in contracts]], stopping at the first exception. *)
Fixpoint each {A B} (f : A → result B) (xs : list A) : result (list B) :=
  match xs with
  | [] => Ok []
  | x :: rest => y ← f x; ys ← each f rest; Ok (y :: ys)
  end.

(** [sum(1 for c in contracts if test(c))] *)
Definition count_where {A} (test : A → result bool) (xs : list A) : result nat :=
  flags ← each test xs; Ok (length (filter (λ b, b = true) flags)).

(** [c.get(field, 50) >= 70] *)
Definition at_least_70 (field : string) (c : dict) : result bool :=
  score ← as_num (get c field (VNum 50)); Ok (Qle_bool 70 score).

Definition get_vendor_metrics (vendor : dict) (contracts : list dict)
  : result vendor_metrics :=
  match contracts with
  | [] => Ok (VendorMetrics 0 0 50 0 0 0 0)
  | _ :: _ =>
      let n := inject_Z (Z.of_nat (length contracts)) in
      amounts ←
        each (λ c, as_num (py_or (get c "current_amount" (VNum 0)) (VNum 0)))
             contracts;
      let total_value := py_sum amounts in
      healths ←
        each (λ c, as_num (get c "overall_health_score" (VNum 50))) contracts;
      avg_health ← truediv (py_sum healths) n;
      on_time ← count_where (at_least_70 "schedule_variance_score") contracts;
      on_budget ← count_where (at_least_70 "cost_variance_score") contracts;
      let active :=
        length (filter (λ c, eq_str (get_ c "status") "Active" = true)
                       contracts) in
      let completed :=
        length (filter (λ c, eq_str (get_ c "status") "Completed" = true)
                       contracts) in
      on_time_share ← truediv (inject_Z (Z.of_nat on_time)) n;
      on_budget_share ← truediv (inject_Z (Z.of_nat on_budget)) n;
      Ok (VendorMetrics (length contracts) total_value (py_round avg_health 1)
            (py_round (on_time_share * 100) 1)
            (py_round (on_budget_share * 100) 1)
            active completed)
  end.

End VendorScoringEngine.

(** ** Alert generator ([class AlertGenerator]) *)

Module AlertGenerator.

Import ContractScoringEngine.

Record rule : Type := Rule {
  rule_id : string;
  rule_name : string;
  rule_severity : string;
  condition : dict → Py value
}.

Record alert : Type := Alert {
  alert_id : string;
  contract_id : value;
  contract_title : value;
  vendor_name : value;
  alert_type : string;
  title : string;
  severity : string;
  generated_at : string
}.

Definition _cost_overrun (contract : dict) (min_pct max_pct : Q) : result bool :=
  let original := py_or (get contract "original_amount" (VNum 0)) (VNum 0) in
  let current := py_or (get contract "current_amount" (VNum 0)) (VNum 0) in
  original ← as_num original;
  if Qle_bool original 0 then Ok false
  else
    current ← as_num current;
    ratio ← truediv (current - original) original;
    let variance_pct := ratio * 100 in
    Ok (Qle_bool min_pct variance_pct && Qlt_bool variance_pct max_pct).

Section Rules.
Context `{PyRuntime}.

Definition schedule_delay_body
    (original_end current_end start_date : value) (min_pct max_pct : Q)
  : result bool :=
  original_end_dt ← parse_iso 10 original_end;
  current_end_dt ← parse_iso 10 (py_or current_end original_end);
  start_dt ← parse_iso 10 start_date;
  let original_duration := days_between original_end_dt start_dt in
  if (original_duration <=? 0)%Z then Ok false
  else
    let extension_days := days_between current_end_dt original_end_dt in
    ratio ← truediv (inject_Z extension_days) (inject_Z original_duration);
    let extension_pct := ratio * 100 in
    Ok (Qle_bool min_pct extension_pct && Qlt_bool extension_pct max_pct).

Definition _schedule_delay (contract : dict) (min_pct max_pct : Q) : result bool :=
  let original_end := get_ contract "original_end_date" in
  let current_end := get_ contract "current_end_date" in
  let start_date := get_ contract "start_date" in
  if negb (truthy original_end) || negb (truthy start_date) then Ok false
  else
    match schedule_delay_body original_end current_end start_date min_pct max_pct with
    | Ok b => Ok b
    | Raise _ => Ok false
    end.

Definition _expiring_soon (contract : dict) (days : Z) : Py bool :=
  let end_date :=
    py_or (get_ contract "current_end_date") (get_ contract "original_end_date") in
  if negb (truthy end_date) then mret false
  else
    try_except
      (end_dt ← lift (parse_iso 10 end_date);
       today ← now;
       let days_until := days_between end_dt today in
       mret ((0 <? days_until)%Z && (days_until <=? days)%Z))
      (λ _, mret false).

Definition _no_recent_activity (contract : dict) (days : Z) : Py bool :=
  let updated := get_ contract "updated_at" in
  if negb (truthy updated) then mret false
  else
    try_except
      (updated_dt ← lift (parse_iso 19 updated);
       today ← now;
       let days_since := days_between today updated_dt in
       mret ((days <? days_since)%Z && eq_str (get_ contract "status") "Active"))
      (λ _, mret false).

(** [self.alert_rules], in the order of the source. *)
Definition alert_rules : list rule := [
  Rule "cost_overrun_warning" "Cost Overrun Warning" "High"
    (λ c, lift (VBool <$> _cost_overrun c 10 20));
  Rule "cost_overrun_critical" "Critical Cost Overrun" "Critical"
    (λ c, lift (VBool <$> _cost_overrun c 20 100));
  Rule "schedule_delay_warning" "Schedule Delay Warning" "Medium"
    (λ c, lift (VBool <$> _schedule_delay c 10 20));
  Rule "schedule_delay_critical" "Critical Schedule Delay" "High"
    (λ c, lift (VBool <$> _schedule_delay c 20 100));
  Rule "expiring_soon" "Contract Expiring Soon" "Medium"
    (λ c, b ← _expiring_soon c 30; mret (VBool b));
  Rule "insurance_expired" "Insurance Not Verified" "High"
    (λ c, let required := get_ c "requires_insurance" in
          mret (if truthy required
                then VBool (negb (truthy (get_ c "insurance_verified")))
                else required));
  Rule "low_health_score" "Low Health Score" "High"
    (λ c, score ← lift (as_num (py_or (get c "overall_health_score" (VNum 100))
                                      (VNum 100)));
          mret (VBool (Qlt_bool score 50)));
  Rule "multiple_change_orders" "Excessive Change Orders" "Medium"
    (λ c, count ← lift (as_num (py_or (get c "change_order_count" (VNum 0))
                                      (VNum 0)));
          mret (VBool (Qle_bool 3 count)));
  Rule "no_activity" "No Recent Activity" "Low"
    (λ c, b ← _no_recent_activity c 60; mret (VBool b))
].

(** [severity_order.get(severity, 4)] *)
Definition severity_order (severity : string) : nat :=
  if String.eqb severity "Critical" then 0
  else if String.eqb severity "High" then 1
  else if String.eqb severity "Medium" then 2
  else if String.eqb severity "Low" then 3
  else 4.

Definition by_severity (a b : alert) : bool :=
  (severity_order (severity a) <? severity_order (severity b))%nat.

Definition make_alert (contract : dict) (r : rule) : Py alert :=
  today ← now;
  mret (Alert (py_str (get_ contract "contract_id") ++ "_" ++ rule_id r)
              (get_ contract "contract_id")
              (get_ contract "title")
              (get_ contract "vendor_name")
              (rule_id r) (rule_name r) (rule_severity r)
              (isoformat today)).

(** The body of the inner loop: one rule on one contract, inside its
    [try]. *)
Definition check_rule (contract : dict) (alerts : list alert) (r : rule)
  : Py (list alert) :=
  try_except
    (fired ← condition r contract;
     if truthy fired then
       a ← make_alert contract r;
       mret (alerts ++ [a])%list
     else mret alerts)
    (λ e, log_error ("Error checking rule " ++ rule_id r) e;; mret alerts).

(** The two loops: every rule on every contract, in this order. *)
Definition collect_alerts (rules : list rule) (contracts : list dict)
  : Py (list alert) :=
  for_each contracts
    (λ alerts contract, for_each rules (check_rule contract) alerts)
    [].

Definition generate_alerts_with (rules : list rule) (contracts : list dict)
  : Py (list alert) :=
  alerts ← collect_alerts rules contracts;
  mret (sort_by by_severity alerts).

Definition generate_alerts (contracts : list dict) : Py (list alert) :=
  generate_alerts_with alert_rules contracts.

End Rules.

End AlertGenerator.

(** ** Benchmarking engine ([benchmarking.py]) *)

Module Benchmarking.

(** An entry of [COUPA_BENCHMARKS]. *)
Record kpi_entry : Type := Benchmark {
  kpi_name : string;
  kpi_category : string;
  benchmark_value : Q;
  kpi_unit : string;
  kpi_direction : string;
  kpi_description : string;
  kpi_importance : string
}.

(** A dictionary literal, in the order it is written. *)
Fixpoint lookup_key {A} (k : string) (table : list (string * A)) : option A :=
  match table with
  | [] => None
  | (k', v) :: rest => if String.eqb k' k then Some v else lookup_key k rest
  end.

Definition BENCHMARK_CATEGORIES : list (string * string) := [
  ("spend_analysis", "Spend Analysis");
  ("supplier_management", "Supplier Risk & Performance Management");
  ("source_to_contract", "Source-to-Contract");
  ("procurement", "Procurement");
  ("cash_liquidity", "Cash & Liquidity Management");
  ("e_invoicing", "E-Invoicing");
  ("expenses", "Expenses");
  ("payments", "Payments")
].

Definition COUPA_BENCHMARKS : list (string * kpi_entry) := [
  ("increase_visibility_managed_spend",
   Benchmark "Increase in Visibility of Managed Spend" "spend_analysis" 24.4
     "percent" "higher"
     "Percentage increase in spend visibility after implementation" "high");
  ("supplier_info_mgmt_cycle_time",
   Benchmark "Supplier Information Management Cycle Time" "supplier_management"
     6.6 "business_hours" "lower"
     "Time to complete supplier onboarding/updates" "medium");
  ("spend_with_primary_suppliers",
   Benchmark "Spend with Primary Suppliers" "supplier_management" 17.5
     "percent" "higher"
     "Percentage of spend concentrated with strategic suppliers" "medium");
  ("contract_mgmt_cycle_time",
   Benchmark "Contract Management Cycle Time" "source_to_contract" 11.3
     "business_days" "lower"
     "Days from contract request to execution" "high");
  ("on_contract_spend",
   Benchmark "On-Contract Spend" "source_to_contract" 81.1 "percent" "higher"
     "Percentage of spend under contract coverage" "high");
  ("structured_spend",
   Benchmark "Structured Spend" "procurement" 55.3 "percent" "higher"
     "Spend processed through structured procurement channels" "high");
  ("pre_approved_spend",
   Benchmark "Pre-Approved Spend" "procurement" 96.4 "percent" "higher"
     "Spend that goes through proper approval workflows" "critical");
  ("electronic_po_processing",
   Benchmark "Electronic PO Processing Rate" "procurement" 98.8 "percent"
     "higher" "Purchase orders processed electronically" "medium");
  ("requisition_to_order_cycle_time",
   Benchmark "Requisition-to-Order Cycle Time" "procurement" 4.0
     "business_hours" "lower"
     "Hours from requisition submission to PO creation" "high");
  ("touchless_cash_reconciliation",
   Benchmark "Touchless Cash Flow Reconciliation" "cash_liquidity" 99.97
     "percent" "higher" "Automated cash reconciliation rate" "medium");
  ("cash_concentration_index",
   Benchmark "Cash Concentration Index" "cash_liquidity" 76.0 "percent"
     "higher" "Effectiveness of cash pooling and concentration" "medium");
  ("electronic_invoice_processing",
   Benchmark "Electronic Invoice Processing Rate" "e_invoicing" 86.2 "percent"
     "higher" "Invoices processed electronically" "high");
  ("invoice_approval_cycle_time",
   Benchmark "Invoice Approval Cycle Time" "e_invoicing" 10.5 "business_hours"
     "lower" "Hours to approve an invoice" "high");
  ("first_time_match_rate",
   Benchmark "First-Time Match Rate" "e_invoicing" 97.1 "percent" "higher"
     "Invoices that match PO on first attempt" "high");
  ("expense_report_approval_cycle_time",
   Benchmark "Expense Report Approval Cycle Time" "expenses" 7.5
     "business_hours" "lower" "Hours to approve expense reports" "medium");
  ("expense_lines_within_policy",
   Benchmark "Expense Lines Within Policy" "expenses" 98.9 "percent" "higher"
     "Expense line items compliant with policy" "high");
  ("invoices_paid_digitally",
   Benchmark "Invoices Paid Digitally" "payments" 96.0 "percent" "higher"
     "Payments made through digital channels" "medium");
  ("suppliers_using_digital_payments",
   Benchmark "Suppliers Using Digital Payments" "payments" 96.2 "percent"
     "higher" "Suppliers accepting digital payments" "medium");
  ("payment_batch_approval_cycle_time",
   Benchmark "Payment Batch Approval Cycle Time" "payments" 4.2
     "business_hours" "lower" "Hours to approve payment batches" "medium")
].

Definition IMPORTANCE_WEIGHTS : list (string * Q) := [
  ("critical", 2.0); ("high", 1.5); ("medium", 1.0); ("low", 0.5)
].

Record KPIScore : Type := mkKPIScore {
  kpi_id : string;
  name : string;
  category : string;
  actual_value : Q;
  score_benchmark_value : Q;
  unit : string;
  direction : string;
  score : Q;
  gap : Q;
  gap_percent : Q;
  rating : string;
  recommendation : string
}.

Record CategoryScore : Type := mkCategoryScore {
  category_id : string;
  category_name : string;
  category_score : Q;
  kpi_scores : list KPIScore;
  strengths : list string;
  improvement_areas : list string
}.

Record ProcurementHealthScore : Type := mkProcurementHealthScore {
  overall_score : Q;
  grade : string;
  health_rating : string;
  category_scores : list (string * CategoryScore);
  top_strengths : list string;
  priority_improvements : list string;
  peer_comparison : list (string * Q);
  calculated_at : Z
}.

(** The attributes [__init__] sets on a [BenchmarkingEngine]. *)
Record BenchmarkingEngine : Type := mkEngine {
  benchmarks : list (string * kpi_entry);
  categories : list (string * string);
  importance_weights : list (string * Q)
}.

Definition __init__ : BenchmarkingEngine :=
  mkEngine COUPA_BENCHMARKS BENCHMARK_CATEGORIES IMPORTANCE_WEIGHTS.

(** [x in ['a', 'b']] *)
Definition one_of (x : string) (options : list string) : bool :=
  existsb (String.eqb x) options.

(** [get_benchmark_summary]: the table, regrouped by category. *)
Record kpi_info : Type := mkKpiInfo {
  info_id : string;
  info_name : string;
  info_benchmark : Q;
  info_unit : string;
  info_direction : string;
  info_importance : string;
  info_description : string
}.

Record category_summary : Type := mkCategorySummary {
  summary_name : string;
  kpi_count : nat;
  summary_kpis : list kpi_info
}.

Record benchmark_summary : Type := mkSummary {
  total_kpis : nat;
  summary_categories : list (string * category_summary);
  all_kpis : list kpi_info
}.

(** [d[k] = v] on a dictionary kept in insertion order. *)
Fixpoint assoc_set {A} (k : string) (v : A) (d : list (string * A))
  : list (string * A) :=
  match d with
  | [] => [(k, v)]
  | (k', v') :: rest =>
      if String.eqb k' k then (k, v) :: rest else (k', v') :: assoc_set k v rest
  end.

Definition describe (entry : string * kpi_entry) : kpi_info :=
  mkKpiInfo entry.1 (kpi_name entry.2) (benchmark_value entry.2)
    (kpi_unit entry.2) (kpi_direction entry.2) (kpi_importance entry.2)
    (kpi_description entry.2).

Definition summary_step (self : BenchmarkingEngine) (summary : benchmark_summary)
    (category : string * string) : benchmark_summary :=
  let category_kpis :=
    describe <$>
    filter (λ kv, String.eqb (kpi_category kv.2) category.1 = true)
           (benchmarks self) in
  mkSummary (total_kpis summary)
    (assoc_set category.1
       (mkCategorySummary category.2 (length category_kpis) category_kpis)
       (summary_categories summary))
    (all_kpis summary ++ category_kpis)%list.

Definition get_benchmark_summary (self : BenchmarkingEngine) : benchmark_summary :=
  foldl (summary_step self) (mkSummary (length (benchmarks self)) [] [])
        (categories self).

(** [a == b] on values: numbers and flags compare as numbers. *)
Definition py_eq (a b : value) : bool :=
  match a, b with
  | VNone, VNone => true
  | VStr s, VStr t => String.eqb s t
  | (VNum _ | VBool _), (VNum _ | VBool _) =>
      match as_num a, as_num b with
      | Ok x, Ok y => Qeq_bool x y
      | _, _ => false
      end
  | _, _ => false
  end.

(** [d[k] = d.get(k, 0) + amount] on a dictionary keyed by values. *)
Fixpoint add_spend (k : value) (amount : Q) (d : list (value * Q))
  : list (value * Q) :=
  match d with
  | [] => [(k, 0 + amount)]
  | (k', v) :: rest =>
      if py_eq k' k then (k', v + amount) :: rest
      else (k', v) :: add_spend k amount rest
  end.

(** [v in ['a', 'b', ...]] *)
Definition among (v : value) (options : list string) : bool :=
  existsb (eq_str v) options.

(** [c.get('current_amount', 0) or 0], as a number. *)
Definition amount_of (c : dict) : result Q :=
  as_num (py_or (get c "current_amount" (VNum 0)) (VNum 0)).

(** The loop that fills [vendor_spend]. *)
Fixpoint spend_by_vendor (contracts : list dict) (vendor_spend : list (value * Q))
  : result (list (value * Q)) :=
  match contracts with
  | [] => Ok vendor_spend
  | c :: rest =>
      let vid := get_ c "vendor_id" in
      if truthy vid then
        amount ← amount_of c;
        spend_by_vendor rest (add_spend vid amount vendor_spend)
      else spend_by_vendor rest vendor_spend
  end.

Section Engine.
Context `{PyRuntime}.

Definition _generate_recommendation (self : BenchmarkingEngine)
    (kpi_id : string) (actual benchmark : Q) (direction rating : string)
  : result string :=
  if one_of rating ["Excellent"; "Good"] then
    Ok "Maintain current performance. Consider documenting best practices."
  else
    match lookup_key kpi_id (benchmarks self) with
    | None => Raise (KeyError kpi_id)
    | Some kpi =>
        let name := kpi_name kpi in
        if String.eqb direction "higher" then
          let gap := benchmark - actual in
          if contains "cycle_time" (lower kpi_id) then
            Ok ("Reduce " ++ name ++ " by " ++ format_fixed 1 gap ++ " "
                ++ replace_char underscore space (kpi_unit kpi)
                ++ " to meet benchmark.")
          else
            Ok ("Increase " ++ name ++ " by " ++ format_fixed 1 gap
                ++ "% to reach the industry benchmark of "
                ++ py_str (VNum benchmark) ++ "%.")
        else
          let gap := actual - benchmark in
          Ok ("Reduce " ++ name ++ " by " ++ format_fixed 1 gap ++ " "
              ++ replace_char underscore space (kpi_unit kpi)
              ++ " to meet industry best practices.")
    end.

(** [(gap / benchmark * 100) if benchmark > 0 else 0] *)
Definition gap_percent_of (gap benchmark : Q) : result Q :=
  if Qlt_bool 0 benchmark then
    ratio ← truediv gap benchmark; Ok (ratio * 100)
  else Ok 0.

Definition rating_of (score : Q) : string :=
  if Qle_bool 90 score then "Excellent"
  else if Qle_bool 75 score then "Good"
  else if Qle_bool 60 score then "Fair"
  else if Qle_bool 40 score then "Poor"
  else "Critical".

Definition score_kpi (self : BenchmarkingEngine) (kpi_id : string)
    (actual_value : Q) : result KPIScore :=
  match lookup_key kpi_id (benchmarks self) with
  | None => Raise (ValueError ("Unknown KPI: " ++ kpi_id))
  | Some kpi =>
      let benchmark := benchmark_value kpi in
      let direction := kpi_direction kpi in
      '(gap, gap_percent, score) ←
        (if String.eqb direction "higher" then
           let gap := actual_value - benchmark in
           gap_percent ← gap_percent_of gap benchmark;
           score ←
             (if Qle_bool benchmark actual_value then
                Ok (py_min 100 (100 + (gap_percent * 0.1)))
              else
                ratio ← truediv actual_value benchmark;
                Ok (py_max 0 (ratio * 100)));
           Ok (gap, gap_percent, score)
         else
           let gap := benchmark - actual_value in
           gap_percent ← gap_percent_of gap benchmark;
           score ←
             (if Qle_bool actual_value benchmark then
                Ok (py_min 100 (100 + (gap_percent * 0.1)))
              else if Qlt_bool 0 actual_value then
                ratio ← truediv benchmark actual_value;
                Ok (py_max 0 (ratio * 100))
              else Ok 0);
           Ok (gap, gap_percent, score));
      let rating := rating_of score in
      recommendation ←
        _generate_recommendation self kpi_id actual_value benchmark direction
          rating;
      Ok (mkKPIScore kpi_id (kpi_name kpi) (kpi_category kpi) actual_value
            benchmark (kpi_unit kpi) direction (py_round score 1)
            (py_round gap 2) (py_round gap_percent 1) rating recommendation)
  end.

(** One turn of the loop of [score_category]; the local variables are
    [(kpi_scores, weighted_sum, total_weight)]. *)
Definition category_step (self : BenchmarkingEngine) (kpi_values : gmap string Q)
    (acc : list KPIScore * Q * Q) (kpi_id : string)
  : result (list KPIScore * Q * Q) :=
  let '(kpi_scores, weighted_sum, total_weight) := acc in
  match kpi_values !! kpi_id with
  | None => Ok acc
  | Some actual =>
      kpi_score ← score_kpi self kpi_id actual;
      kpi ← match lookup_key kpi_id (benchmarks self) with
            | Some kpi => Ok kpi
            | None => Raise (KeyError kpi_id)
            end;
      let weight :=
        default 1.0 (lookup_key (kpi_importance kpi) (importance_weights self)) in
      Ok ((kpi_scores ++ [kpi_score])%list,
          weighted_sum + score kpi_score * weight,
          total_weight + weight)
  end.

Fixpoint category_loop (self : BenchmarkingEngine) (kpi_values : gmap string Q)
    (kpi_ids : list string) (acc : list KPIScore * Q * Q)
  : result (list KPIScore * Q * Q) :=
  match kpi_ids with
  | [] => Ok acc
  | kpi_id :: rest =>
      acc' ← category_step self kpi_values acc kpi_id;
      category_loop self kpi_values rest acc'
  end.

Definition score_category (self : BenchmarkingEngine) (category_id : string)
    (kpi_values : gmap string Q) : result CategoryScore :=
  let category_kpis :=
    filter (λ kv, String.eqb (kpi_category kv.2) category_id = true)
           (benchmarks self) in
  acc ← category_loop self kpi_values (fst <$> category_kpis) ([], 0, 0);
  let '(kpi_scores, weighted_sum, total_weight) := acc in
  category_score ←
    (if Qlt_bool 0 total_weight then truediv weighted_sum total_weight
     else Ok 0);
  let strengths :=
    name <$> filter (λ s, one_of (rating s) ["Excellent"; "Good"] = true)
                    kpi_scores in
  let improvements :=
    name <$> filter (λ s, one_of (rating s) ["Poor"; "Critical"] = true)
                    kpi_scores in
  Ok (mkCategoryScore category_id
        (default category_id (lookup_key category_id (categories self)))
        (py_round category_score 1) kpi_scores strengths improvements).

(** [peer_scores.index(score)] *)
Fixpoint index_of (x : Q) (xs : list Q) : result nat :=
  match xs with
  | [] => Raise (ValueError "x not in list")
  | y :: rest => if Qeq_bool y x then Ok O else S <$> index_of x rest
  end.

Definition descending (a b : Q) : bool := Qlt_bool b a.

(** [peer_data] maps ['scores'] to a list object of the caller. *)
Definition _calculate_peer_comparison (self : BenchmarkingEngine) (score : Q)
    (peer_data : gmap string loc) : Py (list (string * Q)) :=
  match peer_data !! "scores" with
  | None => mret []
  | Some peer_scores =>
      xs ← deref_list peer_scores;
      if negb (Nat.ltb 0 (length xs)) then mret []
      else
        assign_list peer_scores (xs ++ [score])%list;;
        xs ← deref_list peer_scores;
        assign_list peer_scores (sort_by descending xs);;
        xs ← deref_list peer_scores;
        i ← lift (index_of score xs);
        let rank := inject_Z (Z.of_nat (i + 1)) in
        let n := inject_Z (Z.of_nat (length xs)) in
        below ← lift (truediv (n - rank) n);
        average ← lift (truediv (py_sum xs) n);
        median ← lift (match xs !! (length xs / 2)%nat with
                       | Some m => Ok m
                       | None => Raise IndexError
                       end);
        mret [("rank", rank);
              ("total_peers", n);
              ("percentile", py_round (below * 100) 1);
              ("peer_average", py_round average 1);
              ("peer_median", py_round median 1);
              ("vs_average", py_round (score - average) 1)]
  end.

Definition category_weights : list (string * Q) := [
  ("spend_analysis", 1.0);
  ("supplier_management", 1.0);
  ("source_to_contract", 1.5);
  ("procurement", 2.0);
  ("cash_liquidity", 0.8);
  ("e_invoicing", 1.2);
  ("expenses", 0.8);
  ("payments", 1.0)
].

(** The first loop of [calculate_health_score]; the local variables are
    [(category_scores, all_kpi_scores)]. *)
Fixpoint score_categories (self : BenchmarkingEngine) (kpi_values : gmap string Q)
    (category_ids : list string)
    (acc : list (string * CategoryScore) * list KPIScore)
  : result (list (string * CategoryScore) * list KPIScore) :=
  match category_ids with
  | [] => Ok acc
  | category_id :: rest =>
      cs ← score_category self category_id kpi_values;
      score_categories self kpi_values rest
        ((acc.1 ++ [(category_id, cs)])%list, (acc.2 ++ kpi_scores cs)%list)
  end.

(** The second loop; the local variables are [(weighted_sum, total_weight)]. *)
Definition weigh_category (acc : Q * Q) (entry : string * CategoryScore) : Q * Q :=
  let weight := default 1.0 (lookup_key entry.1 category_weights) in
  match kpi_scores entry.2 with
  | [] => acc
  | _ :: _ => (acc.1 + category_score entry.2 * weight, acc.2 + weight)
  end.

Definition grade_of (overall_score : Q) : string * string :=
  if Qle_bool 90 overall_score then ("A", "Excellent")
  else if Qle_bool 80 overall_score then ("B", "Good")
  else if Qle_bool 70 overall_score then ("C", "Fair")
  else if Qle_bool 60 overall_score then ("D", "Poor")
  else ("F", "Critical").

Definition by_score_descending (a b : KPIScore) : bool :=
  Qlt_bool (score b) (score a).

Definition calculate_health_score (self : BenchmarkingEngine)
    (kpi_values : gmap string Q) (peer_data : option (gmap string loc))
  : Py ProcurementHealthScore :=
  scored ← lift (score_categories self kpi_values (fst <$> categories self)
                   ([], []));
  let category_scores := scored.1 in
  let all_kpi_scores := scored.2 in
  let sums := foldl weigh_category (0, 0) category_scores in
  let weighted_sum := sums.1 in
  let total_weight := sums.2 in
  overall_score ←
    lift (if Qlt_bool 0 total_weight then truediv weighted_sum total_weight
          else Ok 0);
  let '(grade, overall_rating) := grade_of overall_score in
  let sorted_scores := sort_by by_score_descending all_kpi_scores in
  let top_strengths :=
    (λ s, name s ++ ": " ++ format_fixed 0 (score s) ++ "/100") <$>
    filter (λ s, one_of (rating s) ["Excellent"; "Good"] = true)
           (take 5 sorted_scores) in
  let priority_improvements :=
    take 5
      ((λ s, name s ++ ": " ++ recommendation s) <$>
       filter (λ s, one_of (rating s) ["Poor"; "Critical"] = true)
              sorted_scores) in
  peer_comparison ←
    match peer_data with
    | Some peers =>
        if bool_decide (peers = ∅) then mret []
        else _calculate_peer_comparison self overall_score peers
    | None => mret []
    end;
  today ← now;
  mret (mkProcurementHealthScore (py_round overall_score 1) grade overall_rating
          category_scores top_strengths priority_improvements peer_comparison
          today).

(** [datetime.fromisoformat(v[:10])]: only text can be sliced. *)
Definition slice_date (v : value) : result Z :=
  match v with
  | VStr s =>
      match fromisoformat (prefix_of 10 s) with
      | Some t => Ok t
      | None => Raise (ValueError "Invalid isoformat string")
      end
  | _ => Raise TypeError
  end.

(** The days from solicitation to award a contract adds to [cycle_times],
    if any. *)
Definition cycle_time_of (c : dict) : option Z :=
  if truthy (get_ c "solicitation_date") && truthy (get_ c "award_date") then
    match
      sol ← getitem c "solicitation_date" ≫= slice_date;
      award ← getitem c "award_date" ≫= slice_date;
      Ok (days_between award sol)
    with
    | Ok days => if (0 <? days)%Z then Some days else None
    | Raise _ => None
    end
  else None.

Definition estimate_kpis_from_contracts (self : BenchmarkingEngine)
    (contracts : list dict) (payments vendors : option (list dict))
  : result (gmap string Q) :=
  let estimated : gmap string Q := ∅ in
  match contracts with
  | [] => Ok estimated
  | _ :: _ =>
      let total_contracts := inject_Z (Z.of_nat (length contracts)) in
      amounts ← VendorScoringEngine.each amount_of contracts;
      let total_value := py_sum amounts in
      let estimated := <["on_contract_spend" := 75.0]> estimated in
      let formal_procurement :=
        length (filter (λ c, among (get_ c "procurement_method")
                               ["Competitive Bid"; "RFP"; "ITB"; "RFQ"] = true)
                       contracts) in
      estimated ←
        (if Qlt_bool 0 total_contracts then
           share ← truediv (inject_Z (Z.of_nat formal_procurement))
                           total_contracts;
           Ok (<["structured_spend" := share * 100]> estimated)
         else Ok estimated);
      let approved :=
        length (filter (λ c, truthy (get_ c "board_approval_date") = true)
                       contracts) in
      estimated ←
        (if Qlt_bool 0 total_contracts then
           share ← truediv (inject_Z (Z.of_nat approved)) total_contracts;
           Ok (<["pre_approved_spend" := share * 100]> estimated)
         else Ok estimated);
      let cycle_times := omap cycle_time_of contracts in
      estimated ←
        match cycle_times with
        | [] => Ok estimated
        | _ :: _ =>
            mean ← truediv (py_sum (inject_Z <$> cycle_times))
                           (inject_Z (Z.of_nat (length cycle_times)));
            Ok (<["contract_mgmt_cycle_time" := mean]> estimated)
        end;
      estimated ←
        match vendors with
        | Some (_ :: _) =>
            if Qlt_bool 0 total_value then
              vendor_spend ← spend_by_vendor contracts [];
              let sorted_vendors := sort_by descending (snd <$> vendor_spend) in
              let top_count := Nat.max 1 (length sorted_vendors / 5) in
              let primary_spend := py_sum (take top_count sorted_vendors) in
              share ← truediv primary_spend total_value;
              Ok (<["spend_with_primary_suppliers" := share * 100]> estimated)
            else Ok estimated
        | _ => Ok estimated
        end;
      let estimated := <["electronic_po_processing" := 85.0]> estimated in
      match payments with
      | Some (p :: ps) =>
          let digital_payments :=
            length (filter (λ p, among (get_ p "payment_type")
                                   ["ACH"; "Wire"; "EFT"; "Digital"] = true)
                           (p :: ps)) in
          if (0 <? length (p :: ps))%nat then
            share ← truediv (inject_Z (Z.of_nat digital_payments))
                            (inject_Z (Z.of_nat (length (p :: ps))));
            Ok (<["invoices_paid_digitally" := share * 100]> estimated)
          else Ok estimated
      | _ => Ok estimated
      end
  end.

End Engine.

End Benchmarking.

(** ** Vocabulary of the properties *)

(** The six fields [score_contract] writes. *)
Definition derived_fields : list string :=
  ["cost_variance_score"; "schedule_variance_score"; "performance_score";
   "compliance_score"; "overall_health_score"; "risk_level"].

(** Two records with the same raw fields. *)
Definition inputs_agree (d d' : dict) : Prop :=
  ∀ k, k ∉ derived_fields → d !! k = d' !! k.

(** The writes of [score_contract] on a record [d], in order: each derived
    field with the value, or the exception, of the computation filling it. *)
Definition score_fields `{PyRuntime} (d : dict) (milestones : option (list dict))
  : list (string * result value) :=
  let health := ContractScoringEngine.calculate_overall_health d milestones in
  [("cost_variance_score",
    VNum <$> ContractScoringEngine.calculate_cost_variance_score d);
   ("schedule_variance_score",
    VNum <$> ContractScoringEngine.calculate_schedule_variance_score d);
   ("performance_score",
    VNum <$> ContractScoringEngine.calculate_performance_score d milestones);
   ("compliance_score",
    VNum <$> ContractScoringEngine.calculate_compliance_score d);
   ("overall_health_score", VNum <$> health);
   ("risk_level",
    (λ h, VStr (ContractScoringEngine.determine_risk_level h)) <$> health)].

(** Writing fields one after the other until a computation raises. *)
Fixpoint write_fields (c : loc) (writes : list (string * result value))
  : Py unit :=
  match writes with
  | [] => mret tt
  | (k, Ok v) :: rest => setitem c k v;; write_fields c rest
  | (k, Raise e) :: _ => lift (Raise e)
  end.

(** What [write_fields] returns, and the fields it writes before that. *)
Fixpoint outcome (writes : list (string * result value)) : result unit :=
  match writes with
  | [] => Ok tt
  | (_, Ok _) :: rest => outcome rest
  | (_, Raise e) :: _ => Raise e
  end.

Fixpoint written (writes : list (string * result value))
  : list (string * value) :=
  match writes with
  | [] => []
  | (k, Ok v) :: rest => (k, v) :: written rest
  | (_, Raise _) :: _ => []
  end.

(** The record behind [c] exists and holds [v] in its field [k]. *)
Definition stored (w : world) (c : loc) (k : string) (v : value) : Prop :=
  ∃ d, dicts w !! c = Some d ∧ d !! k = Some v.

(** The fields the scores use as numbers hold no text. *)
Definition numbers_where_expected (d : dict) : Prop :=
  ∀ k, k ∈ ["original_amount"; "current_amount"; "percent_complete"] →
       ∀ s, d !! k ≠ Some (VStr s).

(** ** A runtime to run the engines on examples

    Text prints as itself and numbers in decimal; [fromisoformat] reads the
    forms [YYYY-MM-DD] and [YYYY-MM-DDTHH:MM:SS] of the proleptic Gregorian
    calendar and rejects everything else; the clock starts on 2025-01-01
    and advances by one second at each reading. *)

Module SampleRuntime.

Definition digit_char (d : Z) : Ascii.ascii :=
  Ascii.ascii_of_nat (48 + Z.to_nat d).

(** The last [width] decimal digits of [n], or all of them when [width] is
    0; [fuel] bounds the number of digits. *)
Fixpoint digits_of (fuel width : nat) (n : Z) (acc : string) : string :=
  match fuel with
  | O => acc
  | S fuel' =>
      let acc' := String (digit_char (n mod 10)) acc in
      match width with
      | 1%nat => acc'
      | O => if (n <? 10)%Z then acc' else digits_of fuel' O (n / 10) acc'
      | S width' => digits_of fuel' width' (n / 10) acc'
      end
  end.

Definition decimal (n : Z) : string :=
  let body := digits_of (S (Z.to_nat (Z.log2 (Z.abs n)))) 0 (Z.abs n) "" in
  if (n <? 0)%Z then String (Ascii.ascii_of_nat 45) body else body.

Definition padded (width : nat) (n : Z) : string :=
  digits_of width width n "".

(** [format(x, '.nf')] *)
Definition format_fixed (n : nat) (x : Q) : string :=
  let scale := (10 ^ Z.of_nat n)%Z in
  let r := round_half_even (x * inject_Z scale) in
  let sign := if (r <? 0)%Z then "-" else "" in
  let whole := decimal (Z.abs r / scale) in
  match n with
  | O => sign ++ whole
  | S _ => sign ++ whole ++ "." ++ padded n (Z.abs r mod scale)
  end.

(** The fewest decimals, up to [fuel], that print [x] exactly. *)
Fixpoint decimals_needed (fuel n : nat) (x : Q) : nat :=
  match fuel with
  | O => n
  | S fuel' =>
      if Qeq_bool (inject_Z (Qfloor x)) x then n
      else decimals_needed fuel' (S n) (x * 10)
  end.

Definition py_str (v : value) : string :=
  match v with
  | VNone => "None"
  | VBool true => "True"
  | VBool false => "False"
  | VNum q => format_fixed (decimals_needed 17 0 q) q
  | VStr s => s
  end.

Definition digit_value (c : Ascii.ascii) : option Z :=
  let n := Ascii.nat_of_ascii c in
  if ((48 <=? n) && (n <=? 57))%nat then Some (Z.of_nat (n - 48)) else None.

Fixpoint number_of (s : string) (acc : Z) : option Z :=
  match s with
  | EmptyString => Some acc
  | String c s' =>
      match digit_value c with
      | Some d => number_of s' (10 * acc + d)
      | None => None
      end
  end.

Definition field (start len : nat) (s : string) : option Z :=
  number_of (String.substring start len s) 0.

Definition is_leap (y : Z) : bool :=
  ((y mod 4 =? 0) && negb (y mod 100 =? 0) || (y mod 400 =? 0))%Z.

Definition days_in_month (y m : Z) : Z :=
  if (m =? 2)%Z then (if is_leap y then 29 else 28)%Z
  else if ((m =? 4) || (m =? 6) || (m =? 9) || (m =? 11))%Z then 30%Z
  else 31%Z.

(** Days from 1970-01-01 to the date [y-m-d]. *)
Definition days_from_civil (y m d : Z) : Z :=
  let y' := (if m <=? 2 then y - 1 else y)%Z in
  let era := (y' / 400)%Z in
  let yoe := (y' - era * 400)%Z in
  let mp := (if 2 <? m then m - 3 else m + 9)%Z in
  let doy := ((153 * mp + 2) / 5 + d - 1)%Z in
  let doe := (yoe * 365 + yoe / 4 - yoe / 100 + doy)%Z in
  (era * 146097 + doe - 719468)%Z.

Definition civil_from_days (days : Z) : Z * Z * Z :=
  let z := (days + 719468)%Z in
  let era := (z / 146097)%Z in
  let doe := (z - era * 146097)%Z in
  let yoe := ((doe - doe / 1460 + doe / 36524 - doe / 146096) / 365)%Z in
  let doy := (doe - (365 * yoe + yoe / 4 - yoe / 100))%Z in
  let mp := ((5 * doy + 2) / 153)%Z in
  let d := (doy - (153 * mp + 2) / 5 + 1)%Z in
  let m := (if mp <? 10 then mp + 3 else mp - 9)%Z in
  let y := (yoe + era * 400)%Z in
  ((if m <=? 2 then y + 1 else y)%Z, m, d).

Definition char_at (i : nat) (s : string) : option Ascii.ascii := String.get i s.

Definition is_char (code : nat) (c : option Ascii.ascii) : bool :=
  match c with
  | Some c => Nat.eqb (Ascii.nat_of_ascii c) code
  | None => false
  end.

Definition parse_date (s : string) : option Z :=
  y ← field 0 4 s; m ← field 5 2 s; d ← field 8 2 s;
  if is_char 45 (char_at 4 s) && is_char 45 (char_at 7 s)
     && (1 <=? y)%Z && (1 <=? m)%Z && (m <=? 12)%Z
     && (1 <=? d)%Z && (d <=? days_in_month y m)%Z
  then Some (days_from_civil y m d * 86400000000)%Z
  else None.

Definition parse_time (s : string) : option Z :=
  h ← field 11 2 s; m ← field 14 2 s; sec ← field 17 2 s;
  if is_char 58 (char_at 13 s) && is_char 58 (char_at 16 s)
     && (h <=? 23)%Z && (m <=? 59)%Z && (sec <=? 59)%Z
  then Some (((h * 60 + m) * 60 + sec) * 1000000)%Z
  else None.

Definition fromisoformat (s : string) : option Z :=
  match String.length s with
  | 10%nat => parse_date s
  | 19%nat =>
      date ← parse_date (String.substring 0 10 s);
      time ← parse_time s;
      Some (date + time)%Z
  | _ => None
  end.

Definition isoformat (t : Z) : string :=
  let '(y, m, d) := civil_from_days (t / 86400000000) in
  let us := (t mod 86400000000)%Z in
  let sec := (us / 1000000)%Z in
  padded 4 y ++ "-" ++ padded 2 m ++ "-" ++ padded 2 d ++ "T"
  ++ padded 2 (sec / 3600) ++ ":" ++ padded 2 (sec / 60 mod 60) ++ ":"
  ++ padded 2 (sec mod 60)
  ++ (if (us mod 1000000 =? 0)%Z then ""
      else "." ++ padded 6 (us mod 1000000)).

Definition clock (n : nat) : Z :=
  (days_from_civil 2025 1 1 * 86400000000 + Z.of_nat n * 1000000)%Z.

Definition runtime : PyRuntime :=
  Build_PyRuntime py_str fromisoformat isoformat format_fixed clock.

(** A state with no object, no clock reading and an empty log. *)
Definition start : world := World ∅ ∅ 0 [].

End SampleRuntime.

(** A field that is absent or holds a number. *)
Definition numeric_or_absent (d : dict) (k : string) : Prop :=
  ∃ o : option Q, d !! k = VNum <$> o.

(** [sum] of a list of numbers, from the right. *)
Definition Qsum (xs : list Q) : Q := foldr Qplus 0 xs.

(** The weight and the health score of a contract in the vendor score: the
    current amount, or 1 when it is absent, null or zero; the overall health
    score, or 50 when it is absent. *)
Definition contract_weight (c : dict) : Q :=
  match c !! "current_amount" with
  | Some (VNum a) => if Qeq_bool a 0 then 1 else a
  | _ => 1
  end.

Definition contract_health (c : dict) : Q :=
  match c !! "overall_health_score" with
  | Some (VNum h) => h
  | _ => 50
  end.

Definition total_weight (contracts : list dict) : Q :=
  Qsum (contract_weight <$> contracts).

Definition weighted_health (contracts : list dict) : Q :=
  Qsum ((λ c, contract_health c * contract_weight c) <$> contracts).

(** What one rule says of one contract: it fires an alert, it is quiet, or
    its evaluation fails (and the failure is logged). *)
Inductive verdict : Type :=
| Fired (a : AlertGenerator.alert)
| Quiet
| Failed (e : exn).

Record judgement : Type := Judgement {
  subject : dict;
  judged_by : AlertGenerator.rule;
  verdict_of : verdict
}.

Section Judging.
Context `{PyRuntime}.

Definition log_entry (r : AlertGenerator.rule) : string :=
  "Error checking rule " ++ AlertGenerator.rule_id r.

(** One rule on one contract, from the state [w]. *)
Definition judge (contract : dict) (r : AlertGenerator.rule) (w : world)
  : verdict * world :=
  match AlertGenerator.condition r contract w with
  | (Raise e, w1) => (Failed e, (log_error (log_entry r) e w1).2)
  | (Ok fired, w1) =>
      if truthy fired then
        match AlertGenerator.make_alert contract r w1 with
        | (Ok a, w2) => (Fired a, w2)
        | (Raise e, w2) => (Failed e, (log_error (log_entry r) e w2).2)
        end
      else (Quiet, w1)
  end.

(** The pairs in turn, each from the state the previous one left. *)
Fixpoint judge_all (pairs : list (dict * AlertGenerator.rule)) (w : world)
  : list judgement * world :=
  match pairs with
  | [] => ([], w)
  | (contract, r) :: rest =>
      let '(v, w1) := judge contract r w in
      let '(js, w2) := judge_all rest w1 in
      (Judgement contract r v :: js, w2)
  end.

End Judging.

(** Contract by contract, and rule by rule for each contract. *)
Definition pairs_of (contracts : list dict) (rules : list AlertGenerator.rule)
  : list (dict * AlertGenerator.rule) :=
  contract ← contracts; (λ r, (contract, r)) <$> rules.

Definition fired_alerts (js : list judgement) : list AlertGenerator.alert :=
  omap (λ j, match verdict_of j with Fired a => Some a | _ => None end) js.

Definition failures (js : list judgement) : list (string * exn) :=
  omap (λ j, match verdict_of j with
             | Failed e => Some (log_entry (judged_by j), e)
             | _ => None
             end) js.

Definition rank (a : AlertGenerator.alert) : nat :=
  AlertGenerator.severity_order (AlertGenerator.severity a).

(** A rule whose predicate writes nothing to the log. *)
Definition log_free (r : AlertGenerator.rule) : Prop :=
  ∀ contract w, log (AlertGenerator.condition r contract w).2 = log w.

(** A contract with an amount that is absent or a number not below zero,
    and a health score that is absent or a number from 0 to 100. *)
Definition sound_for_vendor (c : dict) : Prop :=
  ∃ a h : option Q,
    c !! "current_amount" = VNum <$> a ∧
    c !! "overall_health_score" = VNum <$> h ∧
    0 <= default 0 a ∧ 0 <= default 50 h <= 100.

(** The fields the alert rules use as numbers hold no text. *)
Definition numbers_for_alerts (c : dict) : Prop :=
  ∀ k, k ∈ ["original_amount"; "current_amount"; "overall_health_score";
            "change_order_count"] →
       ∀ s, c !! k ≠ Some (VStr s).

(** An alert made for the contract [c] by the rule [r]. *)
Definition alert_from `{PyRuntime} (c : dict) (r : AlertGenerator.rule)
    (a : AlertGenerator.alert) : Prop :=
  AlertGenerator.alert_id a
  = py_str (get_ c "contract_id") ++ "_" ++ AlertGenerator.rule_id r ∧
  AlertGenerator.contract_id a = get_ c "contract_id" ∧
  AlertGenerator.contract_title a = get_ c "title" ∧
  AlertGenerator.vendor_name a = get_ c "vendor_name" ∧
  AlertGenerator.alert_type a = AlertGenerator.rule_id r ∧
  AlertGenerator.title a = AlertGenerator.rule_name r ∧
  AlertGenerator.severity a = AlertGenerator.rule_severity r.

(** The number [score_kpi] rounds into the score of a KPI. *)
Definition raw_kpi_score (kpi : Benchmarking.kpi_entry) (actual : Q) : Q :=
  let benchmark := Benchmarking.benchmark_value kpi in
  if String.eqb (Benchmarking.kpi_direction kpi) "higher" then
    if Qle_bool benchmark actual then 100
    else py_max 0 (actual / benchmark * 100)
  else
    if Qle_bool actual benchmark then 100
    else if Qlt_bool 0 actual then py_max 0 (benchmark / actual * 100)
    else 0.

(** The invariant of the weighted sums: the sum of scores in 0..100 times
    positive weights. *)
Definition weighed (sums : Q * Q) : Prop :=
  0 <= sums.1 ∧ sums.1 <= 100 * sums.2 ∧ 0 <= sums.2.

(** A contract whose [current_amount] can be added up: absent, [None], a
    number, a flag or the empty string, which [or 0] replaces. *)
Definition amount_is_number (c : dict) : Prop :=
  ∀ s, c !! "current_amount" = Some (VStr s) → s = "".

(** Every key of [estimated] is the identifier of a benchmarked KPI. *)
Definition known_kpis (estimated : gmap string Q) : Prop :=
  ∀ k, is_Some (estimated !! k) →
       is_Some (Benchmarking.lookup_key k Benchmarking.COUPA_BENCHMARKS).

(** ** Binary64 numbers and Python's [int] and [float]

    The scores above are stated on exact rationals.  Where the very value a
    function computes is at stake, the band a variance falls in or the last
    digit of a rounded mean, the function is embedded a second time with
    the arithmetic Python performs: integers of any size, and doubles with
    every operation rounded to nearest, ties to even. *)

Module Binary64.

(** A double: a finite one, given by its exact value, an infinity or NaN.
    The sign of a zero is not represented: no comparison tells [-0.0] from
    [0.0], and Python raises on a division by either. *)
Inductive float : Type :=
| Finite (q : Q)
| Infinity (negative : bool)
| NaN.

Definition pow2 (k : Z) : Q := Qpower 2 k.

(** [floor (log2 q)] for a positive [q]. *)
Definition ilog2 (q : Q) : Z :=
  let e := (Z.log2 (Qnum q) - Z.log2 (Z.pos (Qden q)))%Z in
  if Qle_bool (pow2 e) q then e else (e - 1)%Z.

(** The double nearest to [q]: 53 significant bits, ties to even, gradual
    underflow below [2^-1022], an infinity from [2^1024] on. *)
Definition round_to_double (q : Q) : float :=
  if Qeq_bool q 0 then Finite 0
  else
    let a := Qabs q in
    let k := (Z.max (ilog2 a) (-1022) - 52)%Z in
    let r := inject_Z (round_half_even (a / pow2 k)) * pow2 k in
    if Qle_bool (pow2 1024) r then Infinity (Qlt_bool q 0)
    else Finite (Qred (if Qlt_bool q 0 then - r else r)).

(** The operations of IEEE 754: the exact result, rounded. *)
Definition fneg (x : float) : float :=
  match x with
  | Finite q => Finite (- q)
  | Infinity s => Infinity (negb s)
  | NaN => NaN
  end.

Definition fadd (x y : float) : float :=
  match x, y with
  | NaN, _ | _, NaN => NaN
  | Infinity s, Infinity t => if eqb s t then Infinity s else NaN
  | Infinity s, Finite _ | Finite _, Infinity s => Infinity s
  | Finite a, Finite b => round_to_double (a + b)
  end.

Definition fsub (x y : float) : float := fadd x (fneg y).

Definition fmul (x y : float) : float :=
  match x, y with
  | NaN, _ | _, NaN => NaN
  | Infinity s, Infinity t => Infinity (xorb s t)
  | Infinity s, Finite q | Finite q, Infinity s =>
      if Qeq_bool q 0 then NaN else Infinity (xorb s (Qlt_bool q 0))
  | Finite a, Finite b => round_to_double (a * b)
  end.

(** [x / y] for [y] other than zero. *)
Definition fdiv (x y : float) : float :=
  match x, y with
  | NaN, _ | _, NaN => NaN
  | Infinity _, Infinity _ => NaN
  | Infinity s, Finite q => Infinity (xorb s (Qlt_bool q 0))
  | Finite _, Infinity _ => Finite 0
  | Finite a, Finite b => round_to_double (a / b)
  end.

Definition is_zero (x : float) : bool :=
  match x with Finite q => Qeq_bool q 0 | _ => false end.

(** Comparisons are exact, and false as soon as a NaN takes part. *)
Definition float_leb (x y : float) : bool :=
  match x, y with
  | NaN, _ | _, NaN => false
  | Finite a, Finite b => Qle_bool a b
  | Infinity s, Infinity t => s || negb t
  | Infinity s, Finite _ => s
  | Finite _, Infinity t => negb t
  end.

Definition float_ltb (x y : float) : bool :=
  match x, y with
  | NaN, _ | _, NaN => false
  | Finite a, Finite b => Qlt_bool a b
  | Infinity s, Infinity t => s && negb t
  | Infinity s, Finite _ => s
  | Finite _, Infinity t => negb t
  end.

(** A Python number. *)
Inductive num : Type :=
| Int (n : Z)
| Float (x : float).

(** [float(n)]: the nearest double, or [OverflowError]. *)
Definition to_float (a : num) : result float :=
  match a with
  | Float x => Ok x
  | Int n =>
      match round_to_double (inject_Z n) with
      | Finite q => Ok (Finite q)
      | _ => Raise OverflowError
      end
  end.

(** [a + b], [a - b] and [a * b]: exact on two integers, otherwise on the
    doubles the operands convert to. *)
Definition arith (on_int : Z → Z → Z) (on_float : float → float → float)
    (a b : num) : result num :=
  match a, b with
  | Int m, Int n => Ok (Int (on_int m n))
  | _, _ => x ← to_float a; y ← to_float b; Ok (Float (on_float x y))
  end.

Definition add : num → num → result num := arith Z.add fadd.
Definition sub : num → num → result num := arith Z.sub fsub.
Definition mul : num → num → result num := arith Z.mul fmul.

(** [a / b]: the quotient of two integers is rounded once, from the exact
    quotient. *)
Definition truediv (a b : num) : result num :=
  match a, b with
  | Int m, Int n =>
      if (n =? 0)%Z then Raise ZeroDivisionError
      else
        match round_to_double (inject_Z m / inject_Z n) with
        | Finite q => Ok (Float (Finite q))
        | _ => Raise OverflowError
        end
  | _, _ =>
      x ← to_float a; y ← to_float b;
      if is_zero y then Raise ZeroDivisionError else Ok (Float (fdiv x y))
  end.

(** The exact value compared by [<=], [<] and [>]. *)
Definition real (a : num) : float :=
  match a with Int n => Finite (inject_Z n) | Float x => x end.

Definition leb (a b : num) : bool := float_leb (real a) (real b).
Definition ltb (a b : num) : bool := float_ltb (real a) (real b).

(** [max(a, b)]: the first argument unless the second is greater. *)
Definition max (a b : num) : num := if ltb a b then b else a.

(** [round(a, ndigits)] for [ndigits >= 0]: an integer is returned as it
    is, a double becomes the double nearest to its exact value rounded half
    to even at that decimal. *)
Definition round (a : num) (ndigits : nat) : result num :=
  match a with
  | Int n => Ok (Int n)
  | Float (Finite q) =>
      match round_to_double (py_round q ndigits) with
      | Finite r => Ok (Float (Finite r))
      | _ => Raise OverflowError
      end
  | Float x => Ok (Float x)
  end.

(** The values of a row: NULL, a flag, INTEGER, REAL or TEXT. *)
Inductive field : Type :=
| Null
| Flag (b : bool)
| Integer (n : Z)
| Real (x : float)
| Text (s : string).

Abbreviation row := (gmap string field).

Definition truthy (v : field) : bool :=
  match v with
  | Null => false
  | Flag b => b
  | Integer n => negb (n =? 0)%Z
  | Real x => negb (is_zero x)
  | Text s => negb (String.eqb s "")
  end.

(** [a or b] *)
Definition py_or (a b : field) : field := if truthy a then a else b.

(** [d.get(k, dflt)] *)
Definition get (d : row) (k : string) (dflt : field) : field :=
  default dflt (d !! k).

(** The number a value is in arithmetic and in comparisons with numbers;
    [None] and text end in [TypeError]. *)
Definition as_number (v : field) : result num :=
  match v with
  | Flag b => Ok (Int (if b then 1 else 0))
  | Integer n => Ok (Int n)
  | Real x => Ok (Float x)
  | Null | Text _ => Raise TypeError
  end.

End Binary64.

(** [ContractScoringEngine.calculate_cost_variance_score], in Python's
    arithmetic. *)
Module ContractScoringEngine64.
Import Binary64.

Definition calculate_cost_variance_score (contract : row) : result num :=
  let original := py_or (get contract "original_amount" (Integer 0)) (Integer 0) in
  let current := py_or (get contract "current_amount" (Integer 0)) (Integer 0) in
  original ← as_number original;
  if leb original (Int 0) then Ok (Int 50)
  else
    current ← as_number current;
    difference ← sub current original;
    ratio ← truediv difference original;
    variance_pct ← mul ratio (Int 100);
    if leb variance_pct (Int 0) then Ok (Int 100)
    else if leb variance_pct (Int 5) then Ok (Int 95)
    else if leb variance_pct (Int 10) then Ok (Int 85)
    else if leb variance_pct (Int 15) then Ok (Int 70)
    else if leb variance_pct (Int 20) then Ok (Int 55)
    else if leb variance_pct (Int 30) then Ok (Int 40)
    else
      excess ← sub variance_pct (Int 30);
      rest ← sub (Int 40) excess;
      Ok (max (Int 20) rest).

End ContractScoringEngine64.

(** [VendorScoringEngine.calculate_vendor_score], in Python's arithmetic. *)
Module VendorScoringEngine64.
Import Binary64.

(** One turn of the loop; the local variables are
    [(total_weight, weighted_score)]. *)
Definition vendor_step (acc : num * num) (contract : row) : result (num * num) :=
  let amount := py_or (get contract "current_amount" (Integer 0)) (Integer 1) in
  let health := get contract "overall_health_score" (Integer 50) in
  health ← as_number health;
  amount ← as_number amount;
  product ← mul health amount;
  weighted_score ← add acc.2 product;
  total_weight ← add acc.1 amount;
  Ok (total_weight, weighted_score).

Fixpoint vendor_loop (contracts : list row) (acc : num * num)
  : result (num * num) :=
  match contracts with
  | [] => Ok acc
  | contract :: rest => acc' ← vendor_step acc contract; vendor_loop rest acc'
  end.

Definition calculate_vendor_score (vendor : row) (contracts : list row)
  : result num :=
  match contracts with
  | [] => Ok (Int 50)
  | _ :: _ =>
      acc ← vendor_loop contracts (Int 0, Int 0);
      let total_weight := acc.1 in
      let weighted_score := acc.2 in
      if ltb (Int 0) total_weight then
        mean ← truediv weighted_score total_weight;
        round mean 1
      else Ok (Int 50)
  end.

End VendorScoringEngine64.

(** *** Vocabulary of the statements in Python's arithmetic *)

(** The number an amount stands for once [or fallback] has replaced what is
    falsy (an absent or null field, [False], a zero, empty text); other
    text is no number. *)
Definition amount_or (fallback : Z) (v : option Binary64.field)
  : option Binary64.num :=
  match v with
  | None | Some Binary64.Null => Some (Binary64.Int fallback)
  | Some (Binary64.Flag b) => Some (Binary64.Int (if b then 1 else fallback))
  | Some (Binary64.Integer n) =>
      Some (Binary64.Int (if (n =? 0)%Z then fallback else n))
  | Some (Binary64.Real x) =>
      Some (if Binary64.is_zero x then Binary64.Int fallback
            else Binary64.Float x)
  | Some (Binary64.Text s) =>
      if String.eqb s EmptyString then Some (Binary64.Int fallback) else None
  end.

Definition num_lt (a b : Binary64.num) : Prop := Binary64.ltb a b = true.

(** [(current - original) / original * 100] *)
Definition variance_pct (current original : Binary64.num)
  : result Binary64.num :=
  difference ← Binary64.sub current original;
  ratio ← Binary64.truediv difference original;
  Binary64.mul ratio (Binary64.Int 100).


(** The weight and the health score of a contract in the vendor score: the
    current amount, or 1 when it is absent, null or zero; the overall
    health score, or 50 when it is absent (a null one is no number). *)
Definition weight_of (c : Binary64.row) : option Binary64.num :=
  amount_or 1 (c !! "current_amount").

Definition health_of (c : Binary64.row) : option Binary64.num :=
  match c !! "overall_health_score" with
  | None => Some (Binary64.Int 50)
  | Some v =>
      match Binary64.as_number v with Ok a => Some a | Raise _ => None end
  end.

(** [start + x1 + x2 + ...] and [start + h1 * w1 + h2 * w2 + ...], added
    from left to right. *)
Fixpoint sum_from (start : Binary64.num) (xs : list Binary64.num)
  : result Binary64.num :=
  match xs with
  | [] => Ok start
  | x :: rest => s ← Binary64.add start x; sum_from s rest
  end.

Fixpoint weighted_from (start : Binary64.num)
    (entries : list (Binary64.num * Binary64.num)) : result Binary64.num :=
  match entries with
  | [] => Ok start
  | (h, w) :: rest =>
      product ← Binary64.mul h w;
      s ← Binary64.add start product;
      weighted_from s rest
  end.

(** The vendor score as first stated, on the exact values of the fields:
    the weight is the current amount, 1 only when the amount is missing,
    and the score is the weighted mean, rounded to one decimal, for every
    list that is not empty. *)
Definition stated_number (fallback : Q) (v : option Binary64.field) : Q :=
  match v with
  | Some (Binary64.Integer n) => inject_Z n
  | Some (Binary64.Real (Binary64.Finite q)) => q
  | _ => fallback
  end.

Definition stated_vendor_score (contracts : list Binary64.row) : Q :=
  let weight c := stated_number 1 (c !! "current_amount") in
  let health c := stated_number 50 (c !! "overall_health_score") in
  py_round (Qsum ((λ c, health c * weight c) <$> contracts)
            / Qsum (weight <$> contracts)) 1.

(** The sum of a list of integers. *)
Definition Zsum (xs : list Z) : Z := foldr Z.add 0%Z xs.

(** * Properties *)

(** ** Arithmetic and sorting lemmas shared by the engines *)

Section PyFacts.

Lemma Qlt_bool_iff (x y : Q) : Qlt_bool x y = true ↔ x < y.
Proof.
  unfold Qlt_bool. rewrite negb_true_iff. split.
  - intros Hb. apply Qnot_le_lt. intros Hle.
    apply Qle_bool_iff in Hle. congruence.
  - intros Hlt. destruct (Qle_bool y x) eqn:E; [|done].
    apply Qle_bool_iff in E. exfalso. eapply Qlt_not_le; eauto.
Qed.

Lemma Qlt_bool_false (x y : Q) : Qlt_bool x y = false ↔ y <= x.
Proof.
  unfold Qlt_bool. rewrite negb_false_iff. apply Qle_bool_iff.
Qed.

Lemma Qle_bool_false (x y : Q) : Qle_bool x y = false ↔ y < x.
Proof.
  rewrite <- Qlt_bool_iff. unfold Qlt_bool.
  destruct (Qle_bool x y); simpl; intuition congruence.
Qed.

Lemma py_max_Qmax (a b : Q) : py_max a b == Qmax a b.
Proof.
  unfold py_max. destruct (Qlt_bool a b) eqn:E.
  - apply Qlt_bool_iff in E. symmetry. apply Q.max_r. by apply Qlt_le_weak.
  - apply Qlt_bool_false in E. symmetry. by apply Q.max_l.
Qed.

Lemma py_min_Qmin (a b : Q) : py_min a b == Qmin a b.
Proof.
  unfold py_min. destruct (Qlt_bool b a) eqn:E.
  - apply Qlt_bool_iff in E. symmetry. apply Q.min_r. by apply Qlt_le_weak.
  - apply Qlt_bool_false in E. symmetry. by apply Q.min_l.
Qed.

Lemma truediv_ok (x y : Q) : ¬ y == 0 → truediv x y = Ok (x / y).
Proof.
  intros Hy. unfold truediv. destruct (Qeq_bool y 0) eqn:E; [|done].
  apply Qeq_bool_iff in E. contradiction.
Qed.

(** A numeric field, read through [get(k, 0) or 0]. *)
Lemma read_amount (contract : dict) (k : string) (o : option Q) :
  contract !! k = VNum <$> o →
  ∃ q, as_num (py_or (get contract k (VNum 0)) (VNum 0)) = Ok q
       ∧ q == default 0 o.
Proof.
  intros Hk. unfold get, py_or. rewrite Hk. destruct o as [q|]; simpl.
  - destruct (Qeq_bool q 0) eqn:E; simpl.
    + exists 0. split; [done|]. apply Qeq_bool_iff in E. by symmetry.
    + by exists q.
  - by exists 0.
Qed.

End PyFacts.

(** ** Contract scoring engine *)

Section CostVariance.
Import ContractScoringEngine.

Lemma cost_variance_no_baseline (contract : dict) (o : option Q) :
  contract !! "original_amount" = VNum <$> o →
  default 0 o <= 0 →
  calculate_cost_variance_score contract = Ok 50.
Proof.
  intros Ho Hle. destruct (read_amount _ _ _ Ho) as (q & Hq & Eq).
  unfold calculate_cost_variance_score. rewrite Hq. simpl.
  rewrite <- Eq in Hle. apply Qle_bool_iff in Hle. by rewrite Hle.
Qed.

(** With a baseline, the score is a function of the variance percentage
    the code computes, which equals the one of the specification. *)
Lemma cost_variance_with_baseline (contract : dict) (o c : option Q) :
  contract !! "original_amount" = VNum <$> o →
  contract !! "current_amount" = VNum <$> c →
  0 < default 0 o →
  ∃ v, v == (default 0 c - default 0 o) / default 0 o * 100 ∧
       calculate_cost_variance_score contract =
       if Qle_bool v 0 then Ok 100
       else if Qle_bool v 5 then Ok 95
       else if Qle_bool v 10 then Ok 85
       else if Qle_bool v 15 then Ok 70
       else if Qle_bool v 20 then Ok 55
       else if Qle_bool v 30 then Ok 40
       else Ok (py_max 20 (40 - (v - 30))).
Proof.
  intros Ho Hc Hpos.
  destruct (read_amount _ _ _ Ho) as (qo & Hqo & Eo).
  destruct (read_amount _ _ _ Hc) as (qc & Hqc & Ec).
  exists ((qc - qo) / qo * 100). split.
  { by rewrite Eo, Ec. }
  unfold calculate_cost_variance_score. rewrite Hqo, Hqc. simpl.
  rewrite <- Eo in Hpos.
  replace (Qle_bool qo 0) with false
    by (symmetry; by apply Qle_bool_false).
  rewrite truediv_ok; [done|].
  intros E0. rewrite E0 in Hpos. by apply Qlt_irrefl in Hpos.
Qed.

End CostVariance.

Section RiskLevel.
Import ContractScoringEngine.

(** C2. [determine_risk_level] sends every score to exactly one tier:
    Critical below 30, High on [30,50), Medium on [50,70), Low from 70 on;
    29.9, 30, 49.9, 50, 69.9 and 70 fall in Critical, High, High, Medium,
    Medium and Low. *)
Theorem determine_risk_level_partition (health_score : Q) :
  (determine_risk_level health_score = "Critical" ↔ health_score < 30) ∧
  (determine_risk_level health_score = "High" ↔ 30 <= health_score < 50) ∧
  (determine_risk_level health_score = "Medium" ↔ 50 <= health_score < 70) ∧
  (determine_risk_level health_score = "Low" ↔ 70 <= health_score) ∧
  determine_risk_level 29.9 = "Critical" ∧
  determine_risk_level 30 = "High" ∧
  determine_risk_level 49.9 = "High" ∧
  determine_risk_level 50 = "Medium" ∧
  determine_risk_level 69.9 = "Medium" ∧
  determine_risk_level 70 = "Low".
Proof.
  unfold determine_risk_level.
  change (risk_thresholds "critical") with 30.
  change (risk_thresholds "high") with 50.
  change (risk_thresholds "medium") with 70.
  destruct (Qlt_bool health_score 30) eqn:B30;
    [apply Qlt_bool_iff in B30 | apply Qlt_bool_false in B30];
  [|destruct (Qlt_bool health_score 50) eqn:B50;
    [apply Qlt_bool_iff in B50 | apply Qlt_bool_false in B50];
   [|destruct (Qlt_bool health_score 70) eqn:B70;
     [apply Qlt_bool_iff in B70 | apply Qlt_bool_false in B70]]];
  repeat split; intros; try done; try lra;
    match goal with H : _ ∧ _ |- _ => destruct H; exfalso; lra end.
Qed.

End RiskLevel.

(** A score of 42 is a High risk, by the partition. *)
Lemma determine_risk_level_example :
  ContractScoringEngine.determine_risk_level 42 = "High".
Proof.
  destruct (determine_risk_level_partition 42) as (_ & [_ Hhigh] & _).
  apply Hhigh. split; [by vm_compute | reflexivity].
Defined.

(** *** [score_contract]: what it writes and what it leaves alone *)

Ltac raw_field :=
  unfold derived_fields; rewrite !not_elem_of_cons;
  repeat split; try discriminate; apply not_elem_of_nil.

Section ScoreContract.
Context `{PyRuntime}.
Import ContractScoringEngine.

Lemma inputs_agree_refl d : inputs_agree d d.
Proof. by intros k _. Qed.

Lemma inputs_agree_insert d d' k v :
  k ∈ derived_fields → inputs_agree d d' → inputs_agree d (<[k := v]> d').
Proof.
  intros Hk Hd k' Hk'. rewrite lookup_insert_ne; [by apply Hd|].
  intros ->. contradiction.
Qed.

Lemma get_agree d d' k x :
  inputs_agree d d' → k ∉ derived_fields → get d' k x = get d k x.
Proof. intros Hd Hk. unfold get. by rewrite (Hd k Hk). Qed.

Ltac same_inputs Hd :=
  unfold get_;
  repeat (erewrite (get_agree _ _ _ _ Hd) by raw_field).

(** No score reads a derived field. *)
Lemma cost_ignores_derived d d' :
  inputs_agree d d' →
  calculate_cost_variance_score d' = calculate_cost_variance_score d.
Proof.
  intros Hd. unfold calculate_cost_variance_score. by same_inputs Hd.
Qed.

Lemma schedule_ignores_derived d d' :
  inputs_agree d d' →
  calculate_schedule_variance_score d' = calculate_schedule_variance_score d.
Proof.
  intros Hd. unfold calculate_schedule_variance_score. by same_inputs Hd.
Qed.

Lemma performance_ignores_derived d d' ms :
  inputs_agree d d' →
  calculate_performance_score d' ms = calculate_performance_score d ms.
Proof.
  intros Hd. unfold calculate_performance_score. by same_inputs Hd.
Qed.

Lemma compliance_ignores_derived d d' :
  inputs_agree d d' →
  calculate_compliance_score d' = calculate_compliance_score d.
Proof.
  intros Hd. unfold calculate_compliance_score. by same_inputs Hd.
Qed.

Lemma health_ignores_derived d d' ms :
  inputs_agree d d' →
  calculate_overall_health d' ms = calculate_overall_health d ms.
Proof.
  intros Hd. unfold calculate_overall_health.
  by rewrite (cost_ignores_derived _ _ Hd), (schedule_ignores_derived _ _ Hd),
    (performance_ignores_derived _ _ _ Hd), (compliance_ignores_derived _ _ Hd).
Qed.

End ScoreContract.

Section Stepping.

Lemma bind_deref {A} c (k : dict → Py A) w :
  (deref c ≫= k) w = k (dicts w !!! c) w.
Proof. reflexivity. Qed.

Lemma bind_lift {A B} (r : result A) (k : A → Py B) w :
  (lift r ≫= k) w = match r with Ok a => k a w | Raise e => (Raise e, w) end.
Proof. by destruct r. Qed.

Lemma bind_setitem {A} c f v (k : unit → Py A) w :
  (setitem c f v ≫= k) w = k tt (setitem c f v w).2.
Proof. reflexivity. Qed.

Lemma deref_setitem c k v w :
  dicts (setitem c k v w).2 !!! c = <[k := v]> (dicts w !!! c).
Proof. simpl. apply lookup_total_insert_eq. Qed.

Lemma write_then_ok {A} c k v rest (ret : Py A) w :
  (write_fields c ((k, Ok v) :: rest);; ret) w =
  (write_fields c rest;; ret) (setitem c k v w).2.
Proof. reflexivity. Qed.

Lemma write_then_raise {A} c k e rest (ret : Py A) w :
  (write_fields c ((k, Raise e) :: rest);; ret) w = (Raise e, w).
Proof. reflexivity. Qed.

End Stepping.

Section ScoreContractWrites.
Context `{PyRuntime}.
Import ContractScoringEngine.

Ltac derived_field :=
  unfold derived_fields; rewrite !elem_of_cons; auto 10.

Ltac still_agree :=
  repeat (apply inputs_agree_insert; [derived_field|]);
  apply inputs_agree_refl.

(** [score_contract] performs the writes of [score_fields] on the record it
    is given, and returns the reference. *)
Lemma score_contract_writes c ms w :
  score_contract c ms w =
  (write_fields c (score_fields (dicts w !!! c) ms);; mret c) w.
Proof.
  unfold score_contract, score_fields.
  set (d := dicts w !!! c).
  rewrite bind_deref, bind_lift. fold d.
  destruct (calculate_cost_variance_score d) as [v1|e] eqn:E1;
    [|unfold fmap, result_fmap; by rewrite write_then_raise].
  unfold fmap at 1, result_fmap at 1; rewrite bind_setitem, write_then_ok.
  rewrite bind_deref, bind_lift, deref_setitem. fold d.
  rewrite (schedule_ignores_derived d) by still_agree.
  destruct (calculate_schedule_variance_score d) as [v2|e] eqn:E2;
    [|unfold fmap, result_fmap; by rewrite write_then_raise].
  unfold fmap at 1, result_fmap at 1; rewrite bind_setitem, write_then_ok.
  rewrite bind_deref, bind_lift, !deref_setitem. fold d.
  rewrite (performance_ignores_derived d) by still_agree.
  destruct (calculate_performance_score d ms) as [v3|e] eqn:E3;
    [|unfold fmap, result_fmap; by rewrite write_then_raise].
  unfold fmap at 1, result_fmap at 1; rewrite bind_setitem, write_then_ok.
  rewrite bind_deref, bind_lift, !deref_setitem. fold d.
  rewrite (compliance_ignores_derived d) by still_agree.
  destruct (calculate_compliance_score d) as [v4|e] eqn:E4;
    [|unfold fmap, result_fmap; by rewrite write_then_raise].
  unfold fmap at 1, result_fmap at 1; rewrite bind_setitem, write_then_ok.
  rewrite bind_deref, bind_lift, !deref_setitem. fold d.
  rewrite (health_ignores_derived d) by still_agree.
  destruct (calculate_overall_health d ms) as [v5|e] eqn:E5;
    [|unfold fmap, result_fmap; by rewrite write_then_raise].
  unfold fmap at 1, result_fmap at 1; rewrite bind_setitem, write_then_ok.
  rewrite bind_deref, bind_lift, !deref_setitem. fold d.
  unfold getitem. rewrite lookup_insert_eq.
  change (Ok (VNum v5) ≫= as_num) with (Ok v5). cbv iota.
  unfold fmap, result_fmap. rewrite bind_setitem, write_then_ok. reflexivity.
Qed.

End ScoreContractWrites.

Section WriteFields.

Lemma write_fields_result c writes w :
  (write_fields c writes w).1 = outcome writes.
Proof.
  revert w. induction writes as [|[k [v|e]] rest IH]; intros w; try done.
  apply (IH (setitem c k v w).2).
Qed.

(** Only the record behind [c] changes, and in it only the written fields. *)
Lemma write_fields_frame c writes w :
  let w' := (write_fields c writes w).2 in
  lists w' = lists w ∧ ticks w' = ticks w ∧ log w' = log w ∧
  (∀ c', c' ≠ c → dicts w' !! c' = dicts w !! c') ∧
  (∀ k, k ∉ (written writes).*1 →
        (dicts w' !!! c) !! k = (dicts w !!! c) !! k) ∧
  (is_Some (dicts w !! c) → is_Some (dicts w' !! c)).
Proof.
  revert w. induction writes as [|[k [v|e]] rest IH]; intros w;
    [by repeat split | | by repeat split].
  destruct (IH (setitem c k v w).2) as (Hl & Ht & Hg & Hc & Hk & Hs).
  change (write_fields c ((k, Ok v) :: rest) w)
    with (write_fields c rest (setitem c k v w).2).
  change (written ((k, Ok v) :: rest)) with ((k, v) :: written rest).
  cbv zeta. rewrite fmap_cons.
  repeat split.
  - by rewrite Hl.
  - by rewrite Ht.
  - by rewrite Hg.
  - intros c' Hc'. rewrite (Hc c' Hc'). simpl. by apply lookup_insert_ne.
  - intros k' Hk'. apply not_elem_of_cons in Hk' as [Hne Hk'].
    rewrite (Hk k' Hk'), deref_setitem. by apply lookup_insert_ne.
  - intros _. apply Hs. simpl. rewrite lookup_insert_eq. by eexists.
Qed.

(** On a record that already holds the values, writing them changes
    nothing. *)
Lemma write_fields_settled c writes w :
  Forall (λ kv, stored w c kv.1 kv.2) (written writes) →
  write_fields c writes w = (outcome writes, w).
Proof.
  induction writes as [|[k [v|e]] rest IH]; intros Hs; try done.
  simpl in Hs. apply Forall_cons in Hs as [(d & Hd & Hk) Hs].
  change (write_fields c ((k, Ok v) :: rest) w)
    with (write_fields c rest (setitem c k v w).2).
  assert ((setitem c k v w).2 = w) as ->; [|by apply IH].
  destruct w as [ds ls t lg]. simpl in *. f_equal.
  rewrite (lookup_total_correct _ _ _ Hd), (insert_id d) by done.
  by apply insert_id.
Qed.

(** After the writes, the record holds every value written. *)
Lemma write_fields_stores c writes w :
  NoDup (written writes).*1 →
  Forall (λ kv, stored (write_fields c writes w).2 c kv.1 kv.2)
         (written writes).
Proof.
  revert w. induction writes as [|[k [v|e]] rest IH]; intros w Hnd;
    [by constructor | | by constructor].
  change (written ((k, Ok v) :: rest)) with ((k, v) :: written rest) in *.
  rewrite fmap_cons in Hnd. apply NoDup_cons in Hnd as [Hk Hnd].
  change (write_fields c ((k, Ok v) :: rest) w)
    with (write_fields c rest (setitem c k v w).2).
  constructor; [|by apply IH].
  destruct (write_fields_frame c rest (setitem c k v w).2)
    as (_ & _ & _ & _ & Hf & Hs).
  destruct Hs as [d Hd]; [simpl; rewrite lookup_insert_eq; by eexists|].
  exists d. split; [done|]. simpl.
  rewrite <- (lookup_total_correct _ _ _ Hd), (Hf k Hk), deref_setitem.
  apply lookup_insert_eq.
Qed.

(** Writing the same fields a second time is a no-op. *)
Lemma write_fields_twice c writes w :
  NoDup writes.*1 →
  write_fields c writes (write_fields c writes w).2 =
  write_fields c writes w.
Proof.
  intros Hnd. rewrite write_fields_settled.
  - rewrite <- (write_fields_result c writes w). by destruct (write_fields _ _ _).
  - apply write_fields_stores.
    clear w. induction writes as [|[k [v|e]] rest IH]; simpl in *;
      try constructor.
    + apply NoDup_cons in Hnd as [Hk _]. intros Hin. apply Hk.
      clear -Hin. induction rest as [|[k' [v'|e']] rest IH]; simpl in *;
        [done| |by apply elem_of_nil in Hin].
      apply elem_of_cons in Hin as [->|Hin]; [left|right; by apply IH].
    + apply NoDup_cons in Hnd as [_ Hnd]. by apply IH.
Qed.

End WriteFields.

Section ScoreContractProperties.
Context `{PyRuntime}.
Import ContractScoringEngine.

Lemma then_return {A} (m : Py unit) (a : A) w :
  (m;; mret a) w =
  (match (m w).1 with Ok _ => Ok a | Raise e => Raise e end, (m w).2).
Proof.
  unfold mbind, Py_bind. by destruct (m w) as [[[]|e] w'].
Qed.

Lemma score_fields_keys d ms : (score_fields d ms).*1 = derived_fields.
Proof. reflexivity. Qed.

Lemma written_keys writes k : k ∈ (written writes).*1 → k ∈ writes.*1.
Proof.
  induction writes as [|[k' [v|e]] rest IH]; simpl; intros Hin;
    [done| |by apply elem_of_nil in Hin].
  apply elem_of_cons in Hin as [->|Hin]; [left|right; by apply IH].
Qed.

Lemma derived_fields_NoDup : NoDup derived_fields.
Proof.
  apply (bool_decide_unpack _). by vm_compute.
Qed.

Lemma score_fields_ignore_derived d d' ms :
  inputs_agree d d' → score_fields d' ms = score_fields d ms.
Proof.
  intros Hd. unfold score_fields.
  by rewrite (cost_ignores_derived _ _ Hd), (schedule_ignores_derived _ _ Hd),
    (performance_ignores_derived _ _ _ Hd), (compliance_ignores_derived _ _ Hd),
    (health_ignores_derived _ _ _ Hd).
Qed.

Lemma score_contract_run c ms w :
  let writes := score_fields (dicts w !!! c) ms in
  score_contract c ms w =
  (match outcome writes with Ok _ => Ok c | Raise e => Raise e end,
   (write_fields c writes w).2).
Proof.
  intros writes. rewrite score_contract_writes, then_return.
  by rewrite write_fields_result.
Qed.

(** Scoring leaves the raw fields of the record as they were. *)
Lemma score_contract_keeps_inputs c ms w :
  inputs_agree (dicts w !!! c) (dicts (score_contract c ms w).2 !!! c).
Proof.
  intros k Hk. rewrite score_contract_run. cbv zeta.
  change (?a, ?b).2 with b.
  destruct (write_fields_frame c (score_fields (dicts w !!! c) ms) w)
    as (_ & _ & _ & _ & Hf & _).
  symmetry. apply Hf. intros Hin. apply Hk.
  rewrite <- (score_fields_keys (dicts w !!! c) ms). by apply written_keys.
Qed.

(** C3. Scoring a record that has just been scored changes nothing: the
    second call returns what the first returned and leaves the record, and
    so its six derived fields, exactly as the first call left them.  The
    scores are computed from the raw fields only. *)
Theorem score_contract_idempotent (contract : loc)
    (milestones : option (list dict)) (w : world) :
  let once := score_contract contract milestones w in
  let twice := score_contract contract milestones once.2 in
  twice = once ∧
  Forall (λ k, (dicts twice.2 !!! contract) !! k =
               (dicts once.2 !!! contract) !! k) derived_fields.
Proof.
  intros once twice.
  assert (twice = once) as Heq.
  { subst once twice.
    pose proof (score_contract_keeps_inputs contract milestones w) as Hin.
    rewrite (score_contract_run contract milestones
               (score_contract contract milestones w).2). cbv zeta.
    rewrite (score_fields_ignore_derived _ _ _ Hin).
    rewrite (score_contract_run contract milestones w). cbv zeta.
    change (?a, ?b).2 with b.
    rewrite write_fields_twice; [done|].
    rewrite score_fields_keys. apply derived_fields_NoDup. }
  split; [done|]. rewrite Heq. by apply Forall_forall.
Qed.

End ScoreContractProperties.

Section ScoreContractReturns.
Context `{PyRuntime}.
Import ContractScoringEngine.

Lemma read_number (d : dict) (k : string) :
  (∀ s, d !! k ≠ Some (VStr s)) →
  ∃ q, as_num (py_or (get d k (VNum 0)) (VNum 0)) = Ok q.
Proof.
  intros Hk. unfold get, py_or.
  destruct (d !! k) as [[ |[]|q|s]|] eqn:E; simpl; eauto.
  - destruct (Qeq_bool q 0); simpl; eauto.
  - by destruct (Hk s).
Qed.

Lemma truediv_pos (x y : Q) : Qle_bool y 0 = false → truediv x y = Ok (x / y).
Proof.
  intros Hy. apply truediv_ok. apply Qle_bool_false in Hy.
  intros E. rewrite E in Hy. by apply Qlt_irrefl in Hy.
Qed.

Ltac expected_field :=
  rewrite !elem_of_cons; auto 10.

Lemma cost_returns d :
  numbers_where_expected d → ∃ q, calculate_cost_variance_score d = Ok q.
Proof.
  intros Hd. unfold calculate_cost_variance_score.
  destruct (read_number d "original_amount") as [o ->];
    [apply Hd; expected_field|].
  simpl. destruct (Qle_bool o 0) eqn:Eo; [eauto|].
  destruct (read_number d "current_amount") as [c ->];
    [apply Hd; expected_field|].
  simpl. rewrite truediv_pos by done. simpl.
  repeat match goal with |- context [Qle_bool ?a ?b] =>
                           destruct (Qle_bool a b) end; eauto.
Qed.

Lemma schedule_body_raises original_end current_end start_date e :
  schedule_variance_body original_end current_end start_date = Raise e →
  ∃ msg, e = ValueError msg.
Proof.
  unfold schedule_variance_body, parse_iso.
  destruct (fromisoformat (prefix_of 10 (py_str original_end))) as [t1|];
    simpl; [|intros [= <-]; eauto].
  destruct (fromisoformat
              (prefix_of 10 (py_str (py_or current_end original_end))))
    as [t2|]; simpl; [|intros [= <-]; eauto].
  destruct (fromisoformat (prefix_of 10 (py_str start_date))) as [t3|];
    simpl; [|intros [= <-]; eauto].
  destruct (days_between t1 t3 <=? 0)%Z eqn:Ed; [done|].
  rewrite truediv_ok; simpl.
  - repeat match goal with |- context [Qle_bool ?a ?b] =>
                             destruct (Qle_bool a b) end; done.
  - apply Z.leb_gt in Ed. unfold Qeq. simpl. lia.
Qed.

Lemma schedule_returns d : ∃ q, calculate_schedule_variance_score d = Ok q.
Proof.
  unfold calculate_schedule_variance_score.
  destruct (_ || _); [eauto|].
  destruct (schedule_variance_body _ _ _) as [q|e] eqn:E; [eauto|].
  apply schedule_body_raises in E as [msg ->]. eauto.
Qed.

Lemma milestone_base_returns ms : ∃ q, milestone_base_score ms = Ok q.
Proof.
  unfold milestone_base_score.
  destruct (Qlt_bool 0 _) eqn:E; [|eauto].
  apply Qlt_bool_iff in E.
  rewrite !truediv_ok; simpl; eauto;
    intros E0; rewrite E0 in E; by apply Qlt_irrefl in E.
Qed.

Lemma performance_returns d ms :
  numbers_where_expected d → ∃ q, calculate_performance_score d ms = Ok q.
Proof.
  intros Hd. unfold calculate_performance_score.
  destruct (read_number d "percent_complete") as [p ->];
    [apply Hd; expected_field|].
  destruct ms as [[|m ms]|]; [eauto| |eauto].
  destruct (milestone_base_returns (m :: ms)) as [b ->]. eauto.
Qed.

Lemma compliance_returns d :
  numbers_where_expected d → ∃ q, calculate_compliance_score d = Ok q.
Proof.
  intros Hd. unfold calculate_compliance_score.
  destruct (truthy (get_ d "award_date") && _); simpl; [|eauto].
  destruct (read_number d "current_amount") as [a ->];
    [apply Hd; expected_field|].
  simpl. destruct (Qlt_bool 50000 a); simpl; eauto.
Qed.

Lemma health_returns d ms :
  numbers_where_expected d → ∃ q, calculate_overall_health d ms = Ok q.
Proof.
  intros Hd. unfold calculate_overall_health.
  destruct (cost_returns d Hd) as [q1 ->].
  destruct (schedule_returns d) as [q2 ->].
  destruct (performance_returns d ms Hd) as [q3 ->].
  destruct (compliance_returns d Hd) as [q4 ->].
  simpl. eauto.
Qed.

(** On a record whose amounts and progress hold no text, no score raises
    and [score_contract] returns the reference it was given. *)
Lemma score_contract_returns c ms w :
  numbers_where_expected (dicts w !!! c) →
  (score_contract c ms w).1 = Ok c.
Proof.
  intros Hd. rewrite score_contract_run. cbv zeta.
  change (?a, ?b).1 with a. unfold score_fields.
  destruct (cost_returns _ Hd) as [q1 ->].
  destruct (schedule_returns (dicts w !!! c)) as [q2 ->].
  destruct (performance_returns _ ms Hd) as [q3 ->].
  destruct (compliance_returns _ Hd) as [q4 ->].
  destruct (health_returns _ ms Hd) as [q5 ->].
  reflexivity.
Qed.

Lemma stored_lookup w c k v :
  stored w c k v → (dicts w !!! c) !! k = Some v.
Proof.
  intros (d & Hd & Hk). by rewrite (lookup_total_correct _ _ _ Hd).
Qed.

(** When [score_contract] returns, every score was computed on the record
    as it was before the call and is now held by the same record. *)
Lemma score_contract_fields_written c ms w r :
  (score_contract c ms w).1 = Ok r →
  let before := dicts w !!! c in
  let after := dicts (score_contract c ms w).2 !!! c in
  ∃ cost schedule performance compliance health,
    calculate_cost_variance_score before = Ok cost ∧
    calculate_schedule_variance_score before = Ok schedule ∧
    calculate_performance_score before ms = Ok performance ∧
    calculate_compliance_score before = Ok compliance ∧
    calculate_overall_health before ms = Ok health ∧
    after !! "cost_variance_score" = Some (VNum cost) ∧
    after !! "schedule_variance_score" = Some (VNum schedule) ∧
    after !! "performance_score" = Some (VNum performance) ∧
    after !! "compliance_score" = Some (VNum compliance) ∧
    after !! "overall_health_score" = Some (VNum health) ∧
    after !! "risk_level" = Some (VStr (determine_risk_level health)).
Proof.
  intros Hr before after. subst after.
  rewrite score_contract_run in Hr |- *. cbv zeta in Hr |- *.
  change (?a, ?b).1 with a in Hr. change (?a, ?b).2 with b.
  fold before in Hr |- *.
  pose proof (write_fields_stores c (score_fields before ms) w) as Hst.
  revert Hr Hst. unfold score_fields.
  destruct (calculate_cost_variance_score before) as [v1|]; [|done].
  destruct (calculate_schedule_variance_score before) as [v2|]; [|done].
  destruct (calculate_performance_score before ms) as [v3|]; [|done].
  destruct (calculate_compliance_score before) as [v4|]; [|done].
  destruct (calculate_overall_health before ms) as [v5|]; [|done].
  intros _ Hst. exists v1, v2, v3, v4, v5.
  assert (NoDup (derived_fields)) as Hnd by apply derived_fields_NoDup.
  specialize (Hst Hnd). unfold fmap, result_fmap in Hst.
  cbn [written] in Hst. rewrite !Forall_cons in Hst.
  destruct Hst as (S1 & S2 & S3 & S4 & S5 & S6 & _).
  repeat split; try done; by apply stored_lookup.
Qed.

(** C10. [score_contract] works in place: it returns the reference it was
    given (or raises); when it returns, the record behind that reference
    holds in its six derived fields the scores of the record as it was
    before the call; every other field of the record is as before, present
    or absent, and nothing else in the interpreter state changes. *)
Theorem score_contract_in_place (contract : loc)
    (milestones : option (list dict)) (w : world) :
  let before := dicts w !!! contract in
  let r := (score_contract contract milestones w).1 in
  let w' := (score_contract contract milestones w).2 in
  let after := dicts w' !!! contract in
  (numbers_where_expected before → r = Ok contract) ∧
  (r = Ok contract ∨ ∃ e, r = Raise e) ∧
  (r = Ok contract →
   ∃ cost schedule performance compliance health,
     calculate_cost_variance_score before = Ok cost ∧
     calculate_schedule_variance_score before = Ok schedule ∧
     calculate_performance_score before milestones = Ok performance ∧
     calculate_compliance_score before = Ok compliance ∧
     calculate_overall_health before milestones = Ok health ∧
     after !! "cost_variance_score" = Some (VNum cost) ∧
     after !! "schedule_variance_score" = Some (VNum schedule) ∧
     after !! "performance_score" = Some (VNum performance) ∧
     after !! "compliance_score" = Some (VNum compliance) ∧
     after !! "overall_health_score" = Some (VNum health) ∧
     after !! "risk_level" = Some (VStr (determine_risk_level health))) ∧
  (∀ k, k ∉ derived_fields → after !! k = before !! k) ∧
  (∀ c', c' ≠ contract → dicts w' !! c' = dicts w !! c') ∧
  lists w' = lists w ∧ ticks w' = ticks w ∧ log w' = log w.
Proof.
  intros before r w' after. split; [apply score_contract_returns|].
  split.
  { subst r. rewrite score_contract_run. cbv zeta.
    change (?a, ?b).1 with a. destruct (outcome _); eauto. }
  split.
  { intros Hr. by apply (score_contract_fields_written _ _ _ contract). }
  split.
  { intros k Hk. symmetry. by apply score_contract_keeps_inputs. }
  subst w'. rewrite score_contract_run. cbv zeta. change (?a, ?b).2 with b.
  destruct (write_fields_frame contract
              (score_fields (dicts w !!! contract) milestones) w)
    as (Hl & Ht & Hg & Hc & _ & _).
  by repeat split.
Qed.

End ScoreContractReturns.

(** A record with a title and two amounts, scored without milestones: the
    call returns the reference, the record now holds the cost score 70, and
    the title is still there. *)
Lemma score_contract_in_place_example :
  let w := World {[ 1%positive := {[ "title" := VStr "Bridge repair";
                                     "original_amount" := VNum 100000;
                                     "current_amount" := VNum 112000 ]} ]}
                 ∅ 0 [] in
  let run := ContractScoringEngine.score_contract
               (H := SampleRuntime.runtime) 1%positive None w in
  run.1 = Ok 1%positive ∧
  (dicts run.2 !!! 1%positive) !! "cost_variance_score" = Some (VNum 70) ∧
  (dicts run.2 !!! 1%positive) !! "title" = Some (VStr "Bridge repair").
Proof.
  intros w run.
  destruct (score_contract_in_place (H := SampleRuntime.runtime)
              1%positive None w) as (Hret & _ & Hwritten & Hkeep & _).
  assert (run.1 = Ok 1%positive) as Hrun.
  { apply Hret. clear. intros k Hk s.
    assert (k = "original_amount" ∨ k = "current_amount"
            ∨ k = "percent_complete") as Hcases.
    { rewrite !elem_of_cons in Hk.
      destruct Hk as [?|[?|[?|Hk]]]; auto. by apply elem_of_nil in Hk. }
    clear Hk. destruct Hcases as [Hk|[Hk|Hk]]; rewrite Hk; by vm_compute. }
  split; [exact Hrun|]. split.
  - destruct (Hwritten Hrun) as (c & s & p & k & h & Hc & _ & _ & _ & _ & Sc & _).
    subst run. rewrite Sc. clear -Hc. vm_compute in Hc. by injection Hc as <-.
  - subst run. rewrite (Hkeep "title"); [by vm_compute|]. clear. raw_field.
Defined.

(** ** Vendor scoring engine *)

Section VendorScore.
Import VendorScoringEngine.

Lemma Qlt_bool_proper (x x' y y' : Q) :
  x == x' → y == y' → Qlt_bool x y = Qlt_bool x' y'.
Proof. intros Hx Hy. unfold Qlt_bool. by rewrite Hx, Hy. Qed.

Lemma round_half_even_proper (x y : Q) :
  x == y → round_half_even x = round_half_even y.
Proof.
  intros E. unfold round_half_even. rewrite (Qfloor_comp _ _ E).
  assert (x - inject_Z (Qfloor y) == y - inject_Z (Qfloor y)) as Er
    by (by rewrite E).
  by rewrite (Qlt_bool_proper _ _ _ _ Er (Qeq_refl _)),
             (Qlt_bool_proper _ _ _ _ (Qeq_refl _) Er).
Qed.

Lemma py_round_proper (x y : Q) (n : nat) : x == y → py_round x n = py_round y n.
Proof.
  intros E. unfold py_round. destruct n.
  - by rewrite (round_half_even_proper _ _ E).
  - f_equal. apply round_half_even_proper. by rewrite E.
Qed.

Lemma vendor_step_reads acc (c : dict) :
  numeric_or_absent c "current_amount" →
  numeric_or_absent c "overall_health_score" →
  vendor_step acc c =
  Ok (acc.1 + contract_weight c, acc.2 + contract_health c * contract_weight c).
Proof.
  intros [a Ha] [h Hh].
  unfold vendor_step, contract_weight, contract_health, get, py_or.
  rewrite Ha, Hh. destruct a as [a|], h as [h|]; simpl;
    try destruct (Qeq_bool a 0); reflexivity.
Qed.

Lemma vendor_loop_sums (contracts : list dict) (acc : Q * Q) :
  Forall (λ c, numeric_or_absent c "current_amount" ∧
               numeric_or_absent c "overall_health_score") contracts →
  ∃ t s, vendor_loop contracts acc = Ok (t, s) ∧
         t == acc.1 + total_weight contracts ∧
         s == acc.2 + weighted_health contracts.
Proof.
  intros Hcs. revert acc.
  induction Hcs as [|c cs [Ha Hh] _ IH]; intros acc.
  - exists acc.1, acc.2. destruct acc as [t s].
    unfold total_weight, weighted_health, Qsum. simpl.
    split; [done|]. split; apply Qeq_sym, Qplus_0_r.
  - simpl. rewrite (vendor_step_reads _ _ Ha Hh). simpl.
    destruct (IH (acc.1 + contract_weight c,
                  acc.2 + contract_health c * contract_weight c))
      as (t & s & -> & Et & Es).
    exists t, s. split; [done|]. simpl in Et, Es.
    unfold total_weight, weighted_health, Qsum in *. simpl.
    split; [rewrite Et | rewrite Es]; apply Qeq_sym, Qplus_assoc.
Qed.

(** On exact rationals the vendor score is 50 without contracts, the
    weighted mean of the health scores rounded to one decimal when the
    total weight is positive, and 50 when it is not. *)
Lemma vendor_score_exact_mean (vendor : dict) (contracts : list dict) :
  Forall (λ c, numeric_or_absent c "current_amount" ∧
               numeric_or_absent c "overall_health_score") contracts →
  (contracts = [] → calculate_vendor_score vendor contracts = Ok 50) ∧
  (0 < total_weight contracts →
   calculate_vendor_score vendor contracts =
   Ok (py_round (weighted_health contracts / total_weight contracts) 1)) ∧
  (total_weight contracts <= 0 →
   calculate_vendor_score vendor contracts = Ok 50).
Proof.
  intros Hcs. split; [by intros ->|].
  unfold calculate_vendor_score.
  destruct contracts as [|c cs].
  { split; [|done]. intros Hpos. by apply Qlt_irrefl in Hpos. }
  destruct (vendor_loop_sums (c :: cs) (0, 0) Hcs) as (t & s & -> & Et & Es).
  cbn [fst snd] in Et, Es. rewrite Qplus_0_l in Et, Es.
  cbn [mbind result_bind fst snd].
  split.
  - intros Hpos. rewrite <- Et in Hpos.
    replace (Qlt_bool 0 t) with true by (symmetry; by apply Qlt_bool_iff).
    rewrite truediv_ok.
    + cbn [mbind result_bind]. f_equal. apply py_round_proper.
      by rewrite Et, Es.
    + intros E0. rewrite E0 in Hpos. by apply Qlt_irrefl in Hpos.
  - intros Hle. rewrite <- Et in Hle.
    by replace (Qlt_bool 0 t) with false
      by (symmetry; by apply Qlt_bool_false).
Qed.

End VendorScore.

(** ** Stable sorting *)

Section SortFacts.
Context {A : Type}.

Lemma insert_by_perm (before : A → A → bool) x l :
  Permutation (insert_by before x l) (x :: l).
Proof.
  induction l as [|y l IH]; simpl; [done|].
  destruct (before y x); [|done].
  rewrite IH. apply perm_swap.
Qed.

Lemma sort_by_perm (before : A → A → bool) l :
  Permutation (sort_by before l) l.
Proof.
  induction l as [|x l IH]; simpl; [done|].
  rewrite insert_by_perm. by constructor.
Qed.

Lemma sort_by_length (before : A → A → bool) l :
  length (sort_by before l) = length l.
Proof. apply Permutation_length, sort_by_perm. Qed.

(** Sorting by a key in [nat], smaller keys first. *)
Context (key : A → nat).
Let before (a b : A) : bool := (key a <? key b)%nat.
Let le (a b : A) : Prop := (key a ≤ key b)%nat.

Lemma insert_by_sorted x l :
  StronglySorted le l → StronglySorted le (insert_by before x l).
Proof.
  induction 1 as [|y l Hl IH Hy]; simpl.
  - repeat constructor.
  - unfold before at 1. destruct (key y <? key x)%nat eqn:E.
    + apply Nat.ltb_lt in E. constructor; [done|].
      rewrite Forall_forall. intros z Hz.
      apply list_elem_of_In, (Permutation_in _ (insert_by_perm before x l)) in Hz.
      destruct Hz as [<-|Hz]; [unfold le; lia|].
      rewrite Forall_forall in Hy. apply Hy. by apply list_elem_of_In.
    + apply Nat.ltb_ge in E. constructor; [by constructor|].
      constructor; [done|].
      eapply Forall_impl; [exact Hy|]. intros z Hz. unfold le in *. lia.
Qed.

Lemma sort_by_sorted l : StronglySorted le (sort_by before l).
Proof.
  induction l as [|x l IH]; simpl; [constructor|]. by apply insert_by_sorted.
Qed.

(** Elements of equal key keep the order they had. *)
Lemma insert_by_stable (k : nat) x l :
  filter (λ a, key a = k) (insert_by before x l) =
  filter (λ a, key a = k) (x :: l).
Proof.
  induction l as [|y l IH]; simpl; [done|].
  unfold before at 1. destruct (key y <? key x)%nat eqn:E; [|done].
  apply Nat.ltb_lt in E.
  rewrite (filter_cons _ y (insert_by _ _ _)), IH, !filter_cons.
  repeat case_decide; try done; lia.
Qed.

Lemma sort_by_stable (k : nat) l :
  filter (λ a, key a = k) (sort_by before l) = filter (λ a, key a = k) l.
Proof.
  induction l as [|x l IH]; simpl; [done|].
  by rewrite insert_by_stable, !filter_cons, IH.
Qed.

End SortFacts.

(** ** Alert generator *)

Section Alerts.
Context `{PyRuntime}.
Import AlertGenerator.

Lemma judge_all_app p1 p2 w :
  judge_all (p1 ++ p2)%list w =
  let '(j1, w1) := judge_all p1 w in
  let '(j2, w2) := judge_all p2 w1 in
  ((j1 ++ j2)%list, w2).
Proof.
  revert w. induction p1 as [|[c r] p1 IH]; intros w; simpl.
  - by destruct (judge_all p2 w).
  - destruct (judge c r w) as [v w1]. rewrite IH.
    destruct (judge_all p1 w1) as [j1 w2].
    by destruct (judge_all p2 w2).
Qed.

Lemma fired_alerts_app js1 js2 :
  fired_alerts (js1 ++ js2)%list = (fired_alerts js1 ++ fired_alerts js2)%list.
Proof. apply omap_app. Qed.

(** The body of the inner loop appends the alert of the verdict, if any,
    and never raises. *)
Lemma check_rule_judge contract alerts r w :
  check_rule contract alerts r w =
  let '(v, w') := judge contract r w in
  (Ok (alerts ++ fired_alerts [Judgement contract r v])%list, w').
Proof.
  unfold check_rule, judge, try_except, mbind, Py_bind.
  destruct (condition r contract w) as [[fired|e] w1]; [|by rewrite app_nil_r].
  destruct (truthy fired); [|by rewrite app_nil_r].
  by destruct (make_alert contract r w1) as [[a|e] w2];
    [|rewrite app_nil_r].
Qed.

Lemma rules_loop_judge rules contract alerts w :
  for_each rules (check_rule contract) alerts w =
  let '(js, w') := judge_all ((λ r, (contract, r)) <$> rules) w in
  (Ok (alerts ++ fired_alerts js)%list, w').
Proof.
  revert alerts w. induction rules as [|r rules IH]; intros alerts w.
  - simpl. by rewrite app_nil_r.
  - simpl. unfold mbind at 1, Py_bind at 1. rewrite check_rule_judge.
    destruct (judge contract r w) as [v w1]. rewrite IH.
    destruct (judge_all _ w1) as [js w2].
    change (Judgement contract r v :: js)
      with ([Judgement contract r v] ++ js)%list.
    by rewrite fired_alerts_app, app_assoc.
Qed.

Lemma contracts_loop_judge rules contracts alerts w :
  for_each contracts
    (λ alerts contract, for_each rules (check_rule contract) alerts) alerts w =
  let '(js, w') := judge_all (pairs_of contracts rules) w in
  (Ok (alerts ++ fired_alerts js)%list, w').
Proof.
  revert alerts w. induction contracts as [|c contracts IH]; intros alerts w.
  - simpl. by rewrite app_nil_r.
  - simpl. unfold mbind at 1, Py_bind at 1. rewrite rules_loop_judge.
    change (pairs_of (c :: contracts) rules)
      with (((λ r, (c, r)) <$> rules) ++ pairs_of contracts rules)%list.
    rewrite judge_all_app.
    destruct (judge_all _ w) as [j1 w1]. rewrite IH.
    destruct (judge_all _ w1) as [j2 w2].
    by rewrite fired_alerts_app, app_assoc.
Qed.

(** [generate_alerts] always returns: the fired alerts, sorted. *)
Lemma generate_alerts_with_judged rules contracts w :
  generate_alerts_with rules contracts w =
  (Ok (sort_by by_severity
         (fired_alerts (judge_all (pairs_of contracts rules) w).1)),
   (judge_all (pairs_of contracts rules) w).2).
Proof.
  unfold generate_alerts_with, collect_alerts, mbind, Py_bind.
  rewrite contracts_loop_judge. by destruct (judge_all _ w) as [js w'].
Qed.

(** Every pair is judged, in the order of the loops. *)
Lemma judge_all_pairs pairs w :
  (λ j, (subject j, judged_by j)) <$> (judge_all pairs w).1 = pairs.
Proof.
  revert w. induction pairs as [|[c r] pairs IH]; intros w; simpl; [done|].
  destruct (judge c r w) as [v w1]. specialize (IH w1).
  destruct (judge_all pairs w1) as [js w2]. simpl in *. by f_equal.
Qed.

End Alerts.

Section AlertLog.
Context `{PyRuntime}.
Import AlertGenerator.

Lemma lift_log {A} (x : result A) w : log (lift x w).2 = log w.
Proof. reflexivity. Qed.

Lemma expiring_soon_log contract days w :
  log (_expiring_soon contract days w).2 = log w.
Proof.
  unfold _expiring_soon. destruct (negb _); [done|].
  unfold try_except, mbind, Py_bind, lift.
  by destruct (ContractScoringEngine.parse_iso 10 _).
Qed.

Lemma no_recent_activity_log contract days w :
  log (_no_recent_activity contract days w).2 = log w.
Proof.
  unfold _no_recent_activity. destruct (negb _); [done|].
  unfold try_except, mbind, Py_bind, lift.
  by destruct (ContractScoringEngine.parse_iso 19 _).
Qed.

Lemma alert_rules_log_free : Forall log_free alert_rules.
Proof.
  unfold alert_rules. repeat apply Forall_cons_2; try apply Forall_nil_2;
    intros contract w; simpl; try reflexivity.
  - unfold mbind, Py_bind.
    pose proof (expiring_soon_log contract 30 w) as Hl.
    by destruct (_expiring_soon contract 30 w) as [[b|e] w'].
  - unfold mbind, Py_bind, lift. by destruct (as_num _).
  - unfold mbind, Py_bind, lift. by destruct (as_num _).
  - unfold mbind, Py_bind.
    pose proof (no_recent_activity_log contract 60 w) as Hl.
    by destruct (_no_recent_activity contract 60 w) as [[b|e] w'].
Qed.

Lemma judge_log contract r w :
  log_free r →
  log (judge contract r w).2 =
  (log w ++ failures [Judgement contract r (judge contract r w).1])%list.
Proof.
  intros Hr. unfold judge. specialize (Hr contract w).
  destruct (condition r contract w) as [[fired|e] w1]; simpl in *.
  - destruct (truthy fired); simpl; by rewrite Hr, app_nil_r.
  - by rewrite Hr.
Qed.

Lemma failures_cons j js :
  failures (j :: js) = (failures [j] ++ failures js)%list.
Proof. unfold failures. simpl. by destruct (verdict_of j). Qed.

Lemma judge_all_log pairs w :
  Forall (λ p, log_free p.2) pairs →
  log (judge_all pairs w).2 = (log w ++ failures (judge_all pairs w).1)%list.
Proof.
  intros Hp. revert w. induction Hp as [|[c r] pairs Hr _ IH]; intros w; simpl.
  - by rewrite app_nil_r.
  - pose proof (judge_log c r w Hr) as Hj.
    destruct (judge c r w) as [v w1]. specialize (IH w1).
    destruct (judge_all pairs w1) as [js w2]. cbn [fst snd] in *.
    rewrite IH, Hj, (failures_cons (Judgement c r v) js).
    by rewrite app_assoc.
Qed.

Lemma pairs_of_rules (P : rule → Prop) contracts rules :
  Forall P rules → Forall (λ p, P p.2) (pairs_of contracts rules).
Proof.
  intros Hr. unfold pairs_of. induction contracts as [|c cs IH]; simpl.
  - constructor.
  - apply Forall_app. split; [|done].
    apply Forall_fmap. eapply Forall_impl; [exact Hr|]. done.
Qed.

End AlertLog.

Section AlertTheorems.
Context `{PyRuntime}.
Import AlertGenerator.

(** C5. The alerts [generate_alerts] returns are in ascending order of
    severity rank (Critical 0, High 1, Medium 2, Low 3, anything else 4),
    and the alerts of one rank are in the order in which the loops fired
    them: contract by contract, and rule by rule for each contract. *)
Theorem generate_alerts_sorted_stable (contracts : list dict) (w : world) :
  let fired :=
    fired_alerts (judge_all (pairs_of contracts alert_rules) w).1 in
  ∃ alerts w',
    generate_alerts contracts w = (Ok alerts, w') ∧
    StronglySorted (λ a b, (rank a ≤ rank b)%nat) alerts ∧
    Permutation alerts fired ∧
    (∀ k, filter (λ a, rank a = k) alerts = filter (λ a, rank a = k) fired) ∧
    severity_order "Critical" = 0%nat ∧ severity_order "High" = 1%nat ∧
    severity_order "Medium" = 2%nat ∧ severity_order "Low" = 3%nat ∧
    (∀ s, s ∈ ["Critical"; "High"; "Medium"; "Low"] ∨
          severity_order s = 4%nat).
Proof.
  intros fired. unfold generate_alerts.
  rewrite generate_alerts_with_judged. fold fired.
  eexists _, _. split; [reflexivity|].
  split; [apply (sort_by_sorted rank)|].
  split; [apply sort_by_perm|].
  split; [intros k; apply (sort_by_stable rank)|].
  repeat split.
  intros s. unfold severity_order.
  destruct (String.eqb s "Critical") eqn:E1;
    [apply String.eqb_eq in E1 as ->; left; set_solver|].
  destruct (String.eqb s "High") eqn:E2;
    [apply String.eqb_eq in E2 as ->; left; set_solver|].
  destruct (String.eqb s "Medium") eqn:E3;
    [apply String.eqb_eq in E3 as ->; left; set_solver|].
  destruct (String.eqb s "Low") eqn:E4;
    [apply String.eqb_eq in E4 as ->; left; set_solver|].
  by right.
Qed.

(** C6. [generate_alerts] returns normally whatever the predicates do.
    Every pair of a contract and a rule is judged, in the order of the
    loops; a predicate that raises is logged and yields no alert, and the
    result holds exactly the alerts of the pairs whose predicate was true. *)
Theorem generate_alerts_isolates_faults (contracts : list dict) (w : world) :
  let js := (judge_all (pairs_of contracts alert_rules) w).1 in
  ∃ alerts w',
    generate_alerts contracts w = (Ok alerts, w') ∧
    (λ j, (subject j, judged_by j)) <$> js = pairs_of contracts alert_rules ∧
    alerts = sort_by by_severity (fired_alerts js) ∧
    Permutation alerts (fired_alerts js) ∧
    log w' = (log w ++ failures js)%list.
Proof.
  intros js. unfold generate_alerts.
  rewrite generate_alerts_with_judged. fold js.
  eexists _, _. split; [reflexivity|].
  split; [apply judge_all_pairs|].
  split; [reflexivity|].
  split; [apply sort_by_perm|].
  apply judge_all_log, pairs_of_rules, alert_rules_log_free.
Qed.

End AlertTheorems.

Section LowHealthScore.
Context `{PyRuntime}.
Import AlertGenerator.

(** The predicate of [low_health_score] on a record whose health score is
    absent or a number: it holds when the score, read as 100 when absent
    and also when it is zero, is below 50. *)
Lemma low_health_score_condition (contract : dict) (o : option Q) (w : world) :
  contract !! "overall_health_score" = VNum <$> o →
  ∃ r, alert_rules !! 6%nat = Some r ∧ rule_id r = "low_health_score" ∧
       rule_severity r = "High" ∧
       condition r contract w =
       (Ok (VBool (match o with
                   | Some h => negb (Qeq_bool h 0) && Qlt_bool h 50
                   | None => false
                   end)), w).
Proof.
  intros Ho. eexists. split; [reflexivity|]. repeat split.
  simpl. unfold get, py_or. rewrite Ho. destruct o as [h|]; simpl; [|done].
  by destruct (Qeq_bool h 0).
Qed.

(** C7 fails on the code at a health score of zero: the contract gets no
    alert at all, where a score of 1 gets the [low_health_score] alert. *)
Theorem low_health_score_misses_zero (w : world) :
  generate_alerts
    [ {[ "contract_id" := VStr "C-1"; "overall_health_score" := VNum 0 ]} ] w
  = (Ok [], w) ∧
  ∃ a w',
    generate_alerts
      [ {[ "contract_id" := VStr "C-1"; "overall_health_score" := VNum 1 ]} ] w
    = (Ok [a], w') ∧
    alert_type a = "low_health_score" ∧ severity a = "High".
Proof.
  split; [reflexivity|]. eexists _, _. split; [reflexivity|]. by split.
Qed.

End LowHealthScore.

(** ** Benchmarking engine *)

Section ScoreKPI.
Context `{PyRuntime}.
Import Benchmarking.

(** Every benchmark of the table is positive. *)
Lemma benchmarks_positive :
  Forall (λ kv, 0 < benchmark_value kv.2) (benchmarks __init__).
Proof. repeat constructor. Qed.

Lemma lookup_key_elem {A} k (table : list (string * A)) v :
  lookup_key k table = Some v → (k, v) ∈ table.
Proof.
  induction table as [|[k' v'] table IH]; simpl; [done|].
  destruct (String.eqb k' k) eqn:E.
  - apply String.eqb_eq in E as ->. intros [= ->]. left.
  - intros Hl. right. by apply IH.
Qed.

Lemma gap_percent_of_returns gap benchmark :
  ∃ p, gap_percent_of gap benchmark = Ok p.
Proof.
  unfold gap_percent_of. destruct (Qlt_bool 0 benchmark) eqn:E; [|eauto].
  apply Qlt_bool_iff in E. rewrite truediv_ok; [simpl; eauto|].
  intros E0. rewrite E0 in E. by apply Qlt_irrefl in E.
Qed.

Lemma recommendation_returns self kpi_id kpi actual benchmark direction rating :
  lookup_key kpi_id (benchmarks self) = Some kpi →
  ∃ text,
    _generate_recommendation self kpi_id actual benchmark direction rating
    = Ok text.
Proof.
  intros Hk. unfold _generate_recommendation. rewrite Hk.
  destruct (one_of rating _); [eauto|].
  destruct (String.eqb direction "higher"); [|eauto].
  destruct (contains _ _); eauto.
Qed.

(** On a table of positive benchmarks, a known KPI is scored. *)
Lemma score_kpi_known self kpi_id kpi actual :
  lookup_key kpi_id (benchmarks self) = Some kpi →
  0 < benchmark_value kpi →
  ∃ s, score_kpi self kpi_id actual = Ok s ∧ Benchmarking.kpi_id s = kpi_id.
Proof.
  intros Hk Hpos. unfold score_kpi. rewrite Hk.
  destruct (gap_percent_of_returns (actual - benchmark_value kpi)
              (benchmark_value kpi)) as [p1 Hp1].
  destruct (gap_percent_of_returns (benchmark_value kpi - actual)
              (benchmark_value kpi)) as [p2 Hp2].
  assert (¬ benchmark_value kpi == 0) as Hnz.
  { intros E0. rewrite E0 in Hpos. by apply Qlt_irrefl in Hpos. }
  destruct (String.eqb (kpi_direction kpi) "higher").
  - rewrite Hp1. cbn [mbind result_bind].
    destruct (Qle_bool (benchmark_value kpi) actual).
    + cbn [mbind result_bind].
      destruct (recommendation_returns self kpi_id kpi actual
                  (benchmark_value kpi) (kpi_direction kpi)
                  (rating_of (py_min 100 (100 + p1 * 0.1))) Hk) as [t ->].
      cbn [mbind result_bind]. eauto.
    + rewrite (truediv_ok _ _ Hnz). cbn [mbind result_bind].
      destruct (recommendation_returns self kpi_id kpi actual
                  (benchmark_value kpi) (kpi_direction kpi)
                  (rating_of (py_max 0 (actual / benchmark_value kpi * 100)))
                  Hk) as [t ->].
      cbn [mbind result_bind]. eauto.
  - rewrite Hp2. cbn [mbind result_bind].
    destruct (Qle_bool actual (benchmark_value kpi)).
    + cbn [mbind result_bind].
      destruct (recommendation_returns self kpi_id kpi actual
                  (benchmark_value kpi) (kpi_direction kpi)
                  (rating_of (py_min 100 (100 + p2 * 0.1))) Hk) as [t ->].
      cbn [mbind result_bind]. eauto.
    + destruct (Qlt_bool 0 actual) eqn:Ea.
      * apply Qlt_bool_iff in Ea. rewrite truediv_ok.
        -- cbn [mbind result_bind].
           destruct (recommendation_returns self kpi_id kpi actual
                       (benchmark_value kpi) (kpi_direction kpi)
                       (rating_of
                          (py_max 0 (benchmark_value kpi / actual * 100)))
                       Hk) as [t ->].
           cbn [mbind result_bind]. eauto.
        -- intros E0. rewrite E0 in Ea. by apply Qlt_irrefl in Ea.
      * cbn [mbind result_bind].
        destruct (recommendation_returns self kpi_id kpi actual
                    (benchmark_value kpi) (kpi_direction kpi)
                    (rating_of 0) Hk) as [t ->].
        cbn [mbind result_bind]. eauto.
Qed.

(** C8. [score_kpi] raises the unknown-KPI [ValueError] exactly when the
    identifier is not a key of the benchmark table; for a key of the table
    it returns a [KPIScore], whatever the actual value. *)
Theorem score_kpi_unknown_iff (kpi_id : string) (actual_value : Q) :
  (score_kpi __init__ kpi_id actual_value
   = Raise (ValueError ("Unknown KPI: " ++ kpi_id))
   ↔ lookup_key kpi_id COUPA_BENCHMARKS = None) ∧
  ((∃ e, score_kpi __init__ kpi_id actual_value = Raise e)
   ↔ lookup_key kpi_id COUPA_BENCHMARKS = None) ∧
  ((∃ s, score_kpi __init__ kpi_id actual_value = Ok s)
   ↔ is_Some (lookup_key kpi_id COUPA_BENCHMARKS)).
Proof.
  assert (∀ kpi, lookup_key kpi_id COUPA_BENCHMARKS = Some kpi →
                 ∃ s, score_kpi __init__ kpi_id actual_value = Ok s) as Hok.
  { intros kpi Hk.
    destruct (score_kpi_known __init__ kpi_id kpi actual_value Hk) as (s & Hs & _);
      [|eauto].
    pose proof benchmarks_positive as Hall. rewrite Forall_forall in Hall.
    apply (Hall (kpi_id, kpi)). by apply lookup_key_elem. }
  assert (lookup_key kpi_id COUPA_BENCHMARKS = None →
          score_kpi __init__ kpi_id actual_value
          = Raise (ValueError ("Unknown KPI: " ++ kpi_id))) as Hno.
  { intros Hk. unfold score_kpi. simpl benchmarks. by rewrite Hk. }
  destruct (lookup_key kpi_id COUPA_BENCHMARKS) as [kpi|] eqn:Hk.
  - destruct (Hok kpi eq_refl) as [s Hs]. rewrite Hs.
    repeat split; try done; try (intros [e He]; done); eauto.
  - rewrite (Hno eq_refl).
    repeat split; try done; eauto; try (intros [s Hs]; done);
      intros [x Hx]; done.
Qed.

End ScoreKPI.

Section PeerComparison.
Context `{PyRuntime}.
Import Benchmarking.

Lemma bind_deref_list {A} l (k : list Q → Py A) w :
  (deref_list l ≫= k) w = k (lists w !!! l) w.
Proof. reflexivity. Qed.

Lemma bind_assign_list {A} l xs (k : Datatypes.unit → Py A) w :
  (assign_list l xs ≫= k) w = k tt (assign_list l xs w).2.
Proof. reflexivity. Qed.

Lemma list_after_assign l xs w : lists (assign_list l xs w).2 !!! l = xs.
Proof. simpl. apply lookup_total_insert_eq. Qed.

(** What [_calculate_peer_comparison] leaves in the caller's list: the
    score is appended and the list sorted, largest first. *)
Lemma peer_comparison_updates_scores (self : BenchmarkingEngine) (score : Q)
    (peer_data : gmap string loc) (peer_scores : loc) (w : world) :
  peer_data !! "scores" = Some peer_scores →
  lists w !!! peer_scores ≠ [] →
  lists (_calculate_peer_comparison self score peer_data w).2 !!! peer_scores
  = sort_by descending (lists w !!! peer_scores ++ [score])%list.
Proof.
  intros Hp Hne. unfold _calculate_peer_comparison. rewrite Hp.
  rewrite bind_deref_list.
  destruct (lists w !!! peer_scores) as [|x xs] eqn:Exs; [done|].
  cbn [length Nat.ltb Nat.leb negb].
  rewrite bind_assign_list, bind_deref_list, list_after_assign.
  rewrite bind_assign_list, bind_deref_list, list_after_assign.
  set (sorted := sort_by descending ((x :: xs) ++ [score])%list).
  set (w2 := (assign_list peer_scores sorted _).2).
  assert (lists w2 !!! peer_scores = sorted) as Hw2
    by apply list_after_assign.
  clearbody w2.
  rewrite bind_lift. destruct (index_of score sorted); [|done].
  rewrite bind_lift. destruct (truediv _ _); [|done].
  rewrite bind_lift. destruct (truediv _ _); [|done].
  rewrite bind_lift. by destruct (sorted !! _).
Qed.

(** C9 fails on the code: a call with peer data changes the list of peer
    scores it was given.  With no KPI values the overall score is 0, and
    the peers [70, 60] become [70, 60, 0]. *)
Theorem calculate_health_score_changes_peer_scores :
  let w := World ∅ {[ 1%positive := [70; 60] ]} 0 [] in
  let run := calculate_health_score __init__ ∅
               (Some {[ "scores" := 1%positive ]}) w in
  (∃ health, run.1 = Ok health) ∧
  lists w !! 1%positive = Some [70; 60] ∧
  lists run.2 !! 1%positive = Some [70; 60; 0].
Proof.
  intros w run. split; [|split].
  - eexists. by vm_compute.
  - reflexivity.
  - by vm_compute.
Qed.

End PeerComparison.

(** * Further properties of the engines *)

(** ** Ranges and monotonicity of the contract scores *)

Section ScoreRanges.
Context `{PyRuntime}.
Import ContractScoringEngine.

Lemma py_max_bounds (a b lo hi : Q) :
  lo <= a <= hi → b <= hi → lo <= py_max a b <= hi.
Proof.
  intros [Hlo Hhi] Hb. unfold py_max. destruct (Qlt_bool a b) eqn:E; [|done].
  apply Qlt_bool_iff in E. split; [|done].
  apply Qle_trans with a; [done|]. by apply Qlt_le_weak.
Qed.

(** X1. Whenever the cost score is returned it lies between 20 and 100. *)
Theorem cost_variance_score_range (contract : dict) (score : Q) :
  calculate_cost_variance_score contract = Ok score → 20 <= score <= 100.
Proof.
  unfold calculate_cost_variance_score.
  destruct (as_num (py_or (get contract "original_amount" _) _)) as [o|];
    [|done].
  cbn [mbind result_bind]. destruct (Qle_bool o 0); [intros [= <-]; lra|].
  destruct (as_num (py_or (get contract "current_amount" _) _)) as [c|];
    [|done].
  cbn [mbind result_bind]. destruct (truediv (c - o) o) as [ratio|]; [|done].
  cbn [mbind result_bind].
  destruct (Qle_bool (ratio * 100) 0); [intros [= <-]; lra|].
  destruct (Qle_bool (ratio * 100) 5); [intros [= <-]; lra|].
  destruct (Qle_bool (ratio * 100) 10); [intros [= <-]; lra|].
  destruct (Qle_bool (ratio * 100) 15); [intros [= <-]; lra|].
  destruct (Qle_bool (ratio * 100) 20); [intros [= <-]; lra|].
  destruct (Qle_bool (ratio * 100) 30) eqn:E30; [intros [= <-]; lra|].
  intros [= <-]. apply Qle_bool_false in E30.
  apply py_max_bounds; lra.
Qed.

End ScoreRanges.

(** An overrun of 12 % scores 70, within the range. *)
Lemma cost_variance_score_range_example :
  ContractScoringEngine.calculate_cost_variance_score
    {[ "original_amount" := VNum 100; "current_amount" := VNum 112 ]} = Ok 70
  ∧ 20 <= 70 <= 100.
Proof.
  split; [by vm_compute|].
  apply (cost_variance_score_range
           {[ "original_amount" := VNum 100; "current_amount" := VNum 112 ]}).
  by vm_compute.
Defined.

Section CostMonotone.
Import ContractScoringEngine.

(** The grade of a variance percentage, as the code computes it. *)
Lemma cost_grade_monotone (v1 v2 : Q) (s1 s2 : Q) :
  v1 <= v2 →
  (if Qle_bool v1 0 then Ok 100
   else if Qle_bool v1 5 then Ok 95
   else if Qle_bool v1 10 then Ok 85
   else if Qle_bool v1 15 then Ok 70
   else if Qle_bool v1 20 then Ok 55
   else if Qle_bool v1 30 then Ok 40
   else Ok (py_max 20 (40 - (v1 - 30)))) = Ok s1 →
  (if Qle_bool v2 0 then Ok 100
   else if Qle_bool v2 5 then Ok 95
   else if Qle_bool v2 10 then Ok 85
   else if Qle_bool v2 15 then Ok 70
   else if Qle_bool v2 20 then Ok 55
   else if Qle_bool v2 30 then Ok 40
   else Ok (py_max 20 (40 - (v2 - 30)))) = Ok s2 →
  s2 <= s1.
Proof.
  intros Hv.
  pose proof (py_max_Qmax 20 (40 - (v1 - 30))) as M1.
  pose proof (py_max_Qmax 20 (40 - (v2 - 30))) as M2.
  pose proof (Q.le_max_l 20 (40 - (v1 - 30))) as L1.
  pose proof (Q.le_max_l 20 (40 - (v2 - 30))) as L2.
  assert (Qmax 20 (40 - (v2 - 30)) <= Qmax 20 (40 - (v1 - 30))) as Hmax
    by (apply Q.max_le_compat_l; lra).
  assert (∀ v, 30 < v → Qmax 20 (40 - (v - 30)) <= 40) as Hcap
    by (intros v Hv30; apply Q.max_lub; lra).
  repeat match goal with
         | |- context [Qle_bool ?a ?b] =>
             let E := fresh "E" in
             destruct (Qle_bool a b) eqn:E;
             [apply Qle_bool_iff in E | apply Qle_bool_false in E]
         end;
    intros [= <-] [= <-]; try lra;
    try (rewrite M2; specialize (Hcap v2); lra);
    try (rewrite M1, M2; lra).
Qed.

(** X2. For a fixed positive original amount, a larger current amount
    never gives a better cost score. *)
Theorem cost_variance_score_monotone (d1 d2 : dict) (original c1 c2 : Q) :
  d1 !! "original_amount" = Some (VNum original) →
  d2 !! "original_amount" = Some (VNum original) →
  d1 !! "current_amount" = Some (VNum c1) →
  d2 !! "current_amount" = Some (VNum c2) →
  0 < original → c1 <= c2 →
  ∃ s1 s2, calculate_cost_variance_score d1 = Ok s1 ∧
           calculate_cost_variance_score d2 = Ok s2 ∧ s2 <= s1.
Proof.
  intros Ho1 Ho2 Hc1 Hc2 Hpos Hle.
  destruct (cost_variance_with_baseline d1 (Some original) (Some c1) Ho1 Hc1 Hpos)
    as (v1 & Ev1 & Hs1).
  destruct (cost_variance_with_baseline d2 (Some original) (Some c2) Ho2 Hc2 Hpos)
    as (v2 & Ev2 & Hs2).
  simpl in Ev1, Ev2.
  assert (v1 <= v2) as Hv.
  { rewrite Ev1, Ev2. apply Qmult_le_compat_r; [|lra].
    apply Qmult_le_compat_r; [lra|]. apply Qlt_le_weak, Qinv_lt_0_compat, Hpos. }
  assert (∃ s1, calculate_cost_variance_score d1 = Ok s1) as [s1 E1].
  { rewrite Hs1. repeat destruct (Qle_bool _ _); eauto. }
  assert (∃ s2, calculate_cost_variance_score d2 = Ok s2) as [s2 E2].
  { rewrite Hs2. repeat destruct (Qle_bool _ _); eauto. }
  exists s1, s2. repeat split; [done..|].
  rewrite E1 in Hs1. rewrite E2 in Hs2.
  by apply (cost_grade_monotone v1 v2 s1 s2).
Qed.

End CostMonotone.

(** Growing from 112000 to 125000 on 100000 lowers the score from 70 to 40. *)
Lemma cost_variance_score_monotone_example :
  ∃ s1 s2,
    ContractScoringEngine.calculate_cost_variance_score
      {[ "original_amount" := VNum 100000; "current_amount" := VNum 112000 ]}
    = Ok s1 ∧
    ContractScoringEngine.calculate_cost_variance_score
      {[ "original_amount" := VNum 100000; "current_amount" := VNum 125000 ]}
    = Ok s2 ∧ s2 <= s1.
Proof.
  apply (cost_variance_score_monotone _ _ 100000 112000 125000);
    by vm_compute.
Defined.

Section ScheduleScore.
Context `{PyRuntime}.
Import ContractScoringEngine.

Lemma schedule_body_range original_end current_end start_date (score : Q) :
  schedule_variance_body original_end current_end start_date = Ok score →
  20 <= score <= 100.
Proof.
  unfold schedule_variance_body.
  destruct (parse_iso 10 original_end) as [t1|]; [|done].
  destruct (parse_iso 10 (py_or current_end original_end)) as [t2|]; [|done].
  destruct (parse_iso 10 start_date) as [t3|]; [|done].
  cbn [mbind result_bind].
  destruct (days_between t1 t3 <=? 0)%Z; [intros [= <-]; lra|].
  destruct (truediv _ _) as [ratio|]; [|done]. cbn [mbind result_bind].
  destruct (Qle_bool (ratio * 100) 0); [intros [= <-]; lra|].
  destruct (Qle_bool (ratio * 100) 5); [intros [= <-]; lra|].
  destruct (Qle_bool (ratio * 100) 10); [intros [= <-]; lra|].
  destruct (Qle_bool (ratio * 100) 20); [intros [= <-]; lra|].
  destruct (Qle_bool (ratio * 100) 30) eqn:E30; [intros [= <-]; lra|].
  intros [= <-]. apply Qle_bool_false in E30.
  apply py_max_bounds; lra.
Qed.

(** X3. The schedule score never raises, whatever the record holds, and
    lies between 20 and 100. *)
Theorem schedule_variance_score_total (contract : dict) :
  ∃ score, calculate_schedule_variance_score contract = Ok score ∧
           20 <= score <= 100.
Proof.
  unfold calculate_schedule_variance_score.
  destruct (_ || _); [exists 50; split; [done|lra]|].
  destruct (schedule_variance_body _ _ _) as [score|e] eqn:E.
  - exists score. split; [done|]. by eapply schedule_body_range.
  - apply schedule_body_raises in E as [msg ->].
    exists 50. split; [done|lra].
Qed.

(** X4. A contract with a valid baseline whose current end date is absent
    or null counts as on schedule and scores 100; so does one whose current
    end date is the original one. *)
Theorem schedule_not_extended_scores_100 (contract : dict)
    (start_date original_end : value) (t0 t1 : Z) :
  contract !! "start_date" = Some start_date →
  contract !! "original_end_date" = Some original_end →
  truthy start_date = true → truthy original_end = true →
  (contract !! "current_end_date" = None
   ∨ contract !! "current_end_date" = Some VNone
   ∨ contract !! "current_end_date" = Some original_end) →
  fromisoformat (prefix_of 10 (py_str start_date)) = Some t0 →
  fromisoformat (prefix_of 10 (py_str original_end)) = Some t1 →
  (0 < days_between t1 t0)%Z →
  calculate_schedule_variance_score contract = Ok 100.
Proof.
  intros Hs Ho Ts To Hc Ft0 Ft1 Hd.
  unfold calculate_schedule_variance_score, get_, get.
  rewrite Hs, Ho. simpl default. rewrite Ts, To. cbn [negb orb].
  assert (py_or (default VNone (contract !! "current_end_date")) original_end
          = original_end) as Hcur.
  { destruct Hc as [-> | [-> | -> ] ]; simpl; try done.
    unfold py_or. by rewrite To. }
  unfold schedule_variance_body. rewrite Hcur. unfold parse_iso.
  rewrite Ft0, Ft1. cbn [mbind result_bind].
  replace (days_between t1 t0 <=? 0)%Z with false by (symmetry; lia).
  rewrite truediv_ok.
  - cbn [mbind result_bind]. unfold days_between. rewrite Z.sub_diag.
    reflexivity.
  - unfold Qeq. simpl. lia.
Qed.

End ScheduleScore.

(** Six months of work with no current end date: on schedule. *)
Lemma schedule_not_extended_example :
  ContractScoringEngine.calculate_schedule_variance_score
    (H := SampleRuntime.runtime)
    {[ "start_date" := VStr "2024-01-01";
       "original_end_date" := VStr "2024-07-01" ]} = Ok 100.
Proof.
  apply (schedule_not_extended_scores_100 (H := SampleRuntime.runtime) _
           (VStr "2024-01-01") (VStr "2024-07-01")
           1704067200000000 1719792000000000);
    try (by vm_compute); by left.
Defined.

Section MoreRanges.
Context `{PyRuntime}.
Import ContractScoringEngine.

Lemma py_min_le_l (a b : Q) : py_min a b <= a.
Proof.
  unfold py_min. destruct (Qlt_bool b a) eqn:E; [|apply Qle_refl].
  apply Qlt_bool_iff in E. by apply Qlt_le_weak.
Qed.

Lemma py_max_ge_l (a b : Q) : a <= py_max a b.
Proof.
  unfold py_max. destruct (Qlt_bool a b) eqn:E; [|apply Qle_refl].
  apply Qlt_bool_iff in E. by apply Qlt_le_weak.
Qed.

Lemma clamp_range (x : Q) : 0 <= py_max 0 (py_min 100 x) <= 100.
Proof.
  split; [apply py_max_ge_l|].
  unfold py_max. destruct (Qlt_bool 0 _); [apply py_min_le_l|lra].
Qed.

Lemma milestone_base_range ms (base : Q) :
  milestone_base_score ms = Ok base → 0 <= base <= 100.
Proof.
  unfold milestone_base_score. destruct (Qlt_bool 0 _); [|intros [= <-]; lra].
  destruct (truediv _ _); destruct (truediv _ _); destruct (truediv _ _);
    cbn [mbind result_bind]; try done.
  intros [= <-]. apply clamp_range.
Qed.

(** X5. With a completion percentage between 0 and 100 (or none), the
    performance score is returned and lies between 0 and 100, whatever the
    milestones are. *)
Theorem performance_score_range (contract : dict)
    (milestones : option (list dict)) (o : option Q) :
  contract !! "percent_complete" = VNum <$> o →
  0 <= default 0 o <= 100 →
  ∃ score, calculate_performance_score contract milestones = Ok score ∧
           0 <= score <= 100.
Proof.
  intros Ho Hpc. destruct (read_amount _ _ _ Ho) as (pc & Hq & Epc).
  rewrite <- Epc in Hpc. unfold calculate_performance_score. rewrite Hq.
  assert (∃ base,
            match milestones with
            | Some (m :: ms) => milestone_base_score (m :: ms)
            | _ => Ok 50
            end = Ok base ∧ 0 <= base <= 100) as (base & -> & Hb).
  { destruct milestones as [[|m ms]|]; try (exists 50; split; [done|lra]).
    destruct (milestone_base_returns (m :: ms)) as [base Hbase].
    exists base. split; [done|]. by eapply milestone_base_range. }
  cbn [mbind result_bind]. eexists. split; [done|]. lra.
Qed.

(** X6. The compliance score, when returned, lies between 25 and 100: the
    four deductions together never reach the floor at 0. *)
Theorem compliance_score_range (contract : dict) (score : Q) :
  calculate_compliance_score contract = Ok score → 25 <= score <= 100.
Proof.
  unfold calculate_compliance_score.
  destruct (truthy (get_ contract "requires_insurance") && _);
    destruct (truthy (get_ contract "requires_bond") && _);
    destruct (truthy (get_ contract "is_sole_source") && _);
    (destruct (truthy (get_ contract "award_date") && _);
     [destruct (as_num _) as [a|]; [|done]; cbn [mbind result_bind];
      destruct (Qlt_bool 50000 a)|]);
    cbn [mbind result_bind]; intros [= <-]; by vm_compute.
Qed.

End MoreRanges.

(** Half done, no milestones: 35 + 15 = 50. *)
Lemma performance_score_range_example :
  ∃ score,
    ContractScoringEngine.calculate_performance_score
      (H := SampleRuntime.runtime)
      {[ "percent_complete" := VNum 50 ]} None = Ok score ∧
    0 <= score <= 100.
Proof.
  apply (performance_score_range (H := SampleRuntime.runtime) _ _ (Some 50));
    by vm_compute.
Defined.

(** Every deduction at once leaves 25. *)
Lemma compliance_score_range_example :
  ContractScoringEngine.calculate_compliance_score
    {[ "requires_insurance" := VBool true; "requires_bond" := VBool true;
       "is_sole_source" := VBool true; "award_date" := VStr "2024-03-01";
       "current_amount" := VNum 60000 ]} = Ok 25
  ∧ 25 <= 25 <= 100.
Proof.
  split; [by vm_compute|].
  apply (compliance_score_range
           {[ "requires_insurance" := VBool true; "requires_bond" := VBool true;
              "is_sole_source" := VBool true; "award_date" := VStr "2024-03-01";
              "current_amount" := VNum 60000 ]}).
  by vm_compute.
Defined.

Section HealthRange.
Context `{PyRuntime}.
Import ContractScoringEngine.

Lemma round_half_even_floor (x : Q) :
  round_half_even x = Qfloor x ∨
  (round_half_even x = (Qfloor x + 1)%Z ∧ inject_Z (Qfloor x) + (1 # 2) <= x).
Proof.
  unfold round_half_even.
  destruct (Qlt_bool (x - inject_Z (Qfloor x)) (1 # 2)) eqn:E; [by left|].
  apply Qlt_bool_false in E.
  assert (inject_Z (Qfloor x) + (1 # 2) <= x) by lra.
  destruct (Qlt_bool _ _); [by right|].
  destruct (Z.even _); [by left|by right].
Qed.

Lemma round_half_even_ge (x : Q) (n : Z) :
  inject_Z n <= x → (n ≤ round_half_even x)%Z.
Proof.
  intros Hn. apply Qfloor_resp_le in Hn. rewrite Qfloor_Z in Hn.
  destruct (round_half_even_floor x) as [->|[-> _]]; lia.
Qed.

Lemma round_half_even_le (x : Q) (n : Z) :
  x <= inject_Z n → (round_half_even x ≤ n)%Z.
Proof.
  intros Hn. pose proof (Qfloor_le x) as Hf.
  destruct (round_half_even_floor x) as [->|[-> Hhalf]].
  - rewrite Zle_Qle. lra.
  - assert (inject_Z (Qfloor x) < inject_Z n) as Hlt by lra.
    rewrite <- Zlt_Qlt in Hlt. lia.
Qed.

(** Rounding to one decimal stays within bounds that have one decimal. *)
Lemma py_round1_bounds (x : Q) (a b : Z) :
  inject_Z a <= x * 10 <= inject_Z b →
  a # 10 <= py_round x 1 <= b # 10.
Proof.
  intros [Ha Hb]. unfold py_round.
  change (Z.pos (10 ^ Pos.of_nat 1)) with 10%Z.
  change (10 ^ Pos.of_nat 1)%positive with 10%positive.
  change (inject_Z 10) with 10.
  apply round_half_even_ge in Ha. apply round_half_even_le in Hb.
  unfold Qle. simpl. lia.
Qed.

(** X7. With a completion percentage between 0 and 100 (or none), a
    health score that is returned lies between 16 and 100. *)
Theorem overall_health_range (contract : dict)
    (milestones : option (list dict)) (o : option Q) (health : Q) :
  contract !! "percent_complete" = VNum <$> o →
  0 <= default 0 o <= 100 →
  calculate_overall_health contract milestones = Ok health →
  16 <= health <= 100.
Proof.
  intros Ho Hpc. unfold calculate_overall_health.
  destruct (calculate_cost_variance_score contract) as [c|] eqn:Ec; [|done].
  apply cost_variance_score_range in Ec.
  destruct (schedule_variance_score_total contract) as (s & -> & Hs).
  destruct (performance_score_range contract milestones o Ho Hpc)
    as (p & -> & Hp).
  destruct (calculate_compliance_score contract) as [k|] eqn:Ek; [|done].
  apply compliance_score_range in Ek.
  cbn [mbind result_bind]. intros [= <-].
  change (health_weights "cost_variance") with 0.30.
  change (health_weights "schedule_variance") with 0.25.
  change (health_weights "performance") with 0.25.
  change (health_weights "compliance") with 0.20.
  assert (160 # 10 <= py_round (c * 0.30 + s * 0.25 + p * 0.25 + k * 0.20) 1
          <= 1000 # 10) as [Hlo Hhi].
  { apply py_round1_bounds. change (inject_Z 160) with 160.
    change (inject_Z 1000) with 1000. lra. }
  split.
  - apply Qle_trans with (160 # 10); [by vm_compute|done].
  - apply Qle_trans with (1000 # 10); [done|by vm_compute].
Qed.

End HealthRange.

(** An untouched contract with no data at all: 50, 50, 35 and 100 blend
    into 56.2 (56.25 rounds to even). *)
Lemma overall_health_range_example :
  ∃ health,
    ContractScoringEngine.calculate_overall_health
      (H := SampleRuntime.runtime) ∅ None = Ok health ∧
    health == 56.2 ∧ 16 <= health <= 100.
Proof.
  eexists. split; [by vm_compute|]. split; [by vm_compute|].
  apply (overall_health_range (H := SampleRuntime.runtime) ∅ None None);
    by vm_compute.
Defined.

Section RiskMonotone.
Import ContractScoringEngine.

(** X8. The risk tier is monotone in the health score: a better score never
    gives a more severe tier, in the order the alert generator ranks
    severities, and the tier is always one of the four it knows. *)
Theorem determine_risk_level_monotone (s1 s2 : Q) :
  s1 <= s2 →
  (AlertGenerator.severity_order (determine_risk_level s1)
   ≤ AlertGenerator.severity_order (determine_risk_level s2) ≤ 3)%nat.
Proof.
  intros Hle. unfold determine_risk_level.
  change (risk_thresholds "critical") with 30.
  change (risk_thresholds "high") with 50.
  change (risk_thresholds "medium") with 70.
  repeat match goal with
         | |- context [Qlt_bool ?a ?b] =>
             let E := fresh "E" in
             destruct (Qlt_bool a b) eqn:E;
             [apply Qlt_bool_iff in E | apply Qlt_bool_false in E]
         end;
    try (exfalso; lra); vm_compute; lia.
Qed.

End RiskMonotone.

(** 45 is a High risk and 72 a Low one. *)
Lemma determine_risk_level_monotone_example :
  (AlertGenerator.severity_order (ContractScoringEngine.determine_risk_level 45)
   ≤ AlertGenerator.severity_order (ContractScoringEngine.determine_risk_level 72)
   ≤ 3)%nat.
Proof. apply determine_risk_level_monotone. by vm_compute. Defined.

Section ScoreContractStores.
Context `{PyRuntime}.
Import ContractScoringEngine.

(** X9. When [score_contract] returns, the record holds in its six derived
    fields exactly what the five score functions give on the record as it
    was before the call, and the risk level of the stored health score. *)
Theorem score_contract_stores_scores (contract : loc)
    (milestones : option (list dict)) (w : world) (r : loc) :
  (score_contract contract milestones w).1 = Ok r →
  let before := dicts w !!! contract in
  let after := dicts (score_contract contract milestones w).2 !!! contract in
  ∃ cost schedule performance compliance health,
    calculate_cost_variance_score before = Ok cost ∧
    calculate_schedule_variance_score before = Ok schedule ∧
    calculate_performance_score before milestones = Ok performance ∧
    calculate_compliance_score before = Ok compliance ∧
    calculate_overall_health before milestones = Ok health ∧
    after !! "cost_variance_score" = Some (VNum cost) ∧
    after !! "schedule_variance_score" = Some (VNum schedule) ∧
    after !! "performance_score" = Some (VNum performance) ∧
    after !! "compliance_score" = Some (VNum compliance) ∧
    after !! "overall_health_score" = Some (VNum health) ∧
    after !! "risk_level" = Some (VStr (determine_risk_level health)).
Proof.
  intros Hr before after. subst after.
  rewrite score_contract_run in Hr |- *. cbv zeta in Hr |- *.
  change (?a, ?b).1 with a in Hr. change (?a, ?b).2 with b.
  fold before in Hr |- *.
  pose proof (write_fields_stores contract (score_fields before milestones) w)
    as Hst.
  revert Hr Hst. unfold score_fields.
  destruct (calculate_cost_variance_score before) as [v1|]; [|done].
  destruct (calculate_schedule_variance_score before) as [v2|]; [|done].
  destruct (calculate_performance_score before milestones) as [v3|]; [|done].
  destruct (calculate_compliance_score before) as [v4|]; [|done].
  destruct (calculate_overall_health before milestones) as [v5|]; [|done].
  intros _ Hst. exists v1, v2, v3, v4, v5.
  assert (NoDup (derived_fields)) as Hnd by apply derived_fields_NoDup.
  specialize (Hst Hnd). unfold fmap, result_fmap in Hst.
  cbn [written] in Hst. rewrite !Forall_cons in Hst.
  destruct Hst as (S1 & S2 & S3 & S4 & S5 & S6 & _).
  repeat split; try done; by apply stored_lookup.
Qed.

End ScoreContractStores.

(** The bridge contract of 100000 grown to 112000: cost 70, and a Medium
    risk for the health it gets. *)
Lemma score_contract_stores_example :
  let w := World {[ 1%positive := {[ "original_amount" := VNum 100000;
                                     "current_amount" := VNum 112000 ]} ]}
                 ∅ 0 [] in
  let after :=
    dicts (ContractScoringEngine.score_contract (H := SampleRuntime.runtime)
             1%positive None w).2 !!! 1%positive in
  after !! "cost_variance_score" = Some (VNum 70) ∧
  after !! "risk_level" = Some (VStr "Medium").
Proof.
  intros w after.
  destruct (score_contract_stores_scores (H := SampleRuntime.runtime)
              1%positive None w 1%positive)
    as (c & s & p & k & h & Hc & _ & _ & _ & Hh & Sc & _ & _ & _ & _ & Sr);
    [by vm_compute|].
  subst after. rewrite Sc, Sr. clear Sc Sr.
  vm_compute in Hc. injection Hc as <-.
  split; [done|]. f_equal. f_equal.
  revert Hh. clear. intros Hh. vm_compute in Hh. injection Hh as <-.
  by vm_compute.
Defined.

(** ** Vendor scores and metrics *)

Section VendorBounds.
Import VendorScoringEngine.

Lemma sound_weight_health (c : dict) :
  sound_for_vendor c →
  numeric_or_absent c "current_amount" ∧
  numeric_or_absent c "overall_health_score" ∧
  0 < contract_weight c ∧ 0 <= contract_health c <= 100.
Proof.
  intros (a & h & Ha & Hh & Hpos & Hr).
  split; [by exists a|]. split; [by exists h|].
  unfold contract_weight, contract_health. rewrite Ha, Hh.
  split.
  - destruct a as [a|]; simpl in *; [|lra].
    destruct (Qeq_bool a 0) eqn:E; [lra|].
    apply Qeq_bool_neq in E. destruct (Qle_lt_or_eq _ _ Hpos); [done|].
    exfalso. apply E. by symmetry.
  - destruct h as [h|]; simpl in *; lra.
Qed.

Lemma sound_sums (contracts : list dict) :
  Forall sound_for_vendor contracts →
  0 <= total_weight contracts ∧
  (contracts ≠ [] → 0 < total_weight contracts) ∧
  0 <= weighted_health contracts ∧
  weighted_health contracts <= 100 * total_weight contracts.
Proof.
  unfold total_weight, weighted_health, Qsum.
  induction 1 as [|c cs Hc _ IH]; [simpl; repeat split; try lra; done|].
  rewrite !fmap_cons. cbn [foldr].
  destruct (sound_weight_health c Hc) as (_ & _ & Hw & Hh).
  destruct IH as (IW & _ & IS & IB).
  assert (0 <= contract_health c * contract_weight c)
    by (apply Qmult_le_0_compat; lra).
  assert (contract_health c * contract_weight c <= 100 * contract_weight c)
    by (apply Qmult_le_compat_r; lra).
  repeat split; try lra.
Qed.

(** X10. For contracts whose amounts are not negative and whose health
    scores are within 0 to 100, the vendor score is returned and lies within
    0 to 100. *)
Theorem vendor_score_range (vendor : dict) (contracts : list dict) :
  Forall sound_for_vendor contracts →
  ∃ score, calculate_vendor_score vendor contracts = Ok score ∧
           0 <= score <= 100.
Proof.
  intros Hcs.
  assert (Forall (λ c, numeric_or_absent c "current_amount" ∧
                       numeric_or_absent c "overall_health_score") contracts)
    as Hnum.
  { eapply Forall_impl; [exact Hcs|]. intros c Hc.
    by destruct (sound_weight_health c Hc) as (? & ? & _). }
  destruct (vendor_score_exact_mean vendor contracts Hnum)
    as (Hempty & Hmean & _).
  destruct contracts as [|c cs]; [exists 50; split; [by apply Hempty|lra]|].
  destruct (sound_sums (c :: cs) Hcs) as (_ & Hpos & HS & HB).
  specialize (Hpos ltac:(done)). rewrite (Hmean Hpos).
  eexists. split; [done|].
  set (W := total_weight (c :: cs)) in *.
  set (S := weighted_health (c :: cs)) in *.
  assert (0 <= S / W <= 100) as Hq.
  { split.
    - apply Qle_shift_div_l; [done|]. lra.
    - apply Qle_shift_div_r; [done|]. lra. }
  assert (0 # 10 <= py_round (S / W) 1 <= 1000 # 10) as [Hlo Hhi].
  { apply py_round1_bounds. change (inject_Z 0) with 0.
    change (inject_Z 1000) with 1000. lra. }
  split.
  - apply Qle_trans with (0 # 10); [by vm_compute|done].
  - apply Qle_trans with (1000 # 10); [done|by vm_compute].
Qed.

End VendorBounds.

(** A vendor with a small healthy contract and a large ailing one. *)
Lemma vendor_score_range_example :
  ∃ score,
    VendorScoringEngine.calculate_vendor_score ∅
      [ {[ "current_amount" := VNum 100; "overall_health_score" := VNum 80 ]};
        {[ "current_amount" := VNum 900; "overall_health_score" := VNum 40 ]} ]
    = Ok score ∧ 0 <= score <= 100.
Proof.
  apply vendor_score_range. repeat constructor.
  - exists (Some 100), (Some 80). by vm_compute.
  - exists (Some 900), (Some 40). by vm_compute.
Defined.

Section VendorMetrics.
Import VendorScoringEngine.

Lemma each_length {A B} (f : A → result B) xs ys :
  each f xs = Ok ys → length ys = length xs.
Proof.
  revert ys. induction xs as [|x xs IH]; simpl; intros ys.
  - by intros [= <-].
  - destruct (f x); [|done]. cbn [mbind result_bind].
    destruct (each f xs) as [zs|]; [|done]. cbn [mbind result_bind].
    intros [= <-]. simpl. f_equal. by apply IH.
Qed.

Lemma count_where_le {A} (test : A → result bool) xs k :
  count_where test xs = Ok k → (k ≤ length xs)%nat.
Proof.
  unfold count_where. destruct (each test xs) as [flags|] eqn:E; [|done].
  cbn [mbind result_bind]. intros [= <-].
  rewrite <- (each_length _ _ _ E). apply length_filter.
Qed.

Lemma exclusive_filters {A} (P Q : A → Prop)
    `{∀ x, Decision (P x)} `{∀ x, Decision (Q x)} (l : list A) :
  (∀ x, P x → Q x → False) →
  (length (filter P l) + length (filter Q l) ≤ length l)%nat.
Proof.
  intros Hex. induction l as [|x l IH]; [done|].
  rewrite !filter_cons. specialize (Hex x).
  destruct (decide (P x)), (decide (Q x)); simpl; try lia. tauto.
Qed.

(** A share of [k] out of [n], as a percentage rounded to one decimal. *)
Lemma rate_range (k n : nat) (share : Q) :
  (k ≤ n)%nat →
  truediv (inject_Z (Z.of_nat k)) (inject_Z (Z.of_nat n)) = Ok share →
  0 <= py_round (share * 100) 1 <= 100.
Proof.
  intros Hk. unfold truediv.
  destruct (Qeq_bool _ 0) eqn:E; [done|]. intros [= <-].
  apply Qeq_bool_neq in E.
  assert (0 < inject_Z (Z.of_nat n)) as Hn.
  { destruct n; [by destruct E|]. rewrite <- (Zlt_Qlt 0). lia. }
  assert (0 <= inject_Z (Z.of_nat k) <= inject_Z (Z.of_nat n)) as [Hk0 Hkn].
  { rewrite <- (Zle_Qle 0), <- Zle_Qle. lia. }
  set (x := inject_Z (Z.of_nat k)) in *. set (y := inject_Z (Z.of_nat n)) in *.
  assert (0 <= x / y <= 1) as Hq.
  { split.
    - apply Qle_shift_div_l; [done|]. lra.
    - apply Qle_shift_div_r; [done|]. lra. }
  assert (0 # 10 <= py_round (x / y * 100) 1 <= 1000 # 10) as [Hlo Hhi].
  { apply py_round1_bounds. change (inject_Z 0) with 0.
    change (inject_Z 1000) with 1000. lra. }
  split.
  - apply Qle_trans with (0 # 10); [by vm_compute|done].
  - apply Qle_trans with (1000 # 10); [done|by vm_compute].
Qed.

(** X12. The bundle [get_vendor_metrics] returns counts every contract
    once; the active and completed contracts together are no more than the
    total, and both rates lie between 0 and 100. *)
Theorem vendor_metrics_consistent (vendor : dict) (contracts : list dict)
    (m : vendor_metrics) :
  get_vendor_metrics vendor contracts = Ok m →
  total_contracts m = length contracts ∧
  (active_contracts m + completed_contracts m ≤ total_contracts m)%nat ∧
  0 <= on_time_rate m <= 100 ∧
  0 <= budget_adherence_rate m <= 100.
Proof.
  unfold get_vendor_metrics. destruct contracts as [|c cs].
  { intros [= <-]. simpl. repeat split; try lra; lia. }
  set (contracts := c :: cs).
  destruct (each (λ c, as_num (py_or _ _)) contracts) as [amounts|]; [|done].
  cbn [mbind result_bind].
  destruct (each (λ c, as_num (get _ _ _)) contracts) as [healths|]; [|done].
  cbn [mbind result_bind].
  destruct (truediv (py_sum healths) _) as [avg|]; [|done].
  cbn [mbind result_bind].
  destruct (count_where (at_least_70 "schedule_variance_score") contracts)
    as [on_time|] eqn:E1; [|done].
  cbn [mbind result_bind].
  destruct (count_where (at_least_70 "cost_variance_score") contracts)
    as [on_budget|] eqn:E2; [|done].
  cbn [mbind result_bind].
  destruct (truediv (inject_Z (Z.of_nat on_time)) _) as [r1|] eqn:R1; [|done].
  cbn [mbind result_bind].
  destruct (truediv (inject_Z (Z.of_nat on_budget)) _) as [r2|] eqn:R2;
    [|done].
  cbn [mbind result_bind]. intros [= <-]. cbn [total_contracts
    active_contracts completed_contracts on_time_rate budget_adherence_rate].
  split; [done|]. split.
  - change (S (length cs)) with (length contracts).
    apply exclusive_filters. intros x Ha Hc.
    destruct (get_ x "status") as [ | | |s]; try done. simpl in Ha, Hc.
    apply String.eqb_eq in Ha, Hc. congruence.
  - split.
    + eapply rate_range; [|exact R1]. by apply count_where_le in E1.
    + eapply rate_range; [|exact R2]. by apply count_where_le in E2.
Qed.

End VendorMetrics.

(** One active contract on time out of two. *)
Lemma vendor_metrics_example :
  ∃ m,
    VendorScoringEngine.get_vendor_metrics ∅
      [ {[ "status" := VStr "Active"; "schedule_variance_score" := VNum 90 ]};
        {[ "status" := VStr "Completed"; "schedule_variance_score" := VNum 65 ]} ]
    = Ok m ∧
    VendorScoringEngine.total_contracts m = 2%nat ∧
    (VendorScoringEngine.active_contracts m
     + VendorScoringEngine.completed_contracts m
     ≤ VendorScoringEngine.total_contracts m)%nat ∧
    0 <= VendorScoringEngine.on_time_rate m <= 100 ∧
    0 <= VendorScoringEngine.budget_adherence_rate m <= 100.
Proof.
  eexists. split; [by vm_compute|].
  apply (vendor_metrics_consistent ∅
           [ {[ "status" := VStr "Active";
                "schedule_variance_score" := VNum 90 ]};
             {[ "status" := VStr "Completed";
                "schedule_variance_score" := VNum 65 ]} ]).
  by vm_compute.
Defined.

Section VendorMean.
Import VendorScoringEngine.

Lemma each_map {A B} (f : A → result B) (g : A → B) xs :
  Forall (λ x, f x = Ok (g x)) xs → each f xs = Ok (g <$> xs).
Proof.
  induction 1 as [|x xs Hx _ IH]; [done|].
  cbn [each]. rewrite Hx, IH. reflexivity.
Qed.

Lemma foldl_Qplus (acc : Q) xs : foldl Qplus acc xs == acc + Qsum xs.
Proof.
  revert acc. induction xs as [|x xs IH]; intros acc; unfold Qsum; simpl.
  - by rewrite Qplus_0_r.
  - rewrite IH. unfold Qsum. by rewrite Qplus_assoc.
Qed.

Lemma py_sum_Qsum xs : py_sum xs == Qsum xs.
Proof. unfold py_sum. rewrite foldl_Qplus. apply Qplus_0_l. Qed.

End VendorMean.

(** ** Alert rules *)

Section CostOverrun.
Import AlertGenerator.

(** What [_cost_overrun] computes: the variance percentage within
    [[min_pct, max_pct)], or [False] without a positive baseline. *)
Lemma cost_overrun_cases (contract : dict) (min_pct max_pct : Q) (b : bool) :
  _cost_overrun contract min_pct max_pct = Ok b →
  b = false ∨
  ∃ v, ContractScoringEngine.calculate_cost_variance_score contract =
       (if Qle_bool v 0 then Ok 100
        else if Qle_bool v 5 then Ok 95
        else if Qle_bool v 10 then Ok 85
        else if Qle_bool v 15 then Ok 70
        else if Qle_bool v 20 then Ok 55
        else if Qle_bool v 30 then Ok 40
        else Ok (py_max 20 (40 - (v - 30)))) ∧
       min_pct <= v < max_pct ∧
       ∀ lo hi, _cost_overrun contract lo hi
                = Ok (Qle_bool lo v && Qlt_bool v hi).
Proof.
  unfold _cost_overrun, ContractScoringEngine.calculate_cost_variance_score.
  destruct (as_num (py_or (get contract "original_amount" _) _)) as [o|];
    [|done].
  cbn [mbind result_bind]. destruct (Qle_bool o 0); [intros [= <-]; by left|].
  destruct (as_num (py_or (get contract "current_amount" _) _)) as [c|];
    [|done].
  cbn [mbind result_bind]. destruct (truediv (c - o) o) as [ratio|]; [|done].
  cbn [mbind result_bind]. intros [= <-].
  destruct (Qle_bool min_pct (ratio * 100) && Qlt_bool (ratio * 100) max_pct)
    eqn:E; [right|by left].
  apply andb_true_iff in E as [E1 E2].
  apply Qle_bool_iff in E1. apply Qlt_bool_iff in E2.
  exists (ratio * 100). by repeat split.
Qed.

(** X13. The two cost-overrun rules never fire together: when the warning
    predicate (10 to 20 %) holds, the critical one (20 to 100 %) returns
    false, and conversely. *)
Theorem cost_overrun_rules_exclusive (contract : dict) :
  (_cost_overrun contract 10 20 = Ok true →
   _cost_overrun contract 20 100 = Ok false) ∧
  (_cost_overrun contract 20 100 = Ok true →
   _cost_overrun contract 10 20 = Ok false).
Proof.
  split; intros Hfire;
    destruct (cost_overrun_cases _ _ _ _ Hfire) as [|(v & _ & [Hlo Hhi] & Hall)];
    try done; rewrite Hall.
  - replace (Qle_bool 20 v) with false; [done|].
    symmetry. by apply Qle_bool_false.
  - replace (Qlt_bool v 20) with false; [by rewrite andb_false_r|].
    symmetry. by apply Qlt_bool_false.
Qed.

(** X14. An overrun of 100 % or more raises no cost alert: with a positive
    original amount and a current amount of at least twice that, both
    cost-overrun predicates return false. *)
Theorem cost_overrun_beyond_100 (contract : dict) (original current : Q) :
  contract !! "original_amount" = Some (VNum original) →
  contract !! "current_amount" = Some (VNum current) →
  0 < original → 2 * original <= current →
  _cost_overrun contract 10 20 = Ok false ∧
  _cost_overrun contract 20 100 = Ok false.
Proof.
  intros Ho Hc Hpos Hdouble.
  destruct (read_amount _ _ (Some original) Ho) as (qo & Hqo & Eo).
  destruct (read_amount _ _ (Some current) Hc) as (qc & Hqc & Ec).
  simpl in Eo, Ec. unfold _cost_overrun. rewrite Hqo, Hqc.
  cbn [mbind result_bind]. rewrite <- Eo in Hpos. rewrite <- Eo, <- Ec in Hdouble.
  replace (Qle_bool qo 0) with false by (symmetry; by apply Qle_bool_false).
  rewrite truediv_ok.
  2:{ intros E0. rewrite E0 in Hpos. by apply Qlt_irrefl in Hpos. }
  cbn [mbind result_bind].
  assert (100 <= (qc - qo) / qo * 100) as Hv.
  { assert (1 <= (qc - qo) / qo); [|lra].
    apply Qle_shift_div_l; [done|]. lra. }
  split; f_equal; apply andb_false_iff; right; apply Qlt_bool_false; lra.
Qed.

(** X15. A cost alert bounds the cost score: when the critical predicate
    holds the cost score is at most 55, and when the warning predicate
    holds it is between 55 and 85. *)
Theorem cost_alert_bounds_score (contract : dict) :
  (_cost_overrun contract 20 100 = Ok true →
   ∃ score, ContractScoringEngine.calculate_cost_variance_score contract
            = Ok score ∧ score <= 55) ∧
  (_cost_overrun contract 10 20 = Ok true →
   ∃ score, ContractScoringEngine.calculate_cost_variance_score contract
            = Ok score ∧ 55 <= score <= 85).
Proof.
  split; intros Hfire;
    destruct (cost_overrun_cases _ _ _ _ Hfire) as [|(v & -> & [Hlo Hhi] & _)];
    try done.
  - pose proof (py_max_Qmax 20 (40 - (v - 30))) as M.
    assert (30 < v → Qmax 20 (40 - (v - 30)) <= 40) as Hcap
      by (intros; apply Q.max_lub; lra).
    repeat match goal with
           | |- context [Qle_bool ?a ?b] =>
               let E := fresh "E" in
               destruct (Qle_bool a b) eqn:E;
               [apply Qle_bool_iff in E | apply Qle_bool_false in E]
           end;
      eexists; (split; [done|]); try lra; rewrite M; specialize (Hcap ltac:(lra)); lra.
  - repeat match goal with
           | |- context [Qle_bool ?a ?b] =>
               let E := fresh "E" in
               destruct (Qle_bool a b) eqn:E;
               [apply Qle_bool_iff in E | apply Qle_bool_false in E]
           end;
      try (exfalso; lra); eexists; (split; [done|]); lra.
Qed.

End CostOverrun.

(** The example of the specification: 100000 grown to 125000 is a critical
    overrun and no warning. *)
Lemma cost_overrun_exclusive_example :
  AlertGenerator._cost_overrun
    {[ "original_amount" := VNum 100000; "current_amount" := VNum 125000 ]}
    20 100 = Ok true ∧
  AlertGenerator._cost_overrun
    {[ "original_amount" := VNum 100000; "current_amount" := VNum 125000 ]}
    10 20 = Ok false.
Proof.
  split; [by vm_compute|].
  apply (proj2 (cost_overrun_rules_exclusive _)). by vm_compute.
Defined.

(** 100000 grown to 250000: no cost alert. *)
Lemma cost_overrun_beyond_100_example :
  AlertGenerator._cost_overrun
    {[ "original_amount" := VNum 100000; "current_amount" := VNum 250000 ]}
    10 20 = Ok false ∧
  AlertGenerator._cost_overrun
    {[ "original_amount" := VNum 100000; "current_amount" := VNum 250000 ]}
    20 100 = Ok false.
Proof.
  apply (cost_overrun_beyond_100 _ 100000 250000); by vm_compute.
Defined.

(** The critical overrun of 25 % scores 40. *)
Lemma cost_alert_bounds_score_example :
  ∃ score,
    ContractScoringEngine.calculate_cost_variance_score
      {[ "original_amount" := VNum 100000; "current_amount" := VNum 125000 ]}
    = Ok score ∧ score <= 55.
Proof.
  apply (proj1 (cost_alert_bounds_score _)). by vm_compute.
Defined.

Section AlertShape.
Context `{PyRuntime}.
Import AlertGenerator.

Lemma judge_fired c r w a w' :
  judge c r w = (Fired a, w') → alert_from c r a.
Proof.
  unfold judge. destruct (condition r c w) as [[fired|e] w1]; [|done].
  destruct (truthy fired); [|done].
  unfold make_alert, mbind, Py_bind, now, mret, Py_ret.
  intros [= <- _]. by repeat split.
Qed.

Lemma judge_all_fired pairs w :
  Forall (λ a, ∃ c r, (c, r) ∈ pairs ∧ alert_from c r a)
         (fired_alerts (judge_all pairs w).1).
Proof.
  revert w. induction pairs as [|[c r] pairs IH]; intros w; [constructor|].
  cbn [judge_all]. destruct (judge c r w) as [v w1] eqn:Ej.
  specialize (IH w1). destruct (judge_all pairs w1) as [js w2].
  cbn [fst] in *.
  assert (Forall (λ a, ∃ c0 r0, (c0, r0) ∈ (c, r) :: pairs ∧ alert_from c0 r0 a)
            (fired_alerts js)) as IH'.
  { eapply Forall_impl; [exact IH|]. intros a (c0 & r0 & Hin & Ha).
    exists c0, r0. split; [by right|done]. }
  unfold fired_alerts in *. cbn [omap list_omap verdict_of].
  destruct v as [a| |e]; try done.
  constructor; [|done]. exists c, r. split; [left|].
  by eapply judge_fired.
Qed.

Lemma fired_alerts_length js : (length (fired_alerts js) ≤ length js)%nat.
Proof.
  unfold fired_alerts. induction js as [|j js IH]; [done|].
  cbn [omap list_omap]. destruct (verdict_of j); simpl; lia.
Qed.

Lemma pairs_of_length contracts (rules : list rule) :
  length (pairs_of contracts rules) = (length contracts * length rules)%nat.
Proof.
  unfold pairs_of. induction contracts as [|c cs IH]; [done|].
  cbn [mbind list_bind]. rewrite length_app, length_fmap.
  change (list_bind _ _ _ cs) with (cs ≫= λ c, (λ r, (c, r)) <$> rules).
  rewrite IH. simpl. lia.
Qed.

Lemma elem_of_pairs_of contracts (rules : list rule) c r :
  (c, r) ∈ pairs_of contracts rules → c ∈ contracts ∧ r ∈ rules.
Proof.
  unfold pairs_of. intros Hin. apply list_elem_of_bind in Hin as (c0 & Hin & Hc).
  apply list_elem_of_fmap in Hin as (r0 & [= -> ->] & Hr). done.
Qed.

(** X16. [generate_alerts] returns at most nine alerts per contract; each
    alert is made from one contract of the list and one rule of the table
    (identifier [<contract_id>_<rule id>], the rule's name and severity),
    and its severity has a rank of at most 3. *)
Theorem generate_alerts_well_formed (contracts : list dict) (w : world) :
  ∃ alerts w',
    generate_alerts contracts w = (Ok alerts, w') ∧
    (length alerts ≤ 9 * length contracts)%nat ∧
    Forall (λ a, (rank a ≤ 3)%nat ∧
                 ∃ c r, c ∈ contracts ∧ r ∈ alert_rules ∧ alert_from c r a)
           alerts.
Proof.
  unfold generate_alerts. rewrite generate_alerts_with_judged.
  eexists _, _. split; [reflexivity|].
  set (js := (judge_all (pairs_of contracts alert_rules) w).1).
  pose proof (sort_by_perm by_severity (fired_alerts js)) as Hperm.
  split.
  - rewrite (Permutation_length Hperm).
    etrans; [apply fired_alerts_length|].
    pose proof (f_equal length (judge_all_pairs (pairs_of contracts alert_rules) w))
      as Hlen.
    rewrite length_fmap, pairs_of_length in Hlen. fold js in Hlen.
    rewrite Hlen. simpl. lia.
  - rewrite Hperm.
    eapply Forall_impl; [apply judge_all_fired|].
    intros a (c & r & Hin & Ha).
    apply elem_of_pairs_of in Hin as [Hc Hr].
    split; [|by exists c, r].
    destruct Ha as (_ & _ & _ & _ & _ & _ & Hs). unfold rank. rewrite Hs.
    clear -Hr. revert r Hr. apply Forall_forall.
    repeat constructor.
Qed.

End AlertShape.

Section QuietLog.
Context `{PyRuntime}.
Import AlertGenerator.

Lemma read_number_or (d : dict) (k : string) (dflt : Q) :
  (∀ s, d !! k ≠ Some (VStr s)) →
  ∃ q, as_num (py_or (get d k (VNum dflt)) (VNum dflt)) = Ok q.
Proof.
  intros Hk. unfold get, py_or.
  destruct (d !! k) as [[ |[]|q|s]|] eqn:E; simpl;
    try (by destruct (Hk s));
    repeat match goal with
           | |- context [Qeq_bool ?a ?b] => destruct (Qeq_bool a b)
           end; simpl; eauto.
Qed.

Lemma cost_overrun_returns c lo hi :
  numbers_for_alerts c → ∃ b, _cost_overrun c lo hi = Ok b.
Proof.
  intros Hc. unfold _cost_overrun.
  destruct (read_number_or c "original_amount" 0) as [o ->];
    [apply Hc; rewrite !elem_of_cons; auto 10|].
  cbn [mbind result_bind]. destruct (Qle_bool o 0) eqn:Eo; [eauto|].
  destruct (read_number_or c "current_amount" 0) as [q ->];
    [apply Hc; rewrite !elem_of_cons; auto 10|].
  cbn [mbind result_bind]. rewrite truediv_pos by done.
  cbn [mbind result_bind]. eauto.
Qed.

Lemma schedule_delay_returns c lo hi : ∃ b, _schedule_delay c lo hi = Ok b.
Proof.
  unfold _schedule_delay. destruct (_ || _); [eauto|].
  destruct (schedule_delay_body _ _ _ _ _); eauto.
Qed.

Lemma expiring_soon_returns c days w :
  ∃ b w', _expiring_soon c days w = (Ok b, w').
Proof.
  unfold _expiring_soon. destruct (negb _); [by eexists _, _|].
  unfold try_except, mbind, Py_bind, lift.
  destruct (ContractScoringEngine.parse_iso 10 _); by eexists _, _.
Qed.

Lemma no_recent_activity_returns c days w :
  ∃ b w', _no_recent_activity c days w = (Ok b, w').
Proof.
  unfold _no_recent_activity. destruct (negb _); [by eexists _, _|].
  unfold try_except, mbind, Py_bind, lift.
  destruct (ContractScoringEngine.parse_iso 19 _); by eexists _, _.
Qed.

(** On a record whose numeric fields hold no text, every predicate of the
    table returns. *)
Lemma alert_rules_return (c : dict) :
  numbers_for_alerts c →
  Forall (λ r, ∀ w, ∃ v w', condition r c w = (Ok v, w')) alert_rules.
Proof.
  intros Hc. unfold alert_rules.
  repeat apply Forall_cons_2; try apply Forall_nil_2; intros w;
    cbn [condition].
  - destruct (cost_overrun_returns c 10 20 Hc) as [b ->]. by eexists _, _.
  - destruct (cost_overrun_returns c 20 100 Hc) as [b ->]. by eexists _, _.
  - destruct (schedule_delay_returns c 10 20) as [b ->]. by eexists _, _.
  - destruct (schedule_delay_returns c 20 100) as [b ->]. by eexists _, _.
  - unfold mbind, Py_bind.
    destruct (expiring_soon_returns c 30 w) as (b & w' & ->). by eexists _, _.
  - by eexists _, _.
  - destruct (read_number_or c "overall_health_score" 100) as [q ->];
      [apply Hc; rewrite !elem_of_cons; auto 10|]. by eexists _, _.
  - destruct (read_number_or c "change_order_count" 0) as [q ->];
      [apply Hc; rewrite !elem_of_cons; auto 10|]. by eexists _, _.
  - unfold mbind, Py_bind.
    destruct (no_recent_activity_returns c 60 w) as (b & w' & ->).
    by eexists _, _.
Qed.

Lemma judge_all_no_failures pairs w :
  Forall (λ p, ∀ w, ∃ v w', condition p.2 p.1 w = (Ok v, w')) pairs →
  failures (judge_all pairs w).1 = [].
Proof.
  intros Hp. revert w. induction Hp as [|[c r] pairs Hr _ IH]; intros w;
    [done|].
  cbn [judge_all]. destruct (judge c r w) as [v w1] eqn:Ej.
  specialize (IH w1). destruct (judge_all pairs w1) as [js w2].
  cbn [fst] in *. rewrite failures_cons, IH, app_nil_r.
  unfold failures. cbn [omap list_omap verdict_of].
  destruct v as [a| |e]; try done.
  exfalso. revert Ej. unfold judge. cbn [fst snd] in Hr.
  destruct (Hr w) as (v & w' & ->). destruct (truthy v); [|done].
  unfold make_alert, mbind, Py_bind, now. done.
Qed.

(** X17. On records whose amounts, health score and change-order count hold
    no text, no predicate fails: [generate_alerts] writes nothing to the
    error log. *)
Theorem generate_alerts_quiet_log (contracts : list dict) (w : world) :
  Forall numbers_for_alerts contracts →
  log (generate_alerts contracts w).2 = log w.
Proof.
  intros Hcs.
  destruct (generate_alerts_isolates_faults contracts w)
    as (alerts & w' & -> & _ & _ & _ & Hlog).
  cbn [snd]. rewrite Hlog, judge_all_no_failures; [by rewrite app_nil_r|].
  clear -Hcs. unfold pairs_of.
  induction Hcs as [|c cs Hc _ IH]; [constructor|].
  cbn [mbind list_bind]. apply Forall_app. split; [|exact IH].
  apply Forall_fmap. eapply Forall_impl; [apply (alert_rules_return c Hc)|].
  done.
Qed.

End QuietLog.

(** A contract without any data and one with a 25 % overrun: nothing is
    logged. *)
Lemma generate_alerts_quiet_log_example :
  log (AlertGenerator.generate_alerts (H := SampleRuntime.runtime)
         [ ∅; {[ "original_amount" := VNum 100000;
                 "current_amount" := VNum 125000 ]} ]
         SampleRuntime.start).2 = [].
Proof.
  rewrite (generate_alerts_quiet_log (H := SampleRuntime.runtime));
    [reflexivity|].
  repeat constructor; intros k Hk s; rewrite !elem_of_cons in Hk;
    (destruct Hk as [Hk|[Hk|[Hk|[Hk|Hk]]]];
     [| | | |by apply elem_of_nil in Hk]); rewrite Hk; by vm_compute.
Defined.

Section InsuranceAlert.
Context `{PyRuntime}.
Import AlertGenerator.

(** X18. The insurance rule and the compliance score agree: the
    [insurance_expired] predicate holds exactly when insurance is required
    and not verified, and then a compliance score that is returned is at
    most 80. *)
Theorem insurance_alert_lowers_compliance (c : dict) (w : world) :
  ∃ r, alert_rules !! 5%nat = Some r ∧ rule_id r = "insurance_expired" ∧
       ∃ fired, condition r c w = (Ok fired, w) ∧
                truthy fired = truthy (get_ c "requires_insurance")
                               && negb (truthy (get_ c "insurance_verified")) ∧
                (truthy fired = true →
                 ∀ score,
                   ContractScoringEngine.calculate_compliance_score c = Ok score →
                   score <= 80).
Proof.
  eexists. split; [reflexivity|]. split; [reflexivity|].
  eexists. split; [reflexivity|].
  assert (truthy (if truthy (get_ c "requires_insurance")
                  then VBool (negb (truthy (get_ c "insurance_verified")))
                  else get_ c "requires_insurance")
          = truthy (get_ c "requires_insurance")
            && negb (truthy (get_ c "insurance_verified"))) as Hfired.
  { by destruct (truthy (get_ c "requires_insurance")) eqn:E. }
  split; [exact Hfired|]. rewrite Hfired. clear Hfired. intros Hdue score.
  unfold ContractScoringEngine.calculate_compliance_score. rewrite Hdue.
  destruct (truthy (get_ c "requires_bond") && _);
    destruct (truthy (get_ c "is_sole_source") && _);
    (destruct (truthy (get_ c "award_date") && _);
     [destruct (as_num _) as [a|]; [|done]; cbn [mbind result_bind];
      destruct (Qlt_bool 50000 a)|]);
    cbn [mbind result_bind]; intros [= <-]; by vm_compute.
Qed.

End InsuranceAlert.

(** Insurance required and not verified: the rule fires and the compliance
    score is 80. *)
Lemma insurance_alert_example :
  ContractScoringEngine.calculate_compliance_score
    {[ "requires_insurance" := VNum 1; "insurance_verified" := VNum 0 ]}
  = Ok 80 ∧ 80 <= 80.
Proof.
  split; [by vm_compute|].
  destruct (insurance_alert_lowers_compliance (H := SampleRuntime.runtime)
              {[ "requires_insurance" := VNum 1; "insurance_verified" := VNum 0 ]}
              SampleRuntime.start)
    as (r & _ & _ & fired & Hcond & Hfired & Hscore).
  apply Hscore; [rewrite Hfired|]; by vm_compute.
Defined.

(** ** Benchmark scores *)

Section KPIScores.
Context `{PyRuntime}.
Import Benchmarking.

Lemma gap_percent_sign gap benchmark :
  0 < benchmark → 0 <= gap →
  ∃ p, gap_percent_of gap benchmark = Ok p ∧ 0 <= p.
Proof.
  intros Hb Hg. unfold gap_percent_of.
  replace (Qlt_bool 0 benchmark) with true by (symmetry; by apply Qlt_bool_iff).
  rewrite truediv_ok.
  2:{ intros E0. rewrite E0 in Hb. by apply Qlt_irrefl in Hb. }
  eexists. split; [done|].
  assert (0 <= gap / benchmark); [|lra].
  apply Qle_shift_div_l; [done|]. lra.
Qed.

Lemma py_min_capped (x : Q) : 100 <= x → py_min 100 x = 100.
Proof.
  intros Hx. unfold py_min.
  replace (Qlt_bool x 100) with false; [done|].
  symmetry. by apply Qlt_bool_false.
Qed.

(** The score of a known KPI with a positive benchmark is the rounding of
    [raw_kpi_score], and its rating the band of the unrounded number. *)
Lemma score_kpi_raw self kpi_id kpi actual :
  lookup_key kpi_id (benchmarks self) = Some kpi →
  0 < benchmark_value kpi →
  ∃ s, score_kpi self kpi_id actual = Ok s ∧
       score s = py_round (raw_kpi_score kpi actual) 1 ∧
       rating s = rating_of (raw_kpi_score kpi actual) ∧
       Benchmarking.kpi_id s = kpi_id ∧ name s = kpi_name kpi ∧
       category s = kpi_category kpi.
Proof.
  intros Hk Hpos. unfold score_kpi, raw_kpi_score. rewrite Hk.
  assert (¬ benchmark_value kpi == 0) as Hnz.
  { intros E0. rewrite E0 in Hpos. by apply Qlt_irrefl in Hpos. }
  destruct (gap_percent_of_returns (actual - benchmark_value kpi)
              (benchmark_value kpi)) as [p1 Hp1].
  destruct (gap_percent_of_returns (benchmark_value kpi - actual)
              (benchmark_value kpi)) as [p2 Hp2].
  destruct (String.eqb (kpi_direction kpi) "higher").
  - rewrite Hp1. cbn [mbind result_bind].
    destruct (Qle_bool (benchmark_value kpi) actual) eqn:E.
    + apply Qle_bool_iff in E.
      destruct (gap_percent_sign (actual - benchmark_value kpi)
                  (benchmark_value kpi) Hpos) as (p & Hp & Hp0); [lra|].
      rewrite Hp in Hp1. injection Hp1 as <-.
      rewrite py_min_capped by lra. cbn [mbind result_bind].
      destruct (recommendation_returns self kpi_id kpi actual
                  (benchmark_value kpi) (kpi_direction kpi)
                  (rating_of 100) Hk) as [t ->].
      cbn [mbind result_bind]. eexists. by repeat split.
    + rewrite (truediv_ok _ _ Hnz). cbn [mbind result_bind].
      destruct (recommendation_returns self kpi_id kpi actual
                  (benchmark_value kpi) (kpi_direction kpi)
                  (rating_of (py_max 0 (actual / benchmark_value kpi * 100)))
                  Hk) as [t ->].
      cbn [mbind result_bind]. eexists. by repeat split.
  - rewrite Hp2. cbn [mbind result_bind].
    destruct (Qle_bool actual (benchmark_value kpi)) eqn:E.
    + apply Qle_bool_iff in E.
      destruct (gap_percent_sign (benchmark_value kpi - actual)
                  (benchmark_value kpi) Hpos) as (p & Hp & Hp0); [lra|].
      rewrite Hp in Hp2. injection Hp2 as <-.
      rewrite py_min_capped by lra. cbn [mbind result_bind].
      destruct (recommendation_returns self kpi_id kpi actual
                  (benchmark_value kpi) (kpi_direction kpi)
                  (rating_of 100) Hk) as [t ->].
      cbn [mbind result_bind]. eexists. by repeat split.
    + destruct (Qlt_bool 0 actual) eqn:Ea.
      * apply Qlt_bool_iff in Ea. rewrite truediv_ok.
        2:{ intros E0. rewrite E0 in Ea. by apply Qlt_irrefl in Ea. }
        cbn [mbind result_bind].
        destruct (recommendation_returns self kpi_id kpi actual
                    (benchmark_value kpi) (kpi_direction kpi)
                    (rating_of
                       (py_max 0 (benchmark_value kpi / actual * 100)))
                    Hk) as [t ->].
        cbn [mbind result_bind]. eexists. by repeat split.
      * cbn [mbind result_bind].
        destruct (recommendation_returns self kpi_id kpi actual
                    (benchmark_value kpi) (kpi_direction kpi)
                    (rating_of 0) Hk) as [t ->].
        cbn [mbind result_bind]. eexists. by repeat split.
Qed.

Lemma raw_kpi_score_range kpi actual :
  0 < benchmark_value kpi → 0 <= raw_kpi_score kpi actual <= 100.
Proof.
  intros Hpos. unfold raw_kpi_score.
  destruct (String.eqb _ _).
  - destruct (Qle_bool _ _) eqn:E; [lra|]. apply Qle_bool_false in E.
    apply py_max_bounds; [lra|].
    assert (actual / benchmark_value kpi <= 1); [|lra].
    apply Qle_shift_div_r; [done|]. lra.
  - destruct (Qle_bool _ _) eqn:E; [lra|]. apply Qle_bool_false in E.
    destruct (Qlt_bool 0 actual) eqn:Ea; [|lra]. apply Qlt_bool_iff in Ea.
    apply py_max_bounds; [lra|].
    assert (benchmark_value kpi / actual <= 1); [|lra].
    apply Qle_shift_div_r; [done|]. lra.
Qed.

Lemma py_round_percent (x : Q) : 0 <= x <= 100 → 0 <= py_round x 1 <= 100.
Proof.
  intros Hx.
  assert (0 # 10 <= py_round x 1 <= 1000 # 10) as [Hlo Hhi].
  { apply py_round1_bounds. change (inject_Z 0) with 0.
    change (inject_Z 1000) with 1000. lra. }
  split.
  - apply Qle_trans with (0 # 10); [by vm_compute|done].
  - apply Qle_trans with (1000 # 10); [done|by vm_compute].
Qed.

(** X19. For every KPI of the table and every actual value, the score
    returned by [score_kpi] lies between 0 and 100. *)
Theorem score_kpi_range (kpi_id : string) (actual : Q) (s : KPIScore) :
  score_kpi __init__ kpi_id actual = Ok s → 0 <= score s <= 100.
Proof.
  intros Hs. unfold __init__ in Hs.
  destruct (lookup_key kpi_id COUPA_BENCHMARKS) as [kpi|] eqn:Hk.
  - assert (0 < benchmark_value kpi) as Hpos.
    { pose proof benchmarks_positive as Hall. rewrite Forall_forall in Hall.
      apply (Hall (kpi_id, kpi)). by apply lookup_key_elem. }
    destruct (score_kpi_raw __init__ kpi_id kpi actual Hk Hpos)
      as (s' & Hs' & Hscore & _).
    unfold __init__ in Hs'. rewrite Hs' in Hs. injection Hs as <-.
    rewrite Hscore. apply py_round_percent. by apply raw_kpi_score_range.
  - unfold score_kpi in Hs. cbn [benchmarks] in Hs. by rewrite Hk in Hs.
Qed.

(** X20. A KPI that meets its benchmark (at or above it when higher is
    better, at or below it when lower is better) scores exactly 100 and is
    rated Excellent: exceeding the benchmark earns no bonus. *)
Theorem score_kpi_meets_benchmark (kpi_id : string) (kpi : kpi_entry)
    (actual : Q) :
  lookup_key kpi_id COUPA_BENCHMARKS = Some kpi →
  (if String.eqb (kpi_direction kpi) "higher"
   then benchmark_value kpi <= actual
   else actual <= benchmark_value kpi) →
  ∃ s, score_kpi __init__ kpi_id actual = Ok s ∧
       score s == 100 ∧ rating s = "Excellent".
Proof.
  intros Hk Hmeet.
  assert (0 < benchmark_value kpi) as Hpos.
  { pose proof benchmarks_positive as Hall. rewrite Forall_forall in Hall.
    apply (Hall (kpi_id, kpi)). by apply lookup_key_elem. }
  destruct (score_kpi_raw __init__ kpi_id kpi actual Hk Hpos)
    as (s & Hs & Hscore & Hrating & _).
  exists s. split; [done|]. rewrite Hscore, Hrating.
  assert (raw_kpi_score kpi actual = 100) as ->; [|by split].
  unfold raw_kpi_score. destruct (String.eqb _ _);
    apply Qle_bool_iff in Hmeet; by rewrite Hmeet.
Qed.

End KPIScores.

(** On-contract spend at 40 against a benchmark of 81.1 scores 49.3. *)
Lemma score_kpi_range_example :
  ∃ s, Benchmarking.score_kpi (H := SampleRuntime.runtime)
         Benchmarking.__init__ "on_contract_spend" 40 = Ok s ∧
       0 <= Benchmarking.score s <= 100.
Proof.
  eexists. split; [by vm_compute|].
  apply (score_kpi_range (H := SampleRuntime.runtime) "on_contract_spend" 40).
  by vm_compute.
Defined.

(** On-contract spend exactly at its benchmark of 81.1, and a cycle time of
    3 hours against a benchmark of 4. *)
Lemma score_kpi_meets_benchmark_example :
  (∃ s, Benchmarking.score_kpi (H := SampleRuntime.runtime)
          Benchmarking.__init__ "on_contract_spend" 81.1 = Ok s ∧
        Benchmarking.score s == 100 ∧ Benchmarking.rating s = "Excellent") ∧
  (∃ s, Benchmarking.score_kpi (H := SampleRuntime.runtime)
          Benchmarking.__init__ "requisition_to_order_cycle_time" 3 = Ok s ∧
        Benchmarking.score s == 100 ∧ Benchmarking.rating s = "Excellent").
Proof.
  split.
  - eapply (score_kpi_meets_benchmark (H := SampleRuntime.runtime));
      [by vm_compute|by vm_compute].
  - eapply (score_kpi_meets_benchmark (H := SampleRuntime.runtime));
      [by vm_compute|by vm_compute].
Defined.

Section HealthScoreTotal.
Context `{PyRuntime}.
Import Benchmarking.

Lemma lookup_key_some {A} k (table : list (string * A)) :
  k ∈ table.*1 → ∃ v, lookup_key k table = Some v.
Proof.
  induction table as [|[k' v'] table IH]; simpl; intros Hin.
  - by apply elem_of_nil in Hin.
  - destruct (String.eqb k' k) eqn:E; [eauto|].
    apply elem_of_cons in Hin as [->|Hin]; [|by apply IH].
    by rewrite String.eqb_refl in E.
Qed.

Lemma importance_weight_positive (importance : string) :
  0 < default 1.0 (lookup_key importance (importance_weights __init__)).
Proof.
  cbn [importance_weights __init__ IMPORTANCE_WEIGHTS lookup_key].
  repeat destruct (String.eqb _ importance); by vm_compute.
Qed.

Lemma category_weight_positive (category : string) :
  0 < default 1.0 (lookup_key category category_weights).
Proof.
  unfold category_weights. cbn [lookup_key].
  repeat destruct (String.eqb _ category); by vm_compute.
Qed.

Lemma weighed_add (sums : Q * Q) (score weight : Q) :
  weighed sums → 0 <= score <= 100 → 0 < weight →
  weighed (sums.1 + score * weight, sums.2 + weight).
Proof.
  intros (H1 & H2 & H3) [Hs0 Hs1] Hw. unfold weighed. cbn [fst snd].
  assert (0 <= score * weight) by (apply Qmult_le_0_compat; lra).
  assert (score * weight <= 100 * weight) by (apply Qmult_le_compat_r; lra).
  repeat split; lra.
Qed.

Lemma weighed_mean (sums : Q * Q) :
  weighed sums →
  ∃ mean, (if Qlt_bool 0 sums.2 then truediv sums.1 sums.2 else Ok 0)
          = Ok mean ∧ 0 <= mean <= 100.
Proof.
  intros (H1 & H2 & H3). destruct (Qlt_bool 0 sums.2) eqn:E.
  - apply Qlt_bool_iff in E. rewrite truediv_ok.
    2:{ intros E0. rewrite E0 in E. by apply Qlt_irrefl in E. }
    eexists. split; [done|]. split.
    + apply Qle_shift_div_l; [done|]. lra.
    + apply Qle_shift_div_r; [done|]. lra.
  - exists 0. split; [done|lra].
Qed.

Lemma category_step_returns kpi_values acc kpi_id :
  kpi_id ∈ COUPA_BENCHMARKS.*1 →
  weighed (acc.1.2, acc.2) →
  ∃ acc', category_step __init__ kpi_values acc kpi_id = Ok acc' ∧
          weighed (acc'.1.2, acc'.2).
Proof.
  intros Hin Hacc. destruct acc as [[scores ws] tw]. unfold category_step.
  destruct (kpi_values !! kpi_id) as [actual|]; [|eauto].
  destruct (lookup_key_some _ _ Hin) as [kpi Hk].
  assert (0 < benchmark_value kpi) as Hpos.
  { pose proof benchmarks_positive as Hall. rewrite Forall_forall in Hall.
    apply (Hall (kpi_id, kpi)). by apply lookup_key_elem. }
  destruct (score_kpi_known __init__ kpi_id kpi actual Hk Hpos) as (s & Hs & _).
  rewrite Hs. cbn [mbind result_bind benchmarks __init__]. rewrite Hk.
  cbn [mbind result_bind]. eexists. split; [done|]. cbn [fst snd] in *.
  apply (weighed_add (ws, tw)); [done| |apply importance_weight_positive].
  by eapply score_kpi_range.
Qed.

Lemma category_loop_returns kpi_values kpi_ids acc :
  Forall (λ k, k ∈ COUPA_BENCHMARKS.*1) kpi_ids →
  weighed (acc.1.2, acc.2) →
  ∃ acc', category_loop __init__ kpi_values kpi_ids acc = Ok acc' ∧
          weighed (acc'.1.2, acc'.2).
Proof.
  intros Hids. revert acc. induction Hids as [|k ks Hk _ IH]; intros acc Hacc.
  - by exists acc.
  - cbn [category_loop].
    destruct (category_step_returns kpi_values acc k Hk Hacc) as (a1 & -> & H1).
    cbn [mbind result_bind]. by apply IH.
Qed.

Lemma score_category_returns category_id kpi_values :
  ∃ cs, score_category __init__ category_id kpi_values = Ok cs ∧
        0 <= category_score cs <= 100.
Proof.
  unfold score_category.
  destruct (category_loop_returns kpi_values
              (filter (λ kv, String.eqb (kpi_category kv.2) category_id = true)
                      (benchmarks __init__)).*1 ([], 0, 0))
    as ([[scores ws] tw] & -> & Hw).
  - apply Forall_forall. intros k Hk.
    apply list_elem_of_fmap in Hk as ([k' v] & -> & Hin).
    apply list_elem_of_filter in Hin as [_ Hin].
    apply list_elem_of_fmap. by exists (k', v).
  - unfold weighed. cbn [fst snd]. repeat split; lra.
  - cbn [mbind result_bind fst snd] in *.
    destruct (weighed_mean (ws, tw) Hw) as (mean & Hmean & Hr).
    cbn [fst snd] in Hmean. rewrite Hmean. cbn [mbind result_bind].
    eexists. split; [done|]. cbn [category_score].
    by apply py_round_percent.
Qed.

Lemma score_categories_returns kpi_values category_ids acc :
  Forall (λ e, 0 <= category_score e.2 <= 100) acc.1 →
  ∃ acc', score_categories __init__ kpi_values category_ids acc = Ok acc' ∧
          Forall (λ e, 0 <= category_score e.2 <= 100) acc'.1.
Proof.
  revert acc. induction category_ids as [|c cs IH]; intros acc Hacc.
  - by exists acc.
  - cbn [score_categories].
    destruct (score_category_returns c kpi_values) as (s & -> & Hs).
    cbn [mbind result_bind]. apply IH. cbn [fst].
    apply Forall_app. split; [done|]. constructor; [exact Hs|constructor].
Qed.

Lemma weigh_categories entries sums :
  Forall (λ e, 0 <= category_score e.2 <= 100) entries →
  weighed sums → weighed (foldl weigh_category sums entries).
Proof.
  intros He. revert sums. induction He as [|e es Hx _ IH]; intros sums Hs;
    [done|].
  cbn [foldl]. apply IH. unfold weigh_category.
  destruct (kpi_scores e.2); [done|].
  apply weighed_add; [done..|apply category_weight_positive].
Qed.

End HealthScoreTotal.

Section PeerComparisonTotal.
Context `{PyRuntime}.
Import Benchmarking.

Lemma index_of_found (x : Q) (xs : list Q) :
  x ∈ xs → ∃ i, index_of x xs = Ok i ∧ (i < length xs)%nat.
Proof.
  induction xs as [|y ys IH]; intros Hin; [by apply elem_of_nil in Hin|].
  cbn [index_of]. destruct (Qeq_bool y x) eqn:E.
  - exists 0%nat. split; [done|]. simpl. lia.
  - apply elem_of_cons in Hin as [->|Hin].
    + by rewrite Qeq_bool_refl in E.
    + destruct (IH Hin) as (i & -> & Hi). exists (S i). split; [done|].
      simpl. lia.
Qed.

(** What the comparison reports for a list of peers that is not empty: the
    rank of the score among the peers and itself, and their number. *)
Lemma peer_comparison_report (self : BenchmarkingEngine) (score : Q)
    (peer_data : gmap string loc) (peer_scores : loc) (w : world) :
  peer_data !! "scores" = Some peer_scores →
  lists w !!! peer_scores ≠ [] →
  ∃ (i : nat) percentile average median vs_average w',
    _calculate_peer_comparison self score peer_data w =
    (Ok [("rank", inject_Z (Z.of_nat (i + 1)));
         ("total_peers",
          inject_Z (Z.of_nat (S (length (lists w !!! peer_scores)))));
         ("percentile", percentile); ("peer_average", average);
         ("peer_median", median); ("vs_average", vs_average)], w') ∧
    (i + 1 ≤ S (length (lists w !!! peer_scores)))%nat ∧
    0 <= percentile <= 100 ∧
    dicts w' = dicts w ∧ ticks w' = ticks w ∧ log w' = log w.
Proof.
  intros Hp Hne. unfold _calculate_peer_comparison. rewrite Hp.
  rewrite bind_deref_list.
  destruct (lists w !!! peer_scores) as [|x xs] eqn:Exs; [done|].
  cbn [length Nat.ltb Nat.leb negb].
  rewrite bind_assign_list, bind_deref_list, list_after_assign.
  rewrite bind_assign_list, bind_deref_list, list_after_assign.
  set (sorted := sort_by descending ((x :: xs) ++ [score])%list).
  set (w2 := (assign_list peer_scores sorted _).2).
  assert (dicts w2 = dicts w ∧ ticks w2 = ticks w ∧ log w2 = log w) as Hw2
    by done.
  clearbody w2.
  assert (length sorted = S (S (length xs))) as Hlen.
  { unfold sorted. rewrite sort_by_length, length_app. simpl. lia. }
  destruct (index_of_found score sorted) as (i & Hi & Hlt).
  { apply list_elem_of_In.
    apply (Permutation_in _ (Permutation_sym (sort_by_perm descending _))).
    apply list_elem_of_In, elem_of_app. right. left. }
  rewrite bind_lift, Hi, Hlen.
  assert (¬ inject_Z (Z.of_nat (S (S (length xs)))) == 0) as Hn.
  { unfold Qeq. simpl. lia. }
  rewrite bind_lift, (truediv_ok _ _ Hn).
  rewrite bind_lift, (truediv_ok _ _ Hn).
  destruct (lookup_lt_is_Some_2 sorted (S (S (length xs)) / 2)) as [m Hm].
  { rewrite Hlen. apply Nat.div_lt; lia. }
  rewrite bind_lift, Hm.
  eexists i, _, _, _, _, w2. split; [reflexivity|].
  split; [cbn [length]; lia|]. split; [|exact Hw2].
  apply py_round_percent.
  set (n := inject_Z (Z.of_nat (S (S (length xs))))) in *.
  set (rank := inject_Z (Z.of_nat (i + 1))).
  assert (0 < n) as Hn0 by (unfold n; rewrite <- (Zlt_Qlt 0); lia).
  assert (1 <= rank <= n) as [Hr1 Hrn].
  { unfold rank, n. change 1 with (inject_Z 1). rewrite <- !Zle_Qle. lia. }
  assert (0 <= (n - rank) / n <= 1) as Hq.
  { split.
    - apply Qle_shift_div_l; [done|]. lra.
    - apply Qle_shift_div_r; [done|]. lra. }
  lra.
Qed.

Lemma peer_comparison_returns (self : BenchmarkingEngine) (score : Q)
    (peer_data : gmap string loc) (w : world) :
  ∃ comparison w',
    _calculate_peer_comparison self score peer_data w = (Ok comparison, w') ∧
    dicts w' = dicts w ∧ ticks w' = ticks w ∧ log w' = log w.
Proof.
  destruct (peer_data !! "scores") as [l|] eqn:Hp.
  - destruct (lists w !!! l) as [|x xs] eqn:Exs.
    + unfold _calculate_peer_comparison. rewrite Hp, bind_deref_list, Exs.
      by eexists _, _.
    + destruct (peer_comparison_report self score peer_data l w Hp)
        as (i & p & a & m & v & w' & -> & _ & _ & Hw); [by rewrite Exs|].
      by eexists _, _.
  - unfold _calculate_peer_comparison. rewrite Hp. by eexists _, _.
Qed.

(** X21. [calculate_health_score] never raises, for any KPI values and any
    peer data: it returns an overall score between 0 and 100, reads the
    clock once, and changes neither a record nor the log. *)
Theorem calculate_health_score_total (kpi_values : gmap string Q)
    (peer_data : option (gmap string loc)) (w : world) :
  ∃ health w',
    calculate_health_score __init__ kpi_values peer_data w = (Ok health, w') ∧
    0 <= overall_score health <= 100 ∧
    calculated_at health = clock (ticks w) ∧
    ticks w' = S (ticks w) ∧ dicts w' = dicts w ∧ log w' = log w.
Proof.
  unfold calculate_health_score.
  destruct (score_categories_returns kpi_values (categories __init__).*1
              ([], [])) as ([cats all] & -> & Hcats); [constructor|].
  rewrite bind_lift. cbn [fst snd] in *.
  pose proof (weigh_categories cats (0, 0) Hcats) as Hw.
  destruct (weighed_mean _ (Hw ltac:(unfold weighed; cbn; repeat split; lra)))
    as (overall & -> & Hr).
  rewrite bind_lift. destruct (grade_of overall) as [grade rating].
  assert (∃ comparison w1,
            match peer_data with
            | Some peers =>
                if bool_decide (peers = ∅) then mret []
                else _calculate_peer_comparison __init__ overall peers
            | None => mret []
            end w = (Ok comparison, w1) ∧
            dicts w1 = dicts w ∧ ticks w1 = ticks w ∧ log w1 = log w)
    as (comparison & w1 & Hcmp & Hd & Ht & Hl).
  { destruct peer_data as [peers|]; [|by eexists _, _].
    destruct (bool_decide (peers = ∅)); [by eexists _, _|].
    apply peer_comparison_returns. }
  unfold mbind at 1, Py_bind at 1. rewrite Hcmp.
  unfold mbind, Py_bind, now, mret, Py_ret.
  eexists _, _. split; [reflexivity|].
  cbn [overall_score calculated_at ticks dicts log].
  split; [by apply py_round_percent|]. by rewrite Ht, Hd, Hl.
Qed.

End PeerComparisonTotal.

Section PeerLists.
Context `{PyRuntime}.
Import Benchmarking.

(** X22. For a list of peers that is not empty, the comparison reports a
    rank between 1 and [total_peers], where [total_peers] is the number of
    peers plus one, and afterwards the list holds the peers and the score,
    largest first. *)
Theorem peer_comparison_ranks (self : BenchmarkingEngine) (score : Q)
    (peer_data : gmap string loc) (peer_scores : loc) (w : world) :
  peer_data !! "scores" = Some peer_scores →
  lists w !!! peer_scores ≠ [] →
  let peers := lists w !!! peer_scores in
  ∃ comparison w' rank,
    _calculate_peer_comparison self score peer_data w = (Ok comparison, w') ∧
    lookup_key "rank" comparison = Some (inject_Z (Z.of_nat rank)) ∧
    lookup_key "total_peers" comparison
    = Some (inject_Z (Z.of_nat (S (length peers)))) ∧
    (1 ≤ rank ≤ S (length peers))%nat ∧
    lists w' !!! peer_scores = sort_by descending (peers ++ [score])%list ∧
    Permutation (lists w' !!! peer_scores) (peers ++ [score])%list.
Proof.
  intros Hp Hne peers.
  destruct (peer_comparison_report self score peer_data peer_scores w Hp Hne)
    as (i & p & a & m & v & w' & Hrun & Hi & _).
  pose proof (peer_comparison_updates_scores self score peer_data peer_scores
                w Hp Hne) as Hl.
  rewrite Hrun in Hl. cbn [snd] in Hl.
  eexists _, w', (i + 1)%nat. split; [exact Hrun|].
  split; [reflexivity|]. split; [reflexivity|].
  split; [fold peers in Hi; lia|]. split; [exact Hl|].
  rewrite Hl. apply sort_by_perm.
Qed.

(** The part of [calculate_health_score] that may touch a list. *)
Lemma health_score_run (kpi_values : gmap string Q)
    (peer_data : option (gmap string loc)) (w : world) :
  ∃ overall comparison health w1,
    match peer_data with
    | Some peers =>
        if bool_decide (peers = ∅) then mret []
        else _calculate_peer_comparison __init__ overall peers
    | None => mret []
    end w = (Ok comparison, w1) ∧
    calculate_health_score __init__ kpi_values peer_data w
    = (Ok health, World (dicts w1) (lists w1) (S (ticks w1)) (log w1)) ∧
    peer_comparison health = comparison.
Proof.
  unfold calculate_health_score.
  destruct (score_categories_returns kpi_values (categories __init__).*1
              ([], [])) as ([cats all] & -> & Hcats); [constructor|].
  rewrite bind_lift. cbn [fst snd] in *.
  pose proof (weigh_categories cats (0, 0) Hcats) as Hw.
  destruct (weighed_mean _ (Hw ltac:(unfold weighed; cbn; repeat split; lra)))
    as (overall & -> & Hr).
  rewrite bind_lift. destruct (grade_of overall) as [grade rating].
  assert (∃ comparison w1,
            match peer_data with
            | Some peers =>
                if bool_decide (peers = ∅) then mret []
                else _calculate_peer_comparison __init__ overall peers
            | None => mret []
            end w = (Ok comparison, w1))
    as (comparison & w1 & Hcmp).
  { destruct peer_data as [peers|]; [|by eexists _, _].
    destruct (bool_decide (peers = ∅)); [by eexists _, _|].
    destruct (peer_comparison_returns __init__ overall peers w)
      as (c & w1 & Hc & _). by eexists _, _. }
  exists overall, comparison. unfold mbind at 1, Py_bind at 1. rewrite Hcmp.
  unfold mbind, Py_bind, now, mret, Py_ret.
  eexists _, w1. split; [done|]. split; reflexivity.
Qed.

(** X23. Without peers to compare with (no peer data, an empty mapping, no
    ['scores'] entry, or an empty list of scores) [calculate_health_score]
    changes no list and reports an empty comparison. *)
Theorem calculate_health_score_without_peers (kpi_values : gmap string Q)
    (peer_data : option (gmap string loc)) (w : world) :
  (peer_data = None ∨
   ∃ peers, peer_data = Some peers ∧
            (peers !! "scores" = None ∨
             ∃ l, peers !! "scores" = Some l ∧ lists w !!! l = [])) →
  ∃ health w',
    calculate_health_score __init__ kpi_values peer_data w = (Ok health, w') ∧
    peer_comparison health = [] ∧ lists w' = lists w.
Proof.
  intros Hpeers.
  destruct (health_score_run kpi_values peer_data w)
    as (overall & comparison & health & w1 & Hcmp & Hrun & Hpc).
  exists health, (World (dicts w1) (lists w1) (S (ticks w1)) (log w1)).
  split; [exact Hrun|]. rewrite Hpc. cbn [lists].
  assert (comparison = [] ∧ w1 = w) as [-> ->]; [|done].
  destruct Hpeers as [->|(peers & -> & Hs)].
  { by injection Hcmp as <- <-. }
  destruct (bool_decide (peers = ∅)); [by injection Hcmp as <- <-|].
  revert Hcmp. unfold _calculate_peer_comparison.
  destruct Hs as [->|(l & -> & Hl)]; [by intros [= <- <-]|].
  rewrite bind_deref_list, Hl. by intros [= <- <-].
Qed.

End PeerLists.

(** A score of 65 among the peers 70 and 60 has rank 2 of 3. *)
Lemma peer_comparison_ranks_example :
  let w := World ∅ {[ 1%positive := [70; 60] ]} 0 [] in
  ∃ comparison w' rank,
    Benchmarking._calculate_peer_comparison Benchmarking.__init__ 65
      {[ "scores" := 1%positive ]} w = (Ok comparison, w') ∧
    Benchmarking.lookup_key "rank" comparison = Some (inject_Z (Z.of_nat rank)) ∧
    (1 ≤ rank ≤ 3)%nat ∧
    lists w' !!! 1%positive = [70; 65; 60].
Proof.
  intros w.
  destruct (peer_comparison_ranks Benchmarking.__init__ 65
              {[ "scores" := 1%positive ]} 1%positive w)
    as (comparison & w' & rank & Hrun & Hrank & _ & Hbound & Hlist & _);
    [done|done|].
  exists comparison, w', rank. split; [exact Hrun|]. split; [exact Hrank|].
  split; [exact Hbound|]. rewrite Hlist. by vm_compute.
Defined.

(** No peer data at all: the lists of the caller stay as they are. *)
Lemma calculate_health_score_without_peers_example :
  let w := World ∅ {[ 1%positive := [70; 60] ]} 0 [] in
  ∃ health w',
    Benchmarking.calculate_health_score (H := SampleRuntime.runtime)
      Benchmarking.__init__ {[ "on_contract_spend" := 75 ]} None w
    = (Ok health, w') ∧
    Benchmarking.peer_comparison health = [] ∧ lists w' = lists w.
Proof.
  intros w.
  apply (calculate_health_score_without_peers (H := SampleRuntime.runtime)).
  by left.
Defined.

Section UnknownKPIs.
Context `{PyRuntime}.
Import Benchmarking.

Lemma lookup_key_none {A} k (table : list (string * A)) :
  lookup_key k table = None → k ∉ table.*1.
Proof.
  induction table as [|[k' v'] table IH]; simpl; intros Hl.
  - apply not_elem_of_nil.
  - destruct (String.eqb k' k) eqn:E; [done|].
    apply not_elem_of_cons. split; [|by apply IH].
    intros ->. by rewrite String.eqb_refl in E.
Qed.

Lemma category_loop_ignores self kpi_values k v kpi_ids acc :
  k ∉ kpi_ids →
  category_loop self (<[k := v]> kpi_values) kpi_ids acc =
  category_loop self kpi_values kpi_ids acc.
Proof.
  revert acc. induction kpi_ids as [|id ids IH]; intros acc Hk; [done|].
  apply not_elem_of_cons in Hk as [Hne Hk]. cbn [category_loop].
  assert (category_step self (<[k := v]> kpi_values) acc id
          = category_step self kpi_values acc id) as ->.
  { unfold category_step. by rewrite lookup_insert_ne. }
  destruct (category_step self kpi_values acc id); [|done].
  cbn [mbind result_bind]. by apply IH.
Qed.

Lemma score_category_ignores self category_id kpi_values k v :
  lookup_key k (benchmarks self) = None →
  score_category self category_id (<[k := v]> kpi_values) =
  score_category self category_id kpi_values.
Proof.
  intros Hk. unfold score_category. rewrite category_loop_ignores; [done|].
  intros Hin. apply (lookup_key_none _ _ Hk).
  apply list_elem_of_fmap in Hin as (kv & -> & Hin).
  apply list_elem_of_filter in Hin as [_ Hin].
  apply list_elem_of_fmap. by exists kv.
Qed.

Lemma score_categories_ignores self kpi_values k v category_ids acc :
  lookup_key k (benchmarks self) = None →
  score_categories self (<[k := v]> kpi_values) category_ids acc =
  score_categories self kpi_values category_ids acc.
Proof.
  intros Hk. revert acc. induction category_ids as [|c cs IH]; intros acc;
    [done|].
  cbn [score_categories]. rewrite score_category_ignores by done.
  destruct (score_category self c kpi_values); [|done].
  cbn [mbind result_bind]. apply IH.
Qed.

(** X24. A value given for an identifier that is not in the benchmark table
    is ignored by [calculate_health_score]: the result is the one without
    it, where [score_kpi] on that identifier raises. *)
Theorem unknown_kpi_values_ignored (self : BenchmarkingEngine)
    (kpi_values : gmap string Q) (k : string) (v : Q)
    (peer_data : option (gmap string loc)) (w : world) :
  lookup_key k (benchmarks self) = None →
  calculate_health_score self (<[k := v]> kpi_values) peer_data w =
  calculate_health_score self kpi_values peer_data w ∧
  score_kpi self k v = Raise (ValueError ("Unknown KPI: " ++ k)).
Proof.
  intros Hk. split.
  - unfold calculate_health_score. by rewrite score_categories_ignores.
  - unfold score_kpi. by rewrite Hk.
Qed.

End UnknownKPIs.

(** A value for the unknown identifier "carbon_footprint". *)
Lemma unknown_kpi_values_ignored_example :
  Benchmarking.calculate_health_score (H := SampleRuntime.runtime)
    Benchmarking.__init__
    (<["carbon_footprint" := 12]> {[ "on_contract_spend" := 75 ]}) None
    SampleRuntime.start =
  Benchmarking.calculate_health_score (H := SampleRuntime.runtime)
    Benchmarking.__init__ {[ "on_contract_spend" := 75 ]} None
    SampleRuntime.start ∧
  Benchmarking.score_kpi (H := SampleRuntime.runtime) Benchmarking.__init__
    "carbon_footprint" 12
  = Raise (ValueError ("Unknown KPI: " ++ "carbon_footprint")).
Proof.
  apply (unknown_kpi_values_ignored (H := SampleRuntime.runtime)).
  by vm_compute.
Defined.

Section BenchmarkSummary.
Import Benchmarking.

Lemma summary_fold (self : BenchmarkingEngine) (cats : list (string * string))
    (s0 : benchmark_summary) :
  total_kpis (foldl (summary_step self) s0 cats) = total_kpis s0 ∧
  all_kpis (foldl (summary_step self) s0 cats) =
  (all_kpis s0 ++
   (describe <$>
    (cats ≫= λ c, filter (λ kv, String.eqb (kpi_category kv.2) c.1 = true)
                         (benchmarks self))))%list.
Proof.
  revert s0. induction cats as [|c cats IH]; intros s0.
  - simpl. by rewrite app_nil_r.
  - cbn [foldl]. destruct (IH (summary_step self s0 c)) as [-> ->].
    split; [done|]. cbn [summary_step all_kpis mbind list_bind].
    by rewrite fmap_app, app_assoc.
Qed.

Lemma categories_once (cats : list (string * string)) (b : string * kpi_entry) :
  NoDup cats.*1 → kpi_category b.2 ∈ cats.*1 →
  (cats ≫= λ c, if decide (String.eqb (kpi_category b.2) c.1 = true)
                then [b] else []) = [b].
Proof.
  induction cats as [|c cats IH]; intros Hnd Hin;
    [by apply elem_of_nil in Hin|].
  rewrite fmap_cons in Hnd, Hin. apply NoDup_cons in Hnd as [Hc Hnd].
  cbn [mbind list_bind]. case_decide as E.
  - apply String.eqb_eq in E.
    assert ((cats ≫= λ c0, if decide (String.eqb (kpi_category b.2) c0.1 = true)
                           then [b] else []) = []) as Hrest.
    { clear -Hc E. rewrite <- E in Hc. induction cats as [|c' cats IH];
        [done|].
      rewrite fmap_cons in Hc. apply not_elem_of_cons in Hc as [Hne Hc].
      cbn [mbind list_bind]. case_decide as E'.
      - apply String.eqb_eq in E'. done.
      - by apply IH. }
    change (list_bind _ _ _ cats) with
      (cats ≫= λ c0, if decide (String.eqb (kpi_category b.2) c0.1 = true)
                     then [b] else []).
    by rewrite Hrest.
  - apply elem_of_cons in Hin as [Hin|Hin].
    + exfalso. apply E. by apply String.eqb_eq.
    + by apply IH.
Qed.

Lemma categories_split (cats : list (string * string))
    (b : string * kpi_entry) (bs : list (string * kpi_entry)) :
  Permutation
    (cats ≫= λ c, filter (λ kv, String.eqb (kpi_category kv.2) c.1 = true)
                         (b :: bs))
    ((cats ≫= λ c, if decide (String.eqb (kpi_category b.2) c.1 = true)
                   then [b] else []) ++
     (cats ≫= λ c, filter (λ kv, String.eqb (kpi_category kv.2) c.1 = true)
                          bs)).
Proof.
  induction cats as [|c cats IH]; [done|].
  cbn [mbind list_bind].
  change (list_bind _ _ ?f cats) with (cats ≫= f) in *.
  rewrite IH, filter_cons. case_decide; simpl; [constructor|];
    by rewrite !app_assoc, ?(Permutation_app_comm _ (filter _ bs)),
       <- ?app_assoc; solve_Permutation.
Qed.

Lemma categories_cover (cats : list (string * string))
    (bs : list (string * kpi_entry)) :
  NoDup cats.*1 →
  Forall (λ kv, kpi_category kv.2 ∈ cats.*1) bs →
  Permutation
    (cats ≫= λ c, filter (λ kv, String.eqb (kpi_category kv.2) c.1 = true) bs)
    bs.
Proof.
  intros Hnd. induction 1 as [|b bs Hb _ IH].
  - induction cats as [|c cats IHc]; [done|].
    apply NoDup_cons in Hnd as [_ Hnd]. cbn [mbind list_bind].
    rewrite filter_nil. by apply IHc.
  - rewrite categories_split, categories_once by done. by rewrite IH.
Qed.

(** X25. When the category identifiers are distinct and every KPI of the
    table belongs to one of them, [get_benchmark_summary] lists every KPI
    exactly once: its flat list of KPIs is a rearrangement of the table, and
    [total_kpis] is its length. *)
Theorem benchmark_summary_complete (self : BenchmarkingEngine) :
  NoDup (categories self).*1 →
  Forall (λ kv, kpi_category kv.2 ∈ (categories self).*1) (benchmarks self) →
  let summary := get_benchmark_summary self in
  Permutation (all_kpis summary) (describe <$> benchmarks self) ∧
  total_kpis summary = length (all_kpis summary).
Proof.
  intros Hnd Hcat summary. subst summary. unfold get_benchmark_summary.
  destruct (summary_fold self (categories self)
              (mkSummary (length (benchmarks self)) [] [])) as [-> ->].
  cbn [all_kpis total_kpis app].
  pose proof (categories_cover _ _ Hnd Hcat) as Hperm.
  split; [by rewrite Hperm|].
  by rewrite length_fmap, (Permutation_length Hperm).
Qed.

End BenchmarkSummary.

(** The engine as constructed: 19 KPIs in 8 categories. *)
Lemma benchmark_summary_complete_example :
  let summary := Benchmarking.get_benchmark_summary Benchmarking.__init__ in
  Permutation (Benchmarking.all_kpis summary)
    (Benchmarking.describe <$> Benchmarking.COUPA_BENCHMARKS) ∧
  Benchmarking.total_kpis summary = length (Benchmarking.all_kpis summary).
Proof.
  apply (benchmark_summary_complete Benchmarking.__init__).
  - apply (bool_decide_unpack _). by vm_compute.
  - apply (bool_decide_unpack _). by vm_compute.
Defined.

Section EstimateKPIs.
Import Benchmarking.
Context `{PyRuntime}.

Lemma amount_of_ok (c : dict) : amount_is_number c → ∃ a, amount_of c = Ok a.
Proof.
  intros Hc. unfold amount_of, py_or, get.
  destruct (c !! "current_amount") as [[|b|q|s]|] eqn:E; simpl; eauto.
  - destruct b; simpl; eauto.
  - destruct (Qeq_bool q 0); simpl; eauto.
  - rewrite (Hc s E). simpl. eauto.
Qed.

Lemma each_amount_ok (contracts : list dict) :
  Forall amount_is_number contracts →
  ∃ amounts, VendorScoringEngine.each amount_of contracts = Ok amounts.
Proof.
  induction 1 as [|c cs Hc _ [amounts IH]]; [by eexists|].
  destruct (amount_of_ok c Hc) as [a Ha].
  cbn [VendorScoringEngine.each]. rewrite Ha, IH. by eexists.
Qed.

Lemma spend_by_vendor_ok (contracts : list dict) (acc : list (value * Q)) :
  Forall amount_is_number contracts →
  ∃ vendor_spend, spend_by_vendor contracts acc = Ok vendor_spend.
Proof.
  intros Hall. revert acc.
  induction Hall as [|c cs Hc _ IH]; intros acc; [by eexists|].
  cbn [spend_by_vendor]. destruct (truthy _); [|apply IH].
  destruct (amount_of_ok c Hc) as [a ->]. apply IH.
Qed.

Lemma share_of (k n : nat) :
  (k ≤ n)%nat → (0 < n)%nat →
  ∃ share, truediv (inject_Z (Z.of_nat k)) (inject_Z (Z.of_nat n)) = Ok share ∧
           0 <= share * 100 <= 100.
Proof.
  intros Hk Hn.
  assert (0 < inject_Z (Z.of_nat n)) as Hn'.
  { rewrite <- (Zlt_Qlt 0). lia. }
  assert (0 <= inject_Z (Z.of_nat k) <= inject_Z (Z.of_nat n)) as [Hk0 Hkn].
  { rewrite <- (Zle_Qle 0), <- Zle_Qle. lia. }
  rewrite truediv_ok by lra. eexists; split; [done|].
  set (x := inject_Z (Z.of_nat k)) in *. set (y := inject_Z (Z.of_nat n)) in *.
  assert (0 <= x / y <= 1) as Hq.
  { split.
    - apply Qle_shift_div_l; [done|]. lra.
    - apply Qle_shift_div_r; [done|]. lra. }
  lra.
Qed.

Lemma cycle_time_positive (c : dict) (days : Z) :
  cycle_time_of c = Some days → (0 < days)%Z.
Proof.
  unfold cycle_time_of. destruct (_ && _); [|done].
  destruct (_ ≫= _) as [d|]; [|done].
  destruct (0 <? d)%Z eqn:E; [|done]. intros [= <-]. lia.
Qed.

Lemma Qsum_positive (xs : list Z) :
  Forall (λ x, (0 < x)%Z) xs → xs ≠ [] → 0 < Qsum (inject_Z <$> xs).
Proof.
  intros Hall Hne. destruct Hall as [|x xs Hx Hall]; [done|].
  clear Hne. unfold Qsum. cbn [fmap list_fmap foldr].
  assert (0 <= foldr Qplus 0 (inject_Z <$> xs)) as Hrest.
  { induction Hall as [|y ys Hy _ IH]; [done|].
    cbn [fmap list_fmap foldr].
    assert (0 < inject_Z y) by (rewrite <- (Zlt_Qlt 0); lia).
    change (list_fmap Z Q inject_Z ys) with (inject_Z <$> ys). lra. }
  assert (0 < inject_Z x) by (rewrite <- (Zlt_Qlt 0); lia).
  change (list_fmap Z Q inject_Z xs) with (inject_Z <$> xs). lra.
Qed.

Lemma known_kpis_insert (k : string) (v : Q) (estimated : gmap string Q) :
  is_Some (lookup_key k COUPA_BENCHMARKS) → known_kpis estimated →
  known_kpis (<[k := v]> estimated).
Proof.
  intros Hk Hest k'. rewrite lookup_insert_is_Some.
  intros [<-|[_ Hk']]; [done|by apply Hest].
Qed.

(** X26. On a non-empty list of contracts whose amounts can be added up,
    [estimate_kpis_from_contracts] returns (no division fails) an estimate
    that holds the two placeholders 75 and 85, has the structured and the
    pre-approved share of spend between 0 and 100, an average cycle time
    that is positive when present, and only identifiers of benchmarked
    KPIs as keys. *)
Theorem estimate_kpis_returns (self : BenchmarkingEngine)
    (c : dict) (cs : list dict) (payments vendors : option (list dict)) :
  Forall amount_is_number (c :: cs) →
  ∃ estimated,
    estimate_kpis_from_contracts self (c :: cs) payments vendors = Ok estimated ∧
    estimated !! "on_contract_spend" = Some 75.0 ∧
    estimated !! "electronic_po_processing" = Some 85.0 ∧
    (∃ share, estimated !! "structured_spend" = Some share ∧
              0 <= share <= 100) ∧
    (∃ share, estimated !! "pre_approved_spend" = Some share ∧
              0 <= share <= 100) ∧
    (∀ mean, estimated !! "contract_mgmt_cycle_time" = Some mean → 0 < mean) ∧
    known_kpis estimated.
Proof.
  intros Hall. unfold estimate_kpis_from_contracts.
  destruct (each_amount_ok _ Hall) as [amounts ->]. cbn [mbind result_bind].
  assert (Qlt_bool 0 (inject_Z (Z.of_nat (length (c :: cs)))) = true) as ->.
  { apply Qlt_bool_iff. rewrite <- (Zlt_Qlt 0). simpl. lia. }
  destruct (share_of
    (length (filter (λ c, among (get_ c "procurement_method")
                            ["Competitive Bid"; "RFP"; "ITB"; "RFQ"] = true)
                    (c :: cs))) (length (c :: cs)))
    as (formal & -> & Hformal); [apply length_filter|simpl; lia|].
  cbn [mbind result_bind].
  destruct (share_of
    (length (filter (λ c, truthy (get_ c "board_approval_date") = true)
                    (c :: cs))) (length (c :: cs)))
    as (approved & -> & Happroved); [apply length_filter|simpl; lia|].
  cbn [mbind result_bind].
  set (e0 := <["pre_approved_spend" := approved * 100]>
             (<["structured_spend" := formal * 100]>
             (<["on_contract_spend" := 75.0]> ∅)) : gmap string Q).
  (* the facts every later stage keeps *)
  set (kept := λ e : gmap string Q,
    e !! "on_contract_spend" = Some 75.0 ∧
    (∃ share, e !! "structured_spend" = Some share ∧ 0 <= share <= 100) ∧
    (∃ share, e !! "pre_approved_spend" = Some share ∧ 0 <= share <= 100) ∧
    (∀ mean, e !! "contract_mgmt_cycle_time" = Some mean → 0 < mean) ∧
    known_kpis e).
  assert (kept e0) as H0.
  { subst kept e0. cbn beta. split_and!.
    - by simplify_map_eq.
    - exists (formal * 100). by simplify_map_eq.
    - exists (approved * 100). by simplify_map_eq.
    - intros mean. by simplify_map_eq.
    - repeat apply known_kpis_insert; try (by vm_compute; eauto).
      intros k. rewrite lookup_empty. by intros []. }
  clearbody e0.
  assert (∃ e1, match omap cycle_time_of (c :: cs) with
                | [] => Ok e0
                | _ :: _ =>
                    mean ← truediv
                      (py_sum (inject_Z <$> omap cycle_time_of (c :: cs)))
                      (inject_Z (Z.of_nat (length (omap cycle_time_of (c :: cs)))));
                    Ok (<["contract_mgmt_cycle_time" := mean]> e0)
                end = Ok e1 ∧ kept e1) as (e1 & -> & H1).
  { assert (Forall (λ x, (0 < x)%Z) (omap cycle_time_of (c :: cs))) as Hpos.
    { apply Forall_forall. intros d Hd. apply list_elem_of_omap in Hd
        as (c' & _ & Hd). by apply cycle_time_positive in Hd. }
    destruct (omap cycle_time_of (c :: cs)) as [|d ds] eqn:E; [by eexists|].
    assert (0 < inject_Z (Z.of_nat (length (d :: ds)))) as Hlen.
    { rewrite <- (Zlt_Qlt 0). simpl. lia. }
    rewrite truediv_ok by lra. cbn [mbind result_bind].
    eexists; split; [done|].
    destruct H0 as (Ha & Hb & Hc & _ & Hk). subst kept. cbn beta.
    split_and!.
    - by simplify_map_eq.
    - destruct Hb as (s & ? & ?). exists s. by simplify_map_eq.
    - destruct Hc as (s & ? & ?). exists s. by simplify_map_eq.
    - intros mean. rewrite lookup_insert_eq. intros [= <-].
      apply Qlt_shift_div_l; [done|]. rewrite Qmult_0_l, py_sum_Qsum.
      by apply (Qsum_positive (d :: ds)).
    - apply known_kpis_insert; [by vm_compute; eauto|done]. }
  cbn [mbind result_bind]. clear H0 e0.
  assert (∀ k v, k ≠ "on_contract_spend" → k ≠ "structured_spend" →
                 k ≠ "pre_approved_spend" → k ≠ "contract_mgmt_cycle_time" →
                 is_Some (lookup_key k COUPA_BENCHMARKS) →
                 ∀ e, kept e → kept (<[k := v]> e)) as Hkeep.
  { intros k v ? ? ? ? Hk e (Ha & Hb & Hc & Hd & He). subst kept. cbn beta.
    split_and!.
    - by simplify_map_eq.
    - destruct Hb as (s & ? & ?). exists s. by simplify_map_eq.
    - destruct Hc as (s & ? & ?). exists s. by simplify_map_eq.
    - intros mean. rewrite lookup_insert_ne by done. apply Hd.
    - by apply known_kpis_insert. }
  match goal with
  | |- ∃ _, ?m ≫= _ = _ ∧ _ =>
      assert (∃ e2, m = Ok e2 ∧ kept e2) as (e2 & -> & H2)
  end.
  { destruct vendors as [[|v vs]|]; [by eexists| |by eexists].
    destruct (Qlt_bool 0 (py_sum amounts)) eqn:E; [|by eexists].
    apply Qlt_bool_iff in E.
    destruct (spend_by_vendor_ok (c :: cs) [] Hall) as [vendor_spend ->].
    cbn [mbind result_bind]. rewrite truediv_ok by lra.
    cbn [mbind result_bind]. eexists; split; [done|].
    apply Hkeep; try done; by vm_compute; eauto. }
  cbn [mbind result_bind]. clear H1 e1.
  assert (kept (<["electronic_po_processing" := 85.0]> e2)) as H3.
  { apply Hkeep; try done; by vm_compute; eauto. }
  assert ((<["electronic_po_processing" := 85.0]> e2 : gmap string Q)
            !! "electronic_po_processing" = Some 85.0) as He
    by apply lookup_insert_eq.
  revert H3 He. generalize (<["electronic_po_processing" := 85.0]> e2).
  intros e3 H3 He. clear H2 e2.
  match goal with
  | |- ∃ _, ?m = _ ∧ _ =>
      assert (∃ e4, m = Ok e4 ∧ kept e4 ∧
                    e4 !! "electronic_po_processing" = Some 85.0)
        as (e4 & -> & H4 & He4)
  end.
  { destruct payments as [[|p ps]|]; [by eexists| |by eexists].
    destruct (0 <? length (p :: ps))%nat; [|by eexists].
    destruct (share_of
      (length (filter (λ p, among (get_ p "payment_type")
                              ["ACH"; "Wire"; "EFT"; "Digital"] = true)
                      (p :: ps))) (length (p :: ps)))
      as (digital & -> & _); [apply length_filter|simpl; lia|].
    cbn [mbind result_bind]. eexists; split; [done|]. split.
    - apply Hkeep; try done; by vm_compute; eauto.
    - by rewrite lookup_insert_ne. }
  exists e4. destruct H4 as (? & ? & ? & ? & ?). by split_and!.
Qed.

End EstimateKPIs.

(** Two contracts, one through an RFP and approved by the board, awarded
    45 days after solicitation. *)
Lemma estimate_kpis_returns_example :
  ∃ estimated,
    @Benchmarking.estimate_kpis_from_contracts SampleRuntime.runtime
      Benchmarking.__init__
      [ {[ "procurement_method" := VStr "RFP";
           "board_approval_date" := VStr "2024-01-10";
           "solicitation_date" := VStr "2023-11-01";
           "award_date" := VStr "2023-12-16";
           "current_amount" := VNum 1000 ]};
        {[ "procurement_method" := VStr "Sole Source" ]} ]
      None None = Ok estimated ∧
    estimated !! "on_contract_spend" = Some 75.0 ∧
    estimated !! "electronic_po_processing" = Some 85.0 ∧
    (∃ share, estimated !! "structured_spend" = Some share ∧
              0 <= share <= 100) ∧
    (∃ share, estimated !! "pre_approved_spend" = Some share ∧
              0 <= share <= 100) ∧
    (∀ mean, estimated !! "contract_mgmt_cycle_time" = Some mean → 0 < mean) ∧
    known_kpis estimated.
Proof.
  apply (@estimate_kpis_returns SampleRuntime.runtime).
  repeat constructor; intros s Hs; vm_compute in Hs; discriminate.
Defined.

Section KPIMonotone.
Context `{PyRuntime}.
Import Benchmarking.

Lemma round_half_even_mono (x y : Q) :
  x <= y → (round_half_even x ≤ round_half_even y)%Z.
Proof.
  intros Hxy. pose proof (Qfloor_resp_le _ _ Hxy) as Hf.
  destruct (Z.eq_dec (Qfloor x) (Qfloor y)) as [E|E].
  - unfold round_half_even. rewrite <- E.
    destruct (Qlt_bool (x - inject_Z (Qfloor x)) (1 # 2)) eqn:Ex.
    + destruct (Qlt_bool (y - inject_Z (Qfloor x)) (1 # 2)); [lia|].
      destruct (Qlt_bool (1 # 2) (y - inject_Z (Qfloor x))); [lia|].
      destruct (Z.even (Qfloor x)); lia.
    + apply Qlt_bool_false in Ex.
      replace (Qlt_bool (y - inject_Z (Qfloor x)) (1 # 2)) with false.
      2:{ symmetry. apply Qlt_bool_false. lra. }
      destruct (Qlt_bool (1 # 2) (x - inject_Z (Qfloor x))) eqn:Ex'.
      * apply Qlt_bool_iff in Ex'.
        replace (Qlt_bool (1 # 2) (y - inject_Z (Qfloor x))) with true; [lia|].
        symmetry. apply Qlt_bool_iff. lra.
      * destruct (Z.even (Qfloor x));
          destruct (Qlt_bool (1 # 2) (y - inject_Z (Qfloor x))); lia.
  - assert (Qfloor x + 1 ≤ Qfloor y)%Z as Hlt by lia.
    destruct (round_half_even_floor x) as [->|[-> _]];
      destruct (round_half_even_floor y) as [->|[-> _]]; lia.
Qed.

Lemma py_round1_mono (x y : Q) : x <= y → py_round x 1 <= py_round y 1.
Proof.
  intros Hxy. unfold py_round.
  change (Z.pos (10 ^ Pos.of_nat 1)) with 10%Z.
  change (10 ^ Pos.of_nat 1)%positive with 10%positive.
  change (inject_Z 10) with 10.
  assert (x * 10 <= y * 10) as Hm by lra.
  apply round_half_even_mono in Hm. unfold Qle. simpl. lia.
Qed.

Lemma py_max_mono (a x y : Q) : x <= y → py_max a x <= py_max a y.
Proof.
  intros Hxy. unfold py_max.
  destruct (Qlt_bool a x) eqn:Ex, (Qlt_bool a y) eqn:Ey;
    rewrite ?Qlt_bool_iff, ?Qlt_bool_false in *; lra.
Qed.

Lemma Qdiv_le_compat_r (x y b : Q) : 0 < b → x <= y → x / b <= y / b.
Proof.
  intros Hb Hxy. apply Qle_shift_div_l; [done|].
  assert (x / b * b == x) as -> by (field; lra). done.
Qed.

Lemma Qdiv_le_contravar (b x y : Q) : 0 < b → 0 < x → x <= y → b / y <= b / x.
Proof.
  intros Hb Hx Hxy. apply Qle_shift_div_r; [lra|].
  assert (0 <= b / x) as Hq.
  { apply Qle_shift_div_l; [done|]. lra. }
  assert (b == b / x * x) as Hbx by (field; lra).
  rewrite Hbx at 1. rewrite !(Qmult_comm (b / x)).
  by apply Qmult_le_compat_r.
Qed.

Lemma raw_kpi_score_mono (kpi : kpi_entry) (a a' : Q) :
  0 < benchmark_value kpi → a <= a' →
  if String.eqb (kpi_direction kpi) "higher"
  then raw_kpi_score kpi a <= raw_kpi_score kpi a'
  else raw_kpi_score kpi a' <= raw_kpi_score kpi a.
Proof.
  intros Hb Ha.
  pose proof (raw_kpi_score_range kpi a Hb) as Hr.
  pose proof (raw_kpi_score_range kpi a' Hb) as Hr'.
  unfold raw_kpi_score in *. destruct (String.eqb _ _).
  - destruct (Qle_bool (benchmark_value kpi) a') eqn:E'; [lra|].
    apply Qle_bool_false in E'.
    replace (Qle_bool (benchmark_value kpi) a) with false.
    2:{ symmetry. apply Qle_bool_false. lra. }
    apply py_max_mono.
    pose proof (Qdiv_le_compat_r a a' _ Hb Ha). lra.
  - destruct (Qle_bool a (benchmark_value kpi)) eqn:E; [lra|].
    apply Qle_bool_false in E.
    replace (Qle_bool a' (benchmark_value kpi)) with false.
    2:{ symmetry. apply Qle_bool_false. lra. }
    replace (Qlt_bool 0 a) with true.
    2:{ symmetry. apply Qlt_bool_iff. lra. }
    replace (Qlt_bool 0 a') with true.
    2:{ symmetry. apply Qlt_bool_iff. lra. }
    apply py_max_mono.
    assert (0 < a) as Ha0 by lra.
    pose proof (Qdiv_le_contravar _ a a' Hb Ha0 Ha). lra.
Qed.

(** X27. Scores follow performance.  For a KPI with a positive benchmark, a
    larger actual value never scores lower when higher is better, and never
    scores higher when lower is better. *)
Theorem score_kpi_monotone (self : BenchmarkingEngine) (kpi_id : string)
    (kpi : kpi_entry) (actual actual' : Q) (s s' : KPIScore) :
  lookup_key kpi_id (benchmarks self) = Some kpi →
  0 < benchmark_value kpi →
  actual <= actual' →
  score_kpi self kpi_id actual = Ok s →
  score_kpi self kpi_id actual' = Ok s' →
  if String.eqb (kpi_direction kpi) "higher"
  then score s <= score s' else score s' <= score s.
Proof.
  intros Hk Hb Ha Hs Hs'.
  destruct (score_kpi_raw self kpi_id kpi actual Hk Hb) as (t & Ht & Hsc & _).
  destruct (score_kpi_raw self kpi_id kpi actual' Hk Hb)
    as (t' & Ht' & Hsc' & _).
  rewrite Hs in Ht. rewrite Hs' in Ht'. injection Ht as <-. injection Ht' as <-.
  rewrite Hsc, Hsc'.
  pose proof (raw_kpi_score_mono kpi actual actual' Hb Ha) as Hm.
  destruct (String.eqb _ _); by apply py_round1_mono.
Qed.

End KPIMonotone.

(** On-contract spend (higher is better) at 40 and at 60; the
    requisition-to-order cycle time (lower is better) at 6 and at 9 hours. *)
Lemma score_kpi_monotone_example :
  (∃ s s', Benchmarking.score_kpi (H := SampleRuntime.runtime)
             Benchmarking.__init__ "on_contract_spend" 40 = Ok s ∧
           Benchmarking.score_kpi (H := SampleRuntime.runtime)
             Benchmarking.__init__ "on_contract_spend" 60 = Ok s' ∧
           Benchmarking.score s <= Benchmarking.score s') ∧
  (∃ s s', Benchmarking.score_kpi (H := SampleRuntime.runtime)
             Benchmarking.__init__ "requisition_to_order_cycle_time" 6 = Ok s ∧
           Benchmarking.score_kpi (H := SampleRuntime.runtime)
             Benchmarking.__init__ "requisition_to_order_cycle_time" 9 = Ok s' ∧
           Benchmarking.score s' <= Benchmarking.score s).
Proof.
  split.
  - eexists _, _. split; [by vm_compute|]. split; [by vm_compute|].
    let k := eval vm_compute in
      (Benchmarking.lookup_key "on_contract_spend"
         Benchmarking.COUPA_BENCHMARKS) in
    match k with
    | Some ?kpi =>
        exact (score_kpi_monotone (H := SampleRuntime.runtime)
                 Benchmarking.__init__ "on_contract_spend" kpi 40 60 _ _
                 ltac:(by vm_compute) ltac:(by vm_compute)
                 ltac:(by vm_compute) ltac:(by vm_compute)
                 ltac:(by vm_compute))
    end.
  - eexists _, _. split; [by vm_compute|]. split; [by vm_compute|].
    let k := eval vm_compute in
      (Benchmarking.lookup_key "requisition_to_order_cycle_time"
         Benchmarking.COUPA_BENCHMARKS) in
    match k with
    | Some ?kpi =>
        exact (score_kpi_monotone (H := SampleRuntime.runtime)
                 Benchmarking.__init__ "requisition_to_order_cycle_time" kpi
                 6 9 _ _
                 ltac:(by vm_compute) ltac:(by vm_compute)
                 ltac:(by vm_compute) ltac:(by vm_compute)
                 ltac:(by vm_compute))
    end.
Defined.

Section HealthGrade.
Context `{PyRuntime}.
Import Benchmarking.

(** The reported score is the rounding of the number the grade is read
    from, so each grade bounds it by the closed band. *)
Lemma grade_of_bands (overall : Q) :
  let reported := py_round overall 1 in
  let '(grade, rating) := grade_of overall in
  (grade, rating) ∈ [("A", "Excellent"); ("B", "Good"); ("C", "Fair");
                     ("D", "Poor"); ("F", "Critical")] ∧
  (grade = "A" → 90 <= reported) ∧
  (grade = "B" → 80 <= reported <= 90) ∧
  (grade = "C" → 70 <= reported <= 80) ∧
  (grade = "D" → 60 <= reported <= 70) ∧
  (grade = "F" → reported <= 60).
Proof.
  assert (∀ n : Z, py_round (inject_Z n) 1 == inject_Z n) as Hfix.
  { intros n. unfold py_round.
    change (Z.pos (10 ^ Pos.of_nat 1)) with 10%Z.
    change (10 ^ Pos.of_nat 1)%positive with 10%positive.
    assert (round_half_even (inject_Z n * inject_Z 10) = (n * 10)%Z) as ->.
    { rewrite <- inject_Z_mult.
      apply Z.le_antisymm;
        [apply round_half_even_le|apply round_half_even_ge]; apply Qle_refl. }
    unfold Qeq. simpl. lia. }
  assert (∀ n : Z, inject_Z n <= overall → inject_Z n <= py_round overall 1)
    as Hlo.
  { intros n Hn. rewrite <- (Hfix n). by apply py_round1_mono. }
  assert (∀ n : Z, overall <= inject_Z n → py_round overall 1 <= inject_Z n)
    as Hhi.
  { intros n Hn. rewrite <- (Hfix n). by apply py_round1_mono. }
  cbn zeta. unfold grade_of.
  destruct (Qle_bool 90 overall) eqn:E90.
  { apply Qle_bool_iff in E90. split; [set_solver|].
    split_and!; try done. intros _. by apply (Hlo 90%Z). }
  apply Qle_bool_false in E90.
  destruct (Qle_bool 80 overall) eqn:E80.
  { apply Qle_bool_iff in E80. split; [set_solver|].
    split_and!; try done. intros _.
    split; [by apply (Hlo 80%Z)|by apply (Hhi 90%Z), Qlt_le_weak]. }
  apply Qle_bool_false in E80.
  destruct (Qle_bool 70 overall) eqn:E70.
  { apply Qle_bool_iff in E70. split; [set_solver|].
    split_and!; try done. intros _.
    split; [by apply (Hlo 70%Z)|by apply (Hhi 80%Z), Qlt_le_weak]. }
  apply Qle_bool_false in E70.
  destruct (Qle_bool 60 overall) eqn:E60.
  { apply Qle_bool_iff in E60. split; [set_solver|].
    split_and!; try done. intros _.
    split; [by apply (Hlo 60%Z)|by apply (Hhi 70%Z), Qlt_le_weak]. }
  apply Qle_bool_false in E60. split; [set_solver|].
  split_and!; try done. intros _. by apply (Hhi 60%Z), Qlt_le_weak.
Qed.

(** X28. The report of [calculate_health_score] is consistent: grade and
    rating come as one of five pairs, the reported score lies in the closed
    band of its grade (A from 90, B 80 to 90, C 70 to 80, D 60 to 70, F up
    to 60), and each of the two highlight lists holds at most five lines. *)
Theorem calculate_health_score_grade (kpi_values : gmap string Q)
    (peer_data : option (gmap string loc)) (w : world) :
  ∃ health w',
    calculate_health_score __init__ kpi_values peer_data w = (Ok health, w') ∧
    (grade health, health_rating health) ∈
      [("A", "Excellent"); ("B", "Good"); ("C", "Fair"); ("D", "Poor");
       ("F", "Critical")] ∧
    (grade health = "A" → 90 <= overall_score health) ∧
    (grade health = "B" → 80 <= overall_score health <= 90) ∧
    (grade health = "C" → 70 <= overall_score health <= 80) ∧
    (grade health = "D" → 60 <= overall_score health <= 70) ∧
    (grade health = "F" → overall_score health <= 60) ∧
    (length (top_strengths health) ≤ 5)%nat ∧
    (length (priority_improvements health) ≤ 5)%nat.
Proof.
  unfold calculate_health_score.
  destruct (score_categories_returns kpi_values (categories __init__).*1
              ([], [])) as ([cats all] & -> & Hcats); [constructor|].
  rewrite bind_lift. cbn [fst snd] in *.
  pose proof (weigh_categories cats (0, 0) Hcats) as Hw.
  destruct (weighed_mean _ (Hw ltac:(unfold weighed; cbn; repeat split; lra)))
    as (overall & -> & Hr).
  rewrite bind_lift. pose proof (grade_of_bands overall) as Hg.
  cbn zeta in Hg. destruct (grade_of overall) as [g r].
  assert (∃ comparison w1,
            match peer_data with
            | Some peers =>
                if bool_decide (peers = ∅) then mret []
                else _calculate_peer_comparison __init__ overall peers
            | None => mret []
            end w = (Ok comparison, w1)) as (comparison & w1 & Hcmp).
  { destruct peer_data as [peers|]; [|by eexists _, _].
    destruct (bool_decide (peers = ∅)); [by eexists _, _|].
    destruct (peer_comparison_returns __init__ overall peers w)
      as (c & w1 & Hc & _). by eexists _, _. }
  unfold mbind at 1, Py_bind at 1. rewrite Hcmp.
  unfold mbind, Py_bind, now, mret, Py_ret.
  eexists _, _. split; [reflexivity|].
  cbn [overall_score grade health_rating top_strengths priority_improvements].
  destruct Hg as (? & ? & ? & ? & ? & ?). split_and!; try done.
  - rewrite length_fmap.
    etrans; [apply length_filter|]. rewrite length_take. lia.
  - rewrite length_take. lia.
Qed.

End HealthGrade.

Section CategoryScores.
Context `{PyRuntime}.
Import Benchmarking.

Lemma lookup_key_NoDup {A} (k : string) (v : A) (table : list (string * A)) :
  NoDup table.*1 → (k, v) ∈ table → lookup_key k table = Some v.
Proof.
  induction table as [|[k' v'] table IH]; intros Hnd Hin;
    [by apply elem_of_nil in Hin|].
  rewrite fmap_cons in Hnd. apply NoDup_cons in Hnd as [Hk' Hnd].
  cbn [lookup_key]. apply elem_of_cons in Hin as [[= <- <-]|Hin].
  - by rewrite String.eqb_refl.
  - destruct (String.eqb k' k) eqn:E; [|by apply IH].
    apply String.eqb_eq in E as ->. exfalso. apply Hk'.
    apply list_elem_of_fmap. by exists (k, v).
Qed.

Lemma category_loop_scores (kpi_values : gmap string Q) (c : string)
    (kpi_ids : list string) (acc : list KPIScore * Q * Q) :
  Forall (λ k, ∃ kpi, lookup_key k COUPA_BENCHMARKS = Some kpi ∧
                      kpi_category kpi = c) kpi_ids →
  ∃ acc', category_loop __init__ kpi_values kpi_ids acc = Ok acc' ∧
    kpi_id <$> acc'.1.1 =
      ((kpi_id <$> acc.1.1) ++
       filter (λ k, is_Some (kpi_values !! k)) kpi_ids)%list ∧
    (Forall (λ s, category s = c) acc.1.1 →
     Forall (λ s, category s = c) acc'.1.1) ∧
    (acc'.1.1 = [] → acc' = acc).
Proof.
  intros Hids. revert acc.
  induction Hids as [|k ks (kpi & Hk & Hc) _ IH]; intros acc.
  - exists acc. by rewrite app_nil_r.
  - cbn [category_loop]. destruct acc as [[scores ws] tw].
    unfold category_step. rewrite filter_cons.
    destruct (kpi_values !! k) as [actual|] eqn:Ev.
    + assert (0 < benchmark_value kpi) as Hpos.
      { pose proof benchmarks_positive as Hall. rewrite Forall_forall in Hall.
        apply (Hall (k, kpi)). by apply lookup_key_elem. }
      destruct (score_kpi_raw __init__ k kpi actual Hk Hpos)
        as (s & -> & _ & _ & Hid & _ & Hcat).
      cbn [mbind result_bind benchmarks __init__]. rewrite Hk.
      cbn [mbind result_bind].
      destruct (IH ((scores ++ [s])%list,
                    ws + score s *
                      default 1.0 (lookup_key (kpi_importance kpi)
                                     (importance_weights __init__)),
                    tw + default 1.0 (lookup_key (kpi_importance kpi)
                                        (importance_weights __init__))))
        as (acc' & -> & Hids' & Hcats & Hnil).
      exists acc'. cbn [fst snd] in *. split_and!; [done| | |].
      * rewrite Hids', fmap_app. cbn [fmap list_fmap]. rewrite Hid.
        rewrite decide_True by eauto. by rewrite <- app_assoc.
      * intros Hall. apply Hcats, Forall_app. split; [done|].
        constructor; [by rewrite Hcat|constructor].
      * intros E. pose proof (Hnil E) as E'. subst acc'. cbn [fst] in E.
        by destruct scores.
    + cbn [mbind result_bind].
      destruct (IH (scores, ws, tw)) as (acc' & -> & Hids' & Hcats & Hnil).
      exists acc'. by split_and!.
Qed.

Lemma ratings_exclusive (s : KPIScore) :
  one_of (rating s) ["Excellent"; "Good"] = true →
  one_of (rating s) ["Poor"; "Critical"] = true → False.
Proof.
  unfold one_of. cbn [existsb]. rewrite !orb_false_r, !orb_true_iff.
  rewrite !String.eqb_eq. intros [->| ->] [?|?]; discriminate.
Qed.

(** X29. [score_category] scores exactly the KPIs of the category for which
    a value was supplied, in the order of the benchmark table; every score
    it lists belongs to the category, no KPI is both a strength and an
    improvement area, and a category without supplied values scores 0. *)
Theorem score_category_covers (category_id : string)
    (kpi_values : gmap string Q) :
  ∃ cs, score_category __init__ category_id kpi_values = Ok cs ∧
    kpi_id <$> kpi_scores cs =
      filter (λ k, is_Some (kpi_values !! k))
        (filter (λ kv, String.eqb (kpi_category kv.2) category_id = true)
                COUPA_BENCHMARKS).*1 ∧
    Forall (λ s, category s = category_id) (kpi_scores cs) ∧
    (length (strengths cs) + length (improvement_areas cs)
       ≤ length (kpi_scores cs))%nat ∧
    (kpi_scores cs = [] → category_score cs == 0).
Proof.
  unfold score_category.
  destruct (category_loop_scores kpi_values category_id
              (filter (λ kv, String.eqb (kpi_category kv.2) category_id = true)
                      (benchmarks __init__)).*1 ([], 0, 0))
    as ([[scores ws] tw] & Hloop & Hids & Hcats & Hnil).
  { apply Forall_forall. intros k Hk.
    apply list_elem_of_fmap in Hk as ([k' kpi] & -> & Hin).
    apply list_elem_of_filter in Hin as [Hc Hin].
    exists kpi. split; [|by apply String.eqb_eq].
    apply lookup_key_NoDup; [|done].
    apply (bool_decide_unpack _). by vm_compute. }
  rewrite Hloop. cbn [mbind result_bind fst snd] in *.
  destruct (category_loop_returns kpi_values
              (filter (λ kv, String.eqb (kpi_category kv.2) category_id = true)
                      (benchmarks __init__)).*1 ([], 0, 0))
    as (acc' & Hloop' & Hw).
  { apply Forall_forall. intros k Hk.
    apply list_elem_of_fmap in Hk as ([k' v] & -> & Hin).
    apply list_elem_of_filter in Hin as [_ Hin].
    apply list_elem_of_fmap. by exists (k', v). }
  { unfold weighed. cbn [fst snd]. repeat split; lra. }
  rewrite Hloop in Hloop'. injection Hloop' as <-. cbn [fst snd] in Hw.
  destruct (weighed_mean (ws, tw) Hw) as (mean & Hmean & Hr).
  cbn [fst snd] in Hmean. rewrite Hmean. cbn [mbind result_bind].
  eexists. split; [done|].
  cbn [kpi_scores strengths improvement_areas category_score].
  split_and!.
  - exact Hids.
  - apply Hcats. constructor.
  - rewrite !length_fmap. apply exclusive_filters.
    intros s Hs Hi. exact (ratings_exclusive s Hs Hi).
  - intros ->. specialize (Hnil eq_refl). injection Hnil as -> ->.
    cbn in Hmean. injection Hmean as <-. by vm_compute.
Qed.

End CategoryScores.

Section ScheduleAlerts.
Context `{PyRuntime}.
Import AlertGenerator.

(** What [_schedule_delay] computes: the extension percentage within
    [[min_pct, max_pct)], the number the schedule score is banded on. *)
Lemma schedule_delay_cases (contract : dict) (min_pct max_pct : Q) (b : bool) :
  _schedule_delay contract min_pct max_pct = Ok b →
  b = false ∨
  ∃ e, ContractScoringEngine.calculate_schedule_variance_score contract =
       (if Qle_bool e 0 then Ok 100
        else if Qle_bool e 5 then Ok 90
        else if Qle_bool e 10 then Ok 80
        else if Qle_bool e 20 then Ok 65
        else if Qle_bool e 30 then Ok 50
        else Ok (py_max 20 (50 - (e - 30)))) ∧
       min_pct <= e < max_pct ∧
       ∀ lo hi, _schedule_delay contract lo hi
                = Ok (Qle_bool lo e && Qlt_bool e hi).
Proof.
  unfold _schedule_delay, ContractScoringEngine.calculate_schedule_variance_score.
  destruct (negb (truthy (get_ contract "original_end_date"))
            || negb (truthy (get_ contract "start_date")));
    [intros [= <-]; by left|].
  unfold schedule_delay_body, ContractScoringEngine.schedule_variance_body.
  destruct (ContractScoringEngine.parse_iso 10
              (get_ contract "original_end_date")) as [oe|];
    [|intros [= <-]; by left].
  cbn [mbind result_bind].
  destruct (ContractScoringEngine.parse_iso 10
              (py_or (get_ contract "current_end_date")
                     (get_ contract "original_end_date"))) as [ce|];
    [|intros [= <-]; by left].
  cbn [mbind result_bind].
  destruct (ContractScoringEngine.parse_iso 10 (get_ contract "start_date"))
    as [st|]; [|intros [= <-]; by left].
  cbn [mbind result_bind].
  destruct (days_between oe st <=? 0)%Z; [intros [= <-]; by left|].
  destruct (truediv (inject_Z (days_between ce oe))
                    (inject_Z (days_between oe st))) as [ratio|];
    [|intros [= <-]; by left].
  cbn [mbind result_bind]. intros [= <-].
  destruct (Qle_bool min_pct (ratio * 100) && Qlt_bool (ratio * 100) max_pct)
    eqn:E; [right|by left].
  apply andb_true_iff in E as [E1 E2].
  apply Qle_bool_iff in E1. apply Qlt_bool_iff in E2.
  exists (ratio * 100). split; [|by split].
  by repeat destruct (Qle_bool _ _).
Qed.

(** X30. The two schedule-delay rules never fire together, and each bounds
    the schedule score of the same contract: with the warning (an extension
    of 10 to 20 %) the score is between 65 and 80, with the critical alert
    (20 to 100 %) between 20 and 65. *)
Theorem schedule_alert_bounds_score (contract : dict) :
  (_schedule_delay contract 10 20 = Ok true →
   _schedule_delay contract 20 100 = Ok false ∧
   ∃ score, ContractScoringEngine.calculate_schedule_variance_score contract
            = Ok score ∧ 65 <= score <= 80) ∧
  (_schedule_delay contract 20 100 = Ok true →
   _schedule_delay contract 10 20 = Ok false ∧
   ∃ score, ContractScoringEngine.calculate_schedule_variance_score contract
            = Ok score ∧ 20 <= score <= 65).
Proof.
  split; intros Hfire;
    destruct (schedule_delay_cases _ _ _ _ Hfire)
      as [|(e & -> & [Hlo Hhi] & Hall)]; try done; rewrite Hall; split.
  - replace (Qle_bool 20 e) with false; [done|].
    symmetry. by apply Qle_bool_false.
  - repeat match goal with
           | |- context [Qle_bool ?a ?b] =>
               let E := fresh "E" in
               destruct (Qle_bool a b) eqn:E;
               [apply Qle_bool_iff in E | apply Qle_bool_false in E]
           end;
      try (exfalso; lra); eexists; (split; [done|]); lra.
  - replace (Qlt_bool e 20) with false; [by rewrite andb_false_r|].
    symmetry. by apply Qlt_bool_false.
  - pose proof (py_max_Qmax 20 (50 - (e - 30))) as M.
    assert (30 < e → 20 <= Qmax 20 (50 - (e - 30)) <= 50) as Hcap.
    { intros. split; [apply Q.le_max_l|apply Q.max_lub; lra]. }
    repeat match goal with
           | |- context [Qle_bool ?a ?b] =>
               let E := fresh "E" in
               destruct (Qle_bool a b) eqn:E;
               [apply Qle_bool_iff in E | apply Qle_bool_false in E]
           end;
      try (exfalso; lra); eexists; (split; [done|]); try lra;
      rewrite M; specialize (Hcap ltac:(lra)); lra.
Qed.

End ScheduleAlerts.

(** A hundred days of work extended by fifteen: a warning, no critical
    alert, and a schedule score of 65. *)
Lemma schedule_alert_bounds_score_example :
  AlertGenerator._schedule_delay (H := SampleRuntime.runtime)
    {[ "start_date" := VStr "2024-01-01";
       "original_end_date" := VStr "2024-04-10";
       "current_end_date" := VStr "2024-04-25" ]} 20 100 = Ok false ∧
  ∃ score,
    ContractScoringEngine.calculate_schedule_variance_score
      (H := SampleRuntime.runtime)
      {[ "start_date" := VStr "2024-01-01";
         "original_end_date" := VStr "2024-04-10";
         "current_end_date" := VStr "2024-04-25" ]} = Ok score ∧
    65 <= score <= 80.
Proof.
  apply (proj1 (schedule_alert_bounds_score (H := SampleRuntime.runtime) _)).
  by vm_compute.
Defined.

(** ** Scores in Python's arithmetic *)

Section Rounding.
Import Binary64.



Lemma pow2_pos (k : Z) : 0 < pow2 k.
Proof. by apply Qpower_0_lt. Qed.

Lemma pow2_le (k l : Z) : (k ≤ l)%Z → pow2 k <= pow2 l.
Proof. intros Hkl. by apply Qpower_le_compat_l. Qed.

Lemma pow2_inject (k : Z) : (0 ≤ k)%Z → pow2 k == inject_Z (2 ^ k).
Proof. intros Hk. symmetry. by apply (Zpower_Qpower 2). Qed.

(** [ilog2] does not overshoot. *)
Lemma ilog2_lower (a : Q) : 0 < a → pow2 (ilog2 a) <= a.
Proof.
  intros Ha. unfold ilog2.
  destruct (Qle_bool _ a) eqn:E; [by apply Qle_bool_iff in E|]. clear E.
  destruct a as [n d]. cbn [Qnum Qden].
  assert (0 < n)%Z as Hn.
  { unfold Qlt in Ha. simpl in Ha. lia. }
  pose proof (Z.log2_spec n Hn) as [Hnl _].
  pose proof (Z.log2_spec (Z.pos d) ltac:(lia)) as [_ Hdu].
  pose proof (Z.log2_nonneg n) as Hln.
  pose proof (Z.log2_nonneg (Z.pos d)) as Hld.
  set (ln := Z.log2 n) in *. set (ld := Z.log2 (Z.pos d)) in *.
  replace (ln - ld - 1)%Z with (ln - Z.succ ld)%Z by lia.
  unfold pow2. rewrite Qpower_minus by done.
  fold (pow2 ln) (pow2 (Z.succ ld)).
  rewrite (pow2_inject ln), (pow2_inject (Z.succ ld)) by lia.
  rewrite (Qmake_Qdiv n d).
  assert (0 < inject_Z (2 ^ Z.succ ld)) as Hp.
  { rewrite <- (Zlt_Qlt 0). lia. }
  assert (0 < inject_Z (Z.pos d)) as Hd.
  { by rewrite <- (Zlt_Qlt 0). }
  apply Qle_shift_div_r; [done|].
  assert (inject_Z n / inject_Z (Z.pos d) * inject_Z (2 ^ Z.succ ld)
          == inject_Z (n * 2 ^ Z.succ ld) / inject_Z (Z.pos d)) as ->.
  { rewrite inject_Z_mult. field. intros E0. rewrite E0 in Hd.
    by apply Qlt_irrefl in Hd. }
  apply Qle_shift_div_l; [done|].
  rewrite <- inject_Z_mult, <- Zle_Qle. nia.
Qed.

Lemma round_half_even_near (x : Q) : inject_Z (round_half_even x) <= x + 1.
Proof.
  pose proof (Qfloor_le x) as Hf.
  destruct (round_half_even_floor x) as [->|[-> _]].
  - lra.
  - rewrite inject_Z_plus. change (inject_Z 1) with 1. lra.
Qed.

(** Below [2^1023] rounding stays finite, and from 1 on it stays away from
    zero. *)
Lemma round_to_double_finite (q : Q) :
  Qabs q < pow2 1023 →
  ∃ r, round_to_double q = Finite r ∧ (1 <= Qabs q → ¬ r == 0) ∧
       Qabs r <= Qabs q + pow2 970.
Proof.
  intros Hq. unfold round_to_double.
  destruct (Qeq_bool q 0) eqn:E0.
  { exists 0. split; [done|]. apply Qeq_bool_iff in E0. rewrite E0. split.
    - intros H1. by vm_compute in H1.
    - by vm_compute. }
  apply Qeq_bool_neq in E0.
  assert (0 < Qabs q) as Ha.
  { pose proof (Qabs_nonneg q) as H0. apply Qle_lteq in H0 as [H0|H0]; [done|].
    exfalso. apply E0. symmetry in H0.
    revert H0. apply Qabs_case; intros; lra. }
  set (a := Qabs q) in *.
  pose proof (ilog2_lower a Ha) as He.
  set (e := ilog2 a) in *.
  assert (e < 1023)%Z as He'.
  { destruct (Z.ltb_spec e 1023) as [|Hge]; [done|].
    pose proof (pow2_le _ _ Hge). lra. }
  set (k := (Z.max e (-1022) - 52)%Z).
  assert (k ≤ 970)%Z as Hk by lia.
  pose proof (pow2_pos k) as Hpk.
  pose proof (pow2_le _ _ Hk) as Hpk'.
  pose proof (round_half_even_near (a / pow2 k)) as Hm.
  set (m := round_half_even (a / pow2 k)) in *.
  assert (inject_Z m * pow2 k <= a + pow2 k) as Hr.
  { apply Qle_trans with ((a / pow2 k + 1) * pow2 k).
    - by apply Qmult_le_compat_r; [|apply Qlt_le_weak].
    - assert ((a / pow2 k + 1) * pow2 k == a + pow2 k) as ->; [|lra].
      field. intros E. rewrite E in Hpk. by apply Qlt_irrefl in Hpk. }
  assert (pow2 1023 + pow2 970 <= pow2 1024) as Hbig by (by vm_compute).
  replace (Qle_bool (pow2 1024) (inject_Z m * pow2 k)) with false.
  2:{ symmetry. apply Qle_bool_false. lra. }
  assert (0 ≤ m)%Z as Hm0.
  { apply round_half_even_ge. change (inject_Z 0) with 0.
    apply Qle_shift_div_l; [done|]. lra. }
  assert (0 <= inject_Z m * pow2 k) as Hr0.
  { apply Qmult_le_0_compat; [|lra]. rewrite <- (Zle_Qle 0). lia. }
  eexists. split; [done|]. split.
  - intros H1.
    assert (pow2 k <= a) as Hka.
    { destruct (Z.le_ge_cases (-1022) e) as [Hle|Hge].
      - apply Qle_trans with (pow2 e); [|done]. apply pow2_le. lia.
      - apply Qle_trans with 1; [|done].
        change 1 with (pow2 0). apply pow2_le. lia. }
    assert (1 ≤ m)%Z as Hm1.
    { apply round_half_even_ge. change (inject_Z 1) with 1.
      apply Qle_shift_div_l; [done|]. lra. }
    assert (0 < inject_Z m * pow2 k) as Hpos.
    { apply Qmult_lt_0_compat; [|done]. rewrite <- (Zlt_Qlt 0). lia. }
    rewrite Qred_correct. destruct (Qlt_bool q 0); lra.
  - rewrite Qred_correct.
    destruct (Qlt_bool q 0); rewrite ?Qabs_opp, Qabs_pos by done; lra.
Qed.

Lemma inject_Z_abs (n : Z) : Qabs (inject_Z n) == inject_Z (Z.abs n).
Proof. unfold Qabs, inject_Z. simpl. reflexivity. Qed.



End Rounding.

Section CostVariance64.
Import Binary64 ContractScoringEngine64.

(** Reading an amount: [get(k, 0) or fallback] as a number. *)
Lemma amount_or_reads (contract : row) (k : string) (fallback : Z) :
  as_number (py_or (get contract k (Integer 0)) (Integer fallback)) =
  match amount_or fallback (contract !! k) with
  | Some a => Ok a
  | None => Raise TypeError
  end.
Proof.
  unfold get, py_or, amount_or.
  destruct (contract !! k) as [[|[]|n|x|s]|]; simpl; try done.
  - by destruct (n =? 0)%Z.
  - by destruct (is_zero x).
  - by destruct (String.eqb s EmptyString).
Qed.










End CostVariance64.


(** Where binary64 and exact arithmetic part: 61.40 grown to 64.47 is a
    variance of exactly 5.0 once rounded (95, not 85), 1.0 grown to 1.1 one
    of 10.000000000000009 (70, not 85), and the quotient of two large
    integers is rounded as well. *)
Lemma cost_variance_score_rounding :
  let amounts original current : Binary64.row :=
    {[ "original_amount" := original; "current_amount" := current ]} in
  let double q := Binary64.Real (Binary64.round_to_double q) in
  ContractScoringEngine64.calculate_cost_variance_score
    (amounts (double 61.40) (double 64.47)) = Ok (Binary64.Int 95) ∧
  ContractScoringEngine64.calculate_cost_variance_score
    (amounts (double 1.0) (double 1.1)) = Ok (Binary64.Int 70) ∧
  ContractScoringEngine64.calculate_cost_variance_score
    (amounts (Binary64.Integer 9000000000000019)
             (Binary64.Integer 9450000000000020)) = Ok (Binary64.Int 95).
Proof. by vm_compute. Qed.

Section VendorScore64.
Import Binary64 VendorScoringEngine64.

Lemma health_of_reads (c : row) :
  as_number (get c "overall_health_score" (Integer 50)) =
  match health_of c with
  | Some h => Ok h
  | None => Raise TypeError
  end.
Proof.
  unfold get, health_of.
  destruct (c !! "overall_health_score") as [[|[]|n|x|s]|]; by simpl.
Qed.

Lemma vendor_step_numbers (acc : num * num) (c : row) (h w : num) :
  health_of c = Some h → weight_of c = Some w →
  vendor_step acc c =
  (product ← mul h w;
   weighted_score ← add acc.2 product;
   total_weight ← add acc.1 w;
   Ok (total_weight, weighted_score)).
Proof.
  intros Hh Hw. unfold vendor_step.
  rewrite health_of_reads, Hh. cbn [mbind result_bind].
  rewrite (amount_or_reads c "current_amount" 1).
  unfold weight_of in Hw. by rewrite Hw.
Qed.

(** The loop adds up the weights and the weighted health scores, from left
    to right. *)
Lemma vendor_loop_adds (contracts : list row) (entries : list (num * num))
    (t0 s0 : num) :
  Forall2 (λ c e, health_of c = Some e.1 ∧ weight_of c = Some e.2)
          contracts entries →
  (∀ t s, sum_from t0 entries.*2 = Ok t → weighted_from s0 entries = Ok s →
          vendor_loop contracts (t0, s0) = Ok (t, s)) ∧
  (∀ acc, vendor_loop contracts (t0, s0) = Ok acc →
          sum_from t0 entries.*2 = Ok acc.1 ∧
          weighted_from s0 entries = Ok acc.2).
Proof.
  intros Hall. revert t0 s0.
  induction Hall as [|c [h w] cs es [Hh Hw] _ IH]; intros t0 s0.
  { split; [by intros t s [= <-] [= <-]|]. by intros acc [= <-]. }
  cbn [fst snd] in Hh, Hw. rewrite fmap_cons.
  cbn [vendor_loop sum_from weighted_from snd].
  rewrite (vendor_step_numbers _ _ _ _ Hh Hw). cbn [fst snd].
  destruct (mul h w) as [p|]; cbn [mbind result_bind];
    [|split; [by intros ? ? _ [=]|by intros ? [=]]].
  destruct (add s0 p) as [s1|]; cbn [mbind result_bind];
    [|split; [by intros ? ? _ [=]|by intros ? [=]]].
  destruct (add t0 w) as [t1|]; cbn [mbind result_bind];
    [|split; [by intros ? ? [=]|by intros ? [=]]].
  apply IH.
Qed.

Lemma sum_from_ints (a : Z) (ws : list Z) :
  sum_from (Int a) (Int <$> ws) = Ok (Int (a + Zsum ws)).
Proof.
  revert a. induction ws as [|w ws IH]; intros a.
  - simpl. by rewrite Z.add_0_r.
  - rewrite fmap_cons. cbn [sum_from add arith mbind result_bind].
    rewrite IH. unfold Zsum. simpl. do 2 f_equal. lia.
Qed.

Lemma weighted_from_ints (a : Z) (ints : list (Z * Z)) :
  weighted_from (Int a) ((λ p, (Int p.1, Int p.2)) <$> ints) =
  Ok (Int (a + Zsum ((λ p, p.1 * p.2)%Z <$> ints))).
Proof.
  revert a. induction ints as [|[h w] ints IH]; intros a.
  - simpl. by rewrite Z.add_0_r.
  - rewrite !fmap_cons.
    cbn [weighted_from mul add arith mbind result_bind fst snd].
    rewrite IH. unfold Zsum. simpl. do 2 f_equal. lia.
Qed.

Lemma round_half_even_far (x : Q) : x - 1 <= inject_Z (round_half_even x).
Proof.
  pose proof (Qlt_floor x) as Hf. rewrite inject_Z_plus in Hf.
  change (inject_Z 1) with 1 in Hf.
  destruct (round_half_even_floor x) as [->|[-> _]].
  - lra.
  - rewrite inject_Z_plus. change (inject_Z 1) with 1. lra.
Qed.

(** Rounding to one decimal moves a number by less than 1. *)
Lemma py_round1_near (q : Q) : Qabs (py_round q 1) <= Qabs q + 1.
Proof.
  unfold py_round.
  change (Z.pos (10 ^ Pos.of_nat 1)) with 10%Z.
  change (10 ^ Pos.of_nat 1)%positive with 10%positive.
  change (inject_Z 10) with 10.
  pose proof (round_half_even_near (q * 10)) as Hhi.
  pose proof (round_half_even_far (q * 10)) as Hlo.
  set (m := round_half_even (q * 10)) in *.
  rewrite (Qmake_Qdiv m 10). change (inject_Z (Z.pos 10)) with 10.
  assert (q - 1 <= inject_Z m / 10 <= q + 1) as [H1 H2].
  { split.
    - apply Qle_shift_div_l; [done|]. lra.
    - apply Qle_shift_div_r; [done|]. lra. }
  apply Qabs_Qle_condition. split.
  - revert H1. apply Qabs_case; intros; lra.
  - revert H2. apply Qabs_case; intros; lra.
Qed.

Lemma weighted_bound (M : Z) (ints : list (Z * Z)) :
  Forall (λ p, (Z.abs p.1 ≤ M ∧ 0 < p.2)%Z) ints →
  (Z.abs (Zsum ((λ p, p.1 * p.2)%Z <$> ints)) ≤ M * Zsum (snd <$> ints))%Z ∧
  (0 ≤ Zsum (snd <$> ints))%Z ∧
  (ints ≠ [] → (0 < Zsum (snd <$> ints))%Z).
Proof.
  unfold Zsum. induction 1 as [|[h w] ints [Hh Hw] _ (IH1 & IH2 & _)].
  - simpl. split; [lia|]. split; [lia|done].
  - rewrite !fmap_cons. cbn [foldr fst snd] in *.
    assert (Z.abs (h * w) ≤ M * w)%Z as Hhw.
    { rewrite Z.abs_mul, (Z.abs_eq w) by lia.
      apply Z.mul_le_mono_nonneg_r; lia. }
    split; [lia|]. split; [lia|]. intros _. lia.
Qed.

Lemma bounds_1000 :
  inject_Z (2 ^ 1000) + pow2 970 + 1 < pow2 1023.
Proof. by vm_compute. Qed.

(** The rounded mean of integer data is a finite double when it is no
    more than [2^1000] in absolute value. *)
Lemma int_mean_returns (W T : Z) :
  (0 < T)%Z → (Z.abs W ≤ 2 ^ 1000 * T)%Z →
  ∃ q, (mean ← truediv (Int W) (Int T); round mean 1)
       = Ok (Float (Finite q)).
Proof.
  intros HT HW. unfold truediv.
  replace (T =? 0)%Z with false by (symmetry; apply Z.eqb_neq; lia).
  pose proof bounds_1000 as Hbig. pose proof (pow2_pos 970) as H970.
  assert (0 < inject_Z T) as HqT by (rewrite <- (Zlt_Qlt 0); lia).
  assert (Qabs (inject_Z W / inject_Z T) <= inject_Z (2 ^ 1000)) as Hmean.
  { unfold Qdiv. rewrite Qabs_Qmult, Qabs_Qinv, (Qabs_pos (inject_Z T)) by lra.
    apply Qle_shift_div_r; [done|].
    rewrite inject_Z_abs, <- inject_Z_mult, <- Zle_Qle. lia. }
  destruct (round_to_double_finite (inject_Z W / inject_Z T))
    as (r & -> & _ & Hr); [lra|].
  cbn [mbind result_bind round].
  pose proof (py_round1_near r) as Hnear.
  destruct (round_to_double_finite (py_round r 1)) as (q & -> & _); [lra|].
  by exists q.
Qed.

(** C4, as the code has it.  The vendor score is 50 without contracts.
    Otherwise each contract weighs its current amount, or 1 when the amount
    is absent, null or zero, and a missing health score counts as 50; the
    weights and the products health times weight are added up from left to
    right in Python's arithmetic, and the score is their quotient rounded
    to one decimal when the total weight is above 0, and 50 when it is
    not.  On integers both sums are exact, so that the quotient is the
    exact weighted mean rounded once to a double. *)
Theorem vendor_score_weighted_mean (vendor : row) (contracts : list row)
    (entries : list (num * num)) :
  Forall2 (λ c e, health_of c = Some e.1 ∧ weight_of c = Some e.2)
          contracts entries →
  let score := calculate_vendor_score vendor contracts in
  (contracts = [] → score = Ok (Int 50)) ∧
  (contracts ≠ [] →
   (∀ total_weight weighted_score,
      sum_from (Int 0) entries.*2 = Ok total_weight →
      weighted_from (Int 0) entries = Ok weighted_score →
      (num_lt (Int 0) total_weight →
       score = (mean ← truediv weighted_score total_weight; round mean 1)) ∧
      (¬ num_lt (Int 0) total_weight → score = Ok (Int 50))) ∧
   (∀ r, score = Ok r →
      ∃ total_weight weighted_score,
        sum_from (Int 0) entries.*2 = Ok total_weight ∧
        weighted_from (Int 0) entries = Ok weighted_score) ∧
   (∀ ints : list (Z * Z),
      entries = (λ p, (Int p.1, Int p.2)) <$> ints →
      let total_weight := Zsum (snd <$> ints) in
      let weighted_score := Zsum ((λ p, p.1 * p.2)%Z <$> ints) in
      ((0 < total_weight)%Z →
       score = (mean ← truediv (Int weighted_score) (Int total_weight);
                round mean 1)) ∧
      ((total_weight ≤ 0)%Z → score = Ok (Int 50)) ∧
      (Forall (λ p, (Z.abs p.1 ≤ 2 ^ 1000 ∧ 0 < p.2)%Z) ints →
       ∃ q, score = Ok (Float (Finite q))))).
Proof.
  intros Hall score. subst score. split; [by intros ->|]. intros Hne.
  destruct (vendor_loop_adds contracts entries (Int 0) (Int 0) Hall)
    as [Hsums Hback].
  unfold calculate_vendor_score. destruct contracts as [|c cs]; [done|].
  set (contracts := c :: cs) in *.
  assert (∀ total_weight weighted_score,
            sum_from (Int 0) entries.*2 = Ok total_weight →
            weighted_from (Int 0) entries = Ok weighted_score →
            (num_lt (Int 0) total_weight →
             (acc ← vendor_loop contracts (Int 0, Int 0);
              if ltb (Int 0) acc.1
              then mean ← truediv acc.2 acc.1; round mean 1
              else Ok (Int 50)) =
             (mean ← truediv weighted_score total_weight; round mean 1)) ∧
            (¬ num_lt (Int 0) total_weight →
             (acc ← vendor_loop contracts (Int 0, Int 0);
              if ltb (Int 0) acc.1
              then mean ← truediv acc.2 acc.1; round mean 1
              else Ok (Int 50)) = Ok (Int 50))) as Hmean.
  { intros t s Ht Hs. rewrite (Hsums t s Ht Hs).
    cbn [mbind result_bind fst snd]. unfold num_lt.
    split; [by intros ->|]. by destruct (ltb (Int 0) t). }
  split; [exact Hmean|]. split.
  - intros r. destruct (vendor_loop contracts (Int 0, Int 0)) as [acc|] eqn:E;
      [|done].
    intros _. destruct (Hback acc eq_refl) as [Ht Hs]. eauto.
  - intros ints Hent. subst entries. cbv zeta.
    assert (((λ p : Z * Z, (Int p.1, Int p.2)) <$> ints).*2
            = Int <$> (snd <$> ints)) as Hws.
    { rewrite <- !list_fmap_compose. by apply list_fmap_ext. }
    destruct (Hmean (Int (Zsum (snd <$> ints)))
                (Int (Zsum ((λ p, p.1 * p.2)%Z <$> ints)))) as [Hpos Hnon].
    { rewrite Hws, sum_from_ints. by rewrite Z.add_0_l. }
    { rewrite weighted_from_ints. by rewrite Z.add_0_l. }
    assert ((0 < Zsum (snd <$> ints))%Z →
            num_lt (Int 0) (Int (Zsum (snd <$> ints)))) as Hlt.
    { intros Ht. unfold num_lt, ltb. simpl.
      apply Qlt_bool_iff. change 0 with (inject_Z 0). by rewrite <- Zlt_Qlt. }
    split; [by intros Ht; apply Hpos, Hlt|]. split.
    + intros Ht. apply Hnon. unfold num_lt, ltb. simpl.
      intros Hlt'. apply Qlt_bool_iff in Hlt'.
      change 0 with (inject_Z 0) in Hlt'. rewrite <- Zlt_Qlt in Hlt'. lia.
    + intros Hints.
      destruct (weighted_bound (2 ^ 1000) ints Hints) as (HW & _ & HT).
      assert (ints ≠ []) as Hne'.
      { intros ->. by apply Forall2_nil_inv_r in Hall. }
      specialize (HT Hne').
      destruct (int_mean_returns _ _ HT HW) as [q Hq].
      exists q. by rewrite (Hpos (Hlt HT)).
Qed.

End VendorScore64.

(** The example of the specification: values 100 and 900 with health 80 and
    40 give 44.0, by the weighted mean. *)
Lemma vendor_score_example :
  VendorScoringEngine64.calculate_vendor_score ∅
    [ {[ "current_amount" := Binary64.Integer 100;
         "overall_health_score" := Binary64.Integer 80 ]};
      {[ "current_amount" := Binary64.Integer 900;
         "overall_health_score" := Binary64.Integer 40 ]} ]
  = Ok (Binary64.Float (Binary64.Finite 44)).
Proof.
  destruct (vendor_score_weighted_mean ∅
              [ {[ "current_amount" := Binary64.Integer 100;
                   "overall_health_score" := Binary64.Integer 80 ]};
                {[ "current_amount" := Binary64.Integer 900;
                   "overall_health_score" := Binary64.Integer 40 ]} ]
              [ (Binary64.Int 80, Binary64.Int 100);
                (Binary64.Int 40, Binary64.Int 900) ])
    as [_ Hmean].
  { constructor; [by vm_compute|]. constructor; [by vm_compute|constructor]. }
  destruct (Hmean ltac:(done)) as (_ & _ & Hints).
  destruct (Hints [(80, 100); (40, 900)]%Z eq_refl) as (Hpos & _ & _).
  rewrite Hpos; by vm_compute.
Defined.

(** Thirteen contracts of health 80 and seven of health 81, all of 500:
    the quotient 803500 / 10000 is the double just below 80.35, and the
    score 80.3. *)
Lemma vendor_score_rounding :
  let contract health : Binary64.row :=
    {[ "current_amount" := Binary64.Integer 500;
       "overall_health_score" := Binary64.Integer health ]} in
  VendorScoringEngine64.calculate_vendor_score ∅
    (replicate 13 (contract 80%Z) ++ replicate 7 (contract 81%Z))%list
  = Ok (Binary64.Float (Binary64.round_to_double 80.3)).
Proof. by vm_compute. Qed.

(** The vendor score is not the stated weighted mean on every list, not
    even up to a tenth: a negative total weight gives 50, and a contract of
    amount zero weighs 1, not 0. *)
Lemma vendor_score_counterexample :
  let credit : list Binary64.row :=
    [ {[ "current_amount" := Binary64.Integer (-5);
         "overall_health_score" := Binary64.Integer 80 ]} ] in
  let unpriced : list Binary64.row :=
    [ {[ "current_amount" := Binary64.Integer 0;
         "overall_health_score" := Binary64.Integer 80 ]};
      {[ "current_amount" := Binary64.Integer 1;
         "overall_health_score" := Binary64.Integer 40 ]} ] in
  (VendorScoringEngine64.calculate_vendor_score ∅ credit
   = Ok (Binary64.Int 50) ∧
   stated_vendor_score credit == 80) ∧
  (VendorScoringEngine64.calculate_vendor_score ∅ unpriced
   = Ok (Binary64.Float (Binary64.Finite 60)) ∧
   stated_vendor_score unpriced == 40) ∧
  ¬ (∀ contracts, contracts ≠ [] →
       ∃ r q, VendorScoringEngine64.calculate_vendor_score ∅ contracts = Ok r ∧
              Binary64.real r = Binary64.Finite q ∧
              Qabs (q - stated_vendor_score contracts) <= 1 # 10).
Proof.
  intros credit unpriced.
  split; [split; by vm_compute|]. split; [split; by vm_compute|].
  intros Hall. destruct (Hall credit) as (r & q & Hr & Hq & Hclose); [done|].
  vm_compute in Hr. injection Hr as <-. vm_compute in Hq.
  injection Hq as <-. vm_compute in Hclose. by apply Hclose.
Qed.
